(** * renderer.h: a shallow embedding of the Clay/Raylib glue layer

    The development follows the single header [renderer.h]:
    - the C numeric model the header relies on (IEEE binary32 [float],
      binary64 [double], fixed-width integers and their conversions);
    - the arena allocator ([alignForward], [ArenaAlloc], [ArenaReset],
      [ArenaInit]);
    - the style token compiler ([ParseComponentOptions]);
    - the scroll helpers ([ScrollContainerByY] and friends);
    - the render command interpreter ([Clay_Raylib_Render]);
    - the formatted strings built in an arena ([F]) and the text
      measurement ([Raylib_MeasureText]).

    Calls that leave the header (Raylib drawing primitives, [printf]) are
    recorded as events of a trace; the ways a C function can fail to return
    ([assert], [exit], behaviour the C standard leaves undefined) are the
    constructors of [outcome]. *)

From Stdlib Require Import ZArith List String Ascii Bool Lia Sorting.Sorted.
From Stdlib Require Import Floats.SpecFloat.
From stdpp Require Import base option list gmap strings.

Open Scope Z_scope.

(* ===================================================================== *)
(** * Part I: definitions                                                 *)
(* ===================================================================== *)

(* --------------------------------------------------------------------- *)
(** ** How a C call ends *)

Inductive outcome (A : Type) : Type :=
| Returned (a : A)               (* the call returns [a] *)
| AssertFailed (msg : string)    (* [assert(cond && msg)] failed: abort() *)
| Exited (status : Z)            (* [exit(status)] *)
| Undefined (what : string).     (* undefined behaviour of C *)

Arguments Returned {A} a.
Arguments AssertFailed {A} msg.
Arguments Exited {A} status.
Arguments Undefined {A} what.

#[export] Instance outcome_ret : MRet outcome := @Returned.
#[export] Instance outcome_bind : MBind outcome := fun A B k o =>
  match o with
  | Returned a => k a
  | AssertFailed msg => AssertFailed msg
  | Exited st => Exited st
  | Undefined w => Undefined w
  end.

Definition c_assert (cond : bool) (msg : string) : outcome unit :=
  if cond then Returned tt else AssertFailed msg.

Definition defined {A : Type} (what : string) (o : option A) : outcome A :=
  match o with
  | Some a => Returned a
  | None => Undefined what
  end.

(* --------------------------------------------------------------------- *)
(** ** C numbers

    [float] is IEEE 754 binary32 and [double] binary64, both carried by
    [spec_float]; every operation rounds to nearest, ties to even. *)

Definition float : Type := spec_float.
Definition double : Type := spec_float.

Definition fadd : float -> float -> float := SFadd 24 128.
Definition fsub : float -> float -> float := SFsub 24 128.
Definition fmul : float -> float -> float := SFmul 24 128.
Definition fdiv : float -> float -> float := SFdiv 24 128.
Definition fneg : float -> float := SFopp.

Definition dmul : double -> double -> double := SFmul 53 1024.
Definition ddiv : double -> double -> double := SFdiv 53 1024.
Definition dneg : double -> double := SFopp.

(** Comparisons: every one of them is false on a NaN, except [!=]. *)
Definition flt (x y : spec_float) : bool := SFltb x y.   (* x < y *)
Definition fgt (x y : spec_float) : bool := SFltb y x.   (* x > y *)
Definition fle (x y : spec_float) : bool := SFleb x y.   (* x <= y *)
Definition fge (x y : spec_float) : bool := SFleb y x.   (* x >= y *)
Definition feq (x y : spec_float) : bool := SFeqb x y.   (* x == y *)
Definition fne (x y : spec_float) : bool := negb (SFeqb x y). (* x != y *)
Definition isnan (x : spec_float) : bool :=
  match x with S754_nan => true | _ => false end.

(** Integer to floating conversion, [(float)n] and [(double)n]. *)
Definition float_of_Z (n : Z) : float := binary_normalize 24 128 n 0 false.
Definition double_of_Z (n : Z) : double := binary_normalize 53 1024 n 0 false.

(** Decimal constants such as [1.5f] (15/10) or [0.01] (1/100): the
    quotient [n / d] of two integers, correctly rounded. *)
Definition float_ratio (n d : positive) : float :=
  SFdiv 24 128 (S754_finite false n 0) (S754_finite false d 0).
Definition double_ratio (n d : positive) : double :=
  SFdiv 53 1024 (S754_finite false n 0) (S754_finite false d 0).

(** [(float)d] and [(double)f]. *)
Definition float_of_double (d : double) : float :=
  match d with
  | S754_finite s m e => binary_round 24 128 s m e
  | _ => d
  end.
Definition double_of_float (f : float) : double :=
  match f with
  | S754_finite s m e => binary_round 53 1024 s m e
  | _ => f
  end.

(** The integral part of a finite value (the fraction is discarded); no
    value for an infinity or a NaN. *)
Definition trunc (x : spec_float) : option Z :=
  match x with
  | S754_zero _ => Some 0
  | S754_finite s m e =>
      let a := match e with
               | Zneg k => Z.shiftr (Zpos m) (Zpos k)
               | _ => Z.shiftl (Zpos m) e
               end in
      Some (if s then - a else a)
  | _ => None
  end.

(** Floating to integer conversion: defined when the integral part fits
    the destination type (C11 6.3.1.4), undefined otherwise. *)
Definition to_integer (lo hi : Z) (x : spec_float) : option Z :=
  match trunc x with
  | Some n => if (lo <=? n) && (n <=? hi) then Some n else None
  | None => None
  end.

Definition INT_MIN : Z := - 2 ^ 31.
Definition INT_MAX : Z := 2 ^ 31 - 1.
Definition to_int (x : spec_float) : outcome Z :=
  defined "float to int conversion out of range" (to_integer INT_MIN INT_MAX x).
Definition to_uint8 (x : spec_float) : outcome Z :=
  defined "float to uint8_t conversion out of range" (to_integer 0 255 x).
Definition to_uint16 (x : spec_float) : outcome Z :=
  defined "double to uint16_t conversion out of range" (to_integer 0 65535 x).

(** [roundf]: nearest integer, halfway cases away from zero. *)
Definition roundf (x : float) : float :=
  match x with
  | S754_finite s m (Zneg k) =>
      let q := Z.shiftr (Zpos m) (Zpos k) in
      let r := Z.land (Zpos m) (Z.ones (Zpos k)) in
      let n := if 2 ^ (Zpos k - 1) <=? r then q + 1 else q in
      binary_normalize 24 128 (if s then - n else n) 0 s
  | _ => x
  end.

(** [fmaxf] and [fminf] of <math.h>: a NaN argument is treated as missing
    data (C11 7.12.12); written as glibc's generic versions are. *)
Definition fmaxf (x y : float) : float := if fge x y || isnan y then x else y.
Definition fminf (x y : float) : float := if fle x y || isnan y then x else y.

(** Unsigned wrap-around of [size_t] and the range of [intptr_t] (LP64). *)
Definition sizeof_ptr : Z := 8.
Definition SIZE_MAX : Z := 2 ^ (8 * sizeof_ptr) - 1.
Definition INTPTR_MIN : Z := - 2 ^ (8 * sizeof_ptr - 1).
Definition INTPTR_MAX : Z := 2 ^ (8 * sizeof_ptr - 1) - 1.
Definition size_t (n : Z) : Z := n mod 2 ^ (8 * sizeof_ptr).

(** Signed arithmetic that leaves the type's range is undefined. *)
Definition intptr (n : Z) : outcome Z :=
  if (INTPTR_MIN <=? n) && (n <=? INTPTR_MAX) then Returned n
  else Undefined "signed overflow of intptr_t".

(** [(intptr_t)u] for an unsigned [u]: reinterpretation in two's complement. *)
Definition intptr_of_size (u : Z) : Z :=
  if size_t u <=? INTPTR_MAX then size_t u else size_t u - 2 ^ (8 * sizeof_ptr).

(* --------------------------------------------------------------------- *)
(** ** Arena allocator (renderer.h, "Arena Implementation") *)

(** [struct Arena]; [buffer] is the address of the block, the offsets and
    the length are [size_t]. *)
Record Arena : Type := {
  buffer : Z;
  bufferLength : Z;
  prevOffset : Z;
  currOffset : Z;
}.

(** The block of memory [malloc] handed out for an arena: the address of
    its first byte and its bytes. A failed [malloc] is the block at address
    0 with no byte. *)
Record Block : Type := {
  base : Z;
  bytes : list Z;
}.

(** [DEFAULT_ALIGNMENT]: twice the size of a pointer. *)
Definition DEFAULT_ALIGNMENT : Z := 2 * sizeof_ptr.

Definition alignForward (ptr : Z) : outcome Z :=
  let p := ptr in
  let a := DEFAULT_ALIGNMENT in
  (* Same as (p % a) but faster as 'a' is a power of two *)
  let modulo := Z.land p (a - 1) in
  if negb (modulo =? 0) then
    (* p += a - modulo; *)
    intptr (p + (a - modulo))
  else Returned p.

(** [memset(ptr, c, n)] on the arena's block: defined when the [n] bytes at
    [ptr] lie inside the block. *)
Definition memset (m : Block) (ptr c n : Z) : outcome Block :=
  let off := ptr - base m in
  if (0 <=? off) && (off + n <=? Z.of_nat (length (bytes m))) then
    Returned {| base := base m;
                bytes := take (Z.to_nat off) (bytes m)
                         ++ replicate (Z.to_nat n) c
                         ++ drop (Z.to_nat (off + n)) (bytes m) |}
  else Undefined "memset outside the arena's buffer".

(** [ArenaAlloc(a, size)]: the pointer returned, the arena and its block
    after the call. *)
Definition ArenaAlloc (a : Arena) (m : Block) (size : Z)
  : outcome (Z * Arena * Block) :=
  (* intptr_t currPtr = (intptr_t)a->buffer + (intptr_t)a->currOffset; *)
  currPtr ← intptr (buffer a + intptr_of_size (currOffset a));
  offset ← alignForward currPtr;
  (* offset -= (intptr_t)a->buffer; *)
  offset ← intptr (offset - buffer a);
  (* offset + size is computed in size_t *)
  c_assert (size_t (offset + size) <=? bufferLength a)
           "Arena ran out of space left";;
  let ptr := buffer a + offset in
  let a' := {| buffer := buffer a;
               bufferLength := bufferLength a;
               prevOffset := size_t offset;
               currOffset := size_t (offset + size) |} in
  (* Zero new memory by default *)
  m' ← memset m ptr 0 size;
  mret (ptr, a', m').

(** [ArenaReset(arena)] *)
Definition ArenaReset (arena : Arena) : Arena :=
  {| buffer := buffer arena;
     bufferLength := bufferLength arena;
     prevOffset := prevOffset arena;
     currOffset := 0 |}.

(** [ArenaInit(size)], given the block [malloc(size)] returned. *)
Definition ArenaInit (size : Z) (m : Block) : Arena :=
  {| buffer := base m;
     bufferLength := size;
     prevOffset := 0;
     currOffset := 0 |}.

(** A run of [ArenaAlloc] calls on one arena with no reset in between: the
    regions [(pointer, size)] returned, in call order. *)
Fixpoint ArenaAllocs (a : Arena) (m : Block) (sizes : list Z)
  : outcome (list (Z * Z) * Arena * Block) :=
  match sizes with
  | [] => mret ([], a, m)
  | size :: rest =>
      '(ptr, a', m') ← ArenaAlloc a m size;
      '(regions, a'', m'') ← ArenaAllocs a' m' rest;
      mret ((ptr, size) :: regions, a'', m'')
  end.

(** What [malloc(size)] returns when it succeeds: a block of [size] bytes
    that lies in the user address space. *)
Definition malloced (size : Z) (m : Block) : Prop :=
  Z.of_nat (length (bytes m)) = size /\
  0 < base m /\ base m + size + DEFAULT_ALIGNMENT <= INTPTR_MAX.

(** An arena in use: it describes its block, and the bump offset is inside
    the buffer. *)
Definition arena_ok (a : Arena) (m : Block) : Prop :=
  buffer a = base m /\
  malloced (bufferLength a) m /\
  0 <= currOffset a <= bufferLength a.

(** Two regions of memory [(pointer, size)] share no byte. *)
Definition disjoint_regions (r1 r2 : Z * Z) : Prop :=
  r1.1 + r1.2 <= r2.1 \/ r2.1 + r2.2 <= r1.1.

(** A region lies inside the arena's buffer. *)
Definition within_buffer (a : Arena) (r : Z * Z) : Prop :=
  buffer a <= r.1 /\ r.1 + r.2 <= buffer a + bufferLength a.

(* --------------------------------------------------------------------- *)
(** ** C strings

    A [char x[N]] member is carried by a [string] [s] of at most [N]
    characters and holds [s] followed by zeros, as an initializer
    [.x = "..."] leaves it. A [char *] argument is carried by the characters
    it points to. In both, a C string ends at the first zero character. *)

Definition NUL : ascii := Ascii.zero.

Fixpoint until_nul (s : string) : string :=
  match s with
  | EmptyString => EmptyString
  | String c s' => if Ascii.eqb c NUL then EmptyString else String c (until_nul s')
  end.

Definition strlen (s : string) : Z := Z.of_nat (String.length (until_nul s)).

(** The first [n] characters of the array. *)
Fixpoint array_prefix (n : nat) (s : string) : string :=
  match n, s with
  | S n', String c s' => String c (array_prefix n' s')
  | _, _ => EmptyString
  end.

(** [x[i]] for [char x[N]], [i < N]. *)
Definition char_at (N : nat) (s : string) (i : nat) : ascii :=
  match String.get i (array_prefix N s) with
  | Some c => c
  | None => NUL
  end.

(** [strnlen(x, N)] for [char x[N]]. *)
Definition strnlen (N : nat) (s : string) : Z :=
  Z.of_nat (String.length (until_nul (array_prefix N s))).

(** The C string held by [char x[N]]: its characters up to the first zero;
    none when no zero lies inside the array (reading on leaves the array). *)
Definition array_cstring (N : nat) (s : string) : outcome string :=
  let c := until_nul (array_prefix N s) in
  if (String.length c <? N)%nat then Returned c
  else Undefined "string function reads past the end of a char array".

(** Index of the last occurrence of [c] in a C string, [None] for the null
    pointer that [strrchr] returns when there is none. *)
Fixpoint strrchr (s : string) (c : ascii) : option Z :=
  match s with
  | EmptyString => None
  | String d s' =>
      match strrchr s' c with
      | Some i => Some (i + 1)
      | None => if Ascii.eqb d c then Some 0 else None
      end
  end.

(** [memcpy(buf, src + from, len); buf[len] = 0] into [char buf[N]]: the C
    string left in [buf]. Writing past [buf] is undefined. *)
Definition copy_terminated (N : nat) (src : string) (from len : Z)
  : outcome string :=
  if (len <? Z.of_nat N) then
    Returned (String.substring (Z.to_nat from) (Z.to_nat len) src)
  else Undefined "write past the end of a local char buffer".

(** [strcmp(x, lit) == 0] *)
Definition streq (x lit : string) : bool := String.eqb x lit.

(* --------------------------------------------------------------------- *)
(** ** Clay's data (clay.h), as far as renderer.h reads and writes it

    Members are prefixed with an abbreviation of their struct, since C keeps
    one name space per struct and Rocq does not. Pointers that renderer.h
    only passes on are addresses in [Z]. *)

Record Clay_Color : Type :=
  { color_r : float; color_g : float; color_b : float; color_a : float }.
Record Clay_Dimensions : Type := { dim_width : float; dim_height : float }.
Record Clay_Vector2 : Type := { v2_x : float; v2_y : float }.
Record Clay_BoundingBox : Type :=
  { bb_x : float; bb_y : float; bb_width : float; bb_height : float }.
Record Clay_CornerRadius : Type :=
  { topLeft : float; topRight : float; bottomLeft : float; bottomRight : float }.
(** Border widths are [uint16_t]. *)
Record Clay_BorderWidth : Type :=
  { bw_left : Z; bw_right : Z; bw_top : Z; bw_bottom : Z; bw_betweenChildren : Z }.
(** Paddings are [uint16_t]. *)
Record Clay_Padding : Type :=
  { pad_left : Z; pad_right : Z; pad_top : Z; pad_bottom : Z }.

Inductive Clay_LayoutDirection : Type := CLAY_LEFT_TO_RIGHT | CLAY_TOP_TO_BOTTOM.
Inductive Clay_LayoutAlignmentX : Type :=
  CLAY_ALIGN_X_LEFT | CLAY_ALIGN_X_RIGHT | CLAY_ALIGN_X_CENTER.
Inductive Clay_LayoutAlignmentY : Type :=
  CLAY_ALIGN_Y_TOP | CLAY_ALIGN_Y_BOTTOM | CLAY_ALIGN_Y_CENTER.
Inductive Clay__SizingType : Type :=
  | CLAY__SIZING_TYPE_FIT
  | CLAY__SIZING_TYPE_GROW
  | CLAY__SIZING_TYPE_PERCENT
  | CLAY__SIZING_TYPE_FIXED.

(** [union { Clay_SizingMinMax minMax; float percent; } size] *)
Inductive Clay_SizingSize : Type :=
  | minMax (min max : float)
  | percent (p : float).
Record Clay_SizingAxis : Type :=
  { axis_size : Clay_SizingSize; axis_type : Clay__SizingType }.
Record Clay_Sizing : Type :=
  { sizing_width : Clay_SizingAxis; sizing_height : Clay_SizingAxis }.
Record Clay_ChildAlignment : Type :=
  { align_x : Clay_LayoutAlignmentX; align_y : Clay_LayoutAlignmentY }.
Record Clay_LayoutConfig : Type := {
  lc_sizing : Clay_Sizing;
  lc_padding : Clay_Padding;
  lc_childGap : Z;                    (* uint16_t *)
  lc_childAlignment : Clay_ChildAlignment;
  lc_layoutDirection : Clay_LayoutDirection;
}.

(** [Clay_String]: a length and that many characters. *)
Definition Clay_String : Type := string.
Record Clay_ElementId : Type :=
  { eid_id : Z; eid_offset : Z; eid_baseId : Z; eid_stringId : Clay_String }.

Record Clay_ImageElementConfig : Type :=
  { img_imageData : Z; img_sourceDimensions : Clay_Dimensions }.
Record Clay_FloatingElementConfig : Type := {
  fl_offset : Clay_Vector2;
  fl_expand : Clay_Dimensions;
  fl_parentId : Z;
  fl_zIndex : Z;
  fl_attachPoints : Z * Z;
  fl_pointerCaptureMode : Z;
  fl_attachTo : Z;
}.
Record Clay_CustomElementConfig : Type := { cust_customData : Z }.
Record Clay_ScrollElementConfig : Type :=
  { scroll_horizontal : bool; scroll_vertical : bool }.
Record Clay_BorderElementConfig : Type :=
  { border_color : Clay_Color; border_width : Clay_BorderWidth }.

Record Clay_ElementDeclaration : Type := {
  ed_id : Clay_ElementId;
  ed_layout : Clay_LayoutConfig;
  ed_backgroundColor : Clay_Color;
  ed_cornerRadius : Clay_CornerRadius;
  ed_image : Clay_ImageElementConfig;
  ed_floating : Clay_FloatingElementConfig;
  ed_custom : Clay_CustomElementConfig;
  ed_scroll : Clay_ScrollElementConfig;
  ed_border : Clay_BorderElementConfig;
  ed_userData : Z;
}.

(** The sizing macros of clay.h. *)
Definition CLAY_SIZING_FIT (min : float) : Clay_SizingAxis :=
  {| axis_size := minMax min (S754_zero false); axis_type := CLAY__SIZING_TYPE_FIT |}.
Definition CLAY_SIZING_GROW (min : float) : Clay_SizingAxis :=
  {| axis_size := minMax min (S754_zero false); axis_type := CLAY__SIZING_TYPE_GROW |}.
Definition CLAY_SIZING_FIXED (fixedSize : float) : Clay_SizingAxis :=
  {| axis_size := minMax fixedSize fixedSize; axis_type := CLAY__SIZING_TYPE_FIXED |}.
Definition CLAY_SIZING_PERCENT (percentOfParent : float) : Clay_SizingAxis :=
  {| axis_size := percent percentOfParent; axis_type := CLAY__SIZING_TYPE_PERCENT |}.
Definition CLAY_CORNER_RADIUS (radius : float) : Clay_CornerRadius :=
  {| topLeft := radius; topRight := radius; bottomLeft := radius; bottomRight := radius |}.

(** Zero initialization, the value of every member an initializer leaves out. *)
Definition fzero : float := S754_zero false.
Definition Clay_Color_zero : Clay_Color :=
  {| color_r := fzero; color_g := fzero; color_b := fzero; color_a := fzero |}.
Definition Clay_CornerRadius_zero : Clay_CornerRadius := CLAY_CORNER_RADIUS fzero.
Definition Clay_BorderWidth_zero : Clay_BorderWidth :=
  {| bw_left := 0; bw_right := 0; bw_top := 0; bw_bottom := 0; bw_betweenChildren := 0 |}.
Definition Clay_Dimensions_zero : Clay_Dimensions :=
  {| dim_width := fzero; dim_height := fzero |}.
Definition Clay_SizingAxis_zero : Clay_SizingAxis :=
  {| axis_size := minMax fzero fzero; axis_type := CLAY__SIZING_TYPE_FIT |}.
Definition Clay_LayoutConfig_zero : Clay_LayoutConfig :=
  {| lc_sizing := {| sizing_width := Clay_SizingAxis_zero;
                     sizing_height := Clay_SizingAxis_zero |};
     lc_padding := {| pad_left := 0; pad_right := 0; pad_top := 0; pad_bottom := 0 |};
     lc_childGap := 0;
     lc_childAlignment := {| align_x := CLAY_ALIGN_X_LEFT; align_y := CLAY_ALIGN_Y_TOP |};
     lc_layoutDirection := CLAY_LEFT_TO_RIGHT |}.
Definition Clay_ElementDeclaration_zero : Clay_ElementDeclaration :=
  {| ed_id := {| eid_id := 0; eid_offset := 0; eid_baseId := 0; eid_stringId := "" |};
     ed_layout := Clay_LayoutConfig_zero;
     ed_backgroundColor := Clay_Color_zero;
     ed_cornerRadius := Clay_CornerRadius_zero;
     ed_image := {| img_imageData := 0; img_sourceDimensions := Clay_Dimensions_zero |};
     ed_floating := {| fl_offset := {| v2_x := fzero; v2_y := fzero |};
                       fl_expand := Clay_Dimensions_zero;
                       fl_parentId := 0; fl_zIndex := 0; fl_attachPoints := (0, 0);
                       fl_pointerCaptureMode := 0; fl_attachTo := 0 |};
     ed_custom := {| cust_customData := 0 |};
     ed_scroll := {| scroll_horizontal := false; scroll_vertical := false |};
     ed_border := {| border_color := Clay_Color_zero; border_width := Clay_BorderWidth_zero |};
     ed_userData := 0 |}.

(** Assignments to members of a declaration, [result.member = v]. *)
Definition set_layout (f : Clay_LayoutConfig -> Clay_LayoutConfig)
  (d : Clay_ElementDeclaration) : Clay_ElementDeclaration :=
  {| ed_id := ed_id d; ed_layout := f (ed_layout d);
     ed_backgroundColor := ed_backgroundColor d; ed_cornerRadius := ed_cornerRadius d;
     ed_image := ed_image d; ed_floating := ed_floating d; ed_custom := ed_custom d;
     ed_scroll := ed_scroll d; ed_border := ed_border d; ed_userData := ed_userData d |}.
Definition set_id (v : Clay_ElementId) (d : Clay_ElementDeclaration) :=
  {| ed_id := v; ed_layout := ed_layout d;
     ed_backgroundColor := ed_backgroundColor d; ed_cornerRadius := ed_cornerRadius d;
     ed_image := ed_image d; ed_floating := ed_floating d; ed_custom := ed_custom d;
     ed_scroll := ed_scroll d; ed_border := ed_border d; ed_userData := ed_userData d |}.
Definition set_backgroundColor (v : Clay_Color) (d : Clay_ElementDeclaration) :=
  {| ed_id := ed_id d; ed_layout := ed_layout d;
     ed_backgroundColor := v; ed_cornerRadius := ed_cornerRadius d;
     ed_image := ed_image d; ed_floating := ed_floating d; ed_custom := ed_custom d;
     ed_scroll := ed_scroll d; ed_border := ed_border d; ed_userData := ed_userData d |}.
Definition set_cornerRadius (v : Clay_CornerRadius) (d : Clay_ElementDeclaration) :=
  {| ed_id := ed_id d; ed_layout := ed_layout d;
     ed_backgroundColor := ed_backgroundColor d; ed_cornerRadius := v;
     ed_image := ed_image d; ed_floating := ed_floating d; ed_custom := ed_custom d;
     ed_scroll := ed_scroll d; ed_border := ed_border d; ed_userData := ed_userData d |}.
Definition set_scroll (v : Clay_ScrollElementConfig) (d : Clay_ElementDeclaration) :=
  {| ed_id := ed_id d; ed_layout := ed_layout d;
     ed_backgroundColor := ed_backgroundColor d; ed_cornerRadius := ed_cornerRadius d;
     ed_image := ed_image d; ed_floating := ed_floating d; ed_custom := ed_custom d;
     ed_scroll := v; ed_border := ed_border d; ed_userData := ed_userData d |}.
Definition set_border (f : Clay_BorderElementConfig -> Clay_BorderElementConfig)
  (d : Clay_ElementDeclaration) : Clay_ElementDeclaration :=
  {| ed_id := ed_id d; ed_layout := ed_layout d;
     ed_backgroundColor := ed_backgroundColor d; ed_cornerRadius := ed_cornerRadius d;
     ed_image := ed_image d; ed_floating := ed_floating d; ed_custom := ed_custom d;
     ed_scroll := ed_scroll d; ed_border := f (ed_border d); ed_userData := ed_userData d |}.

Definition set_childGap (v : Z) (l : Clay_LayoutConfig) : Clay_LayoutConfig :=
  {| lc_sizing := lc_sizing l; lc_padding := lc_padding l; lc_childGap := v;
     lc_childAlignment := lc_childAlignment l; lc_layoutDirection := lc_layoutDirection l |}.
Definition set_padding (f : Clay_Padding -> Clay_Padding) (l : Clay_LayoutConfig) :=
  {| lc_sizing := lc_sizing l; lc_padding := f (lc_padding l); lc_childGap := lc_childGap l;
     lc_childAlignment := lc_childAlignment l; lc_layoutDirection := lc_layoutDirection l |}.
Definition set_childAlignment (f : Clay_ChildAlignment -> Clay_ChildAlignment)
  (l : Clay_LayoutConfig) :=
  {| lc_sizing := lc_sizing l; lc_padding := lc_padding l; lc_childGap := lc_childGap l;
     lc_childAlignment := f (lc_childAlignment l); lc_layoutDirection := lc_layoutDirection l |}.
Definition set_sizing (f : Clay_Sizing -> Clay_Sizing) (l : Clay_LayoutConfig) :=
  {| lc_sizing := f (lc_sizing l); lc_padding := lc_padding l; lc_childGap := lc_childGap l;
     lc_childAlignment := lc_childAlignment l; lc_layoutDirection := lc_layoutDirection l |}.

Definition set_pad_top (v : Z) (p : Clay_Padding) : Clay_Padding :=
  {| pad_left := pad_left p; pad_right := pad_right p; pad_top := v; pad_bottom := pad_bottom p |}.
Definition set_pad_bottom (v : Z) (p : Clay_Padding) : Clay_Padding :=
  {| pad_left := pad_left p; pad_right := pad_right p; pad_top := pad_top p; pad_bottom := v |}.
Definition set_pad_left (v : Z) (p : Clay_Padding) : Clay_Padding :=
  {| pad_left := v; pad_right := pad_right p; pad_top := pad_top p; pad_bottom := pad_bottom p |}.
Definition set_pad_right (v : Z) (p : Clay_Padding) : Clay_Padding :=
  {| pad_left := pad_left p; pad_right := v; pad_top := pad_top p; pad_bottom := pad_bottom p |}.
Definition set_align_x (v : Clay_LayoutAlignmentX) (c : Clay_ChildAlignment) :=
  {| align_x := v; align_y := align_y c |}.
Definition set_align_y (v : Clay_LayoutAlignmentY) (c : Clay_ChildAlignment) :=
  {| align_x := align_x c; align_y := v |}.
Definition set_sizing_width (v : Clay_SizingAxis) (s : Clay_Sizing) :=
  {| sizing_width := v; sizing_height := sizing_height s |}.
Definition set_sizing_height (v : Clay_SizingAxis) (s : Clay_Sizing) :=
  {| sizing_width := sizing_width s; sizing_height := v |}.
Definition set_border_width (v : Clay_BorderWidth) (b : Clay_BorderElementConfig) :=
  {| border_color := border_color b; border_width := v |}.
Definition set_border_color (v : Clay_Color) (b : Clay_BorderElementConfig) :=
  {| border_color := v; border_width := border_width b |}.

(* --------------------------------------------------------------------- *)
(** ** Functions renderer.h calls and does not define *)

(** [atof] of <stdlib.h>. *)
Class Libc : Type := { atof : string -> double }.

(** [Clay__HashString(key, offset, seed)] of clay.h. *)
Class ClayHash : Type :=
  { Clay__HashString : Clay_String -> Z -> Z -> Clay_ElementId }.

(** [Clay_String toClayString(char *str)]: [strlen(str)] characters of [str]. *)
Definition toClayString (str : string) : Clay_String := until_nul str.

(* --------------------------------------------------------------------- *)
(** ** Style token compiler (renderer.h, [ParseComponentOptions]) *)

(** [struct Border]: [width] is [char width[6]]. *)
Record Border : Type := { b_color : Clay_Color; b_width : string }.

(** [struct ComponentOptions]. [id], [w] and [h] are [char *] ([None] is the
    null pointer); [scroll], [align] and [borderRadius] are char arrays of
    1, 2 and 6 characters; the numbers are [uint16_t]. *)
Record ComponentOptions : Type := {
  opt_id : option string;
  opt_bg : Clay_Color;
  opt_gap : Z;
  opt_reverse : bool;
  opt_scroll : string;
  opt_p : Z;
  opt_pb : Z;
  opt_pt : Z;
  opt_pl : Z;
  opt_pr : Z;
  opt_py : Z;
  opt_px : Z;
  opt_align : string;
  opt_borderRadius : string;
  opt_border : Border;
  opt_w : option string;
  opt_h : option string;
}.

(** [if (c) x = f(x);] *)
Definition when {A : Type} (c : bool) (f : A -> A) (x : A) : A :=
  if c then f x else x.

(** A number used as a condition: true when it is not zero. *)
Definition nonzero (n : Z) : bool := negb (n =? 0).

(** The padding of one edge: the single-edge value when supplied, else the
    axis value when supplied, else the whole value when supplied, else the
    default; a value of zero counts as not supplied. *)
Definition most_specific (edge axis whole default : Z) : Z :=
  if nonzero edge then edge
  else if nonzero axis then axis
  else if nonzero whole then whole
  else default.

Definition ch (s : string) : ascii :=
  match s with String c _ => c | EmptyString => NUL end.

Section StyleTokens.
Context `{Libc} `{ClayHash}.

(** The block "Misc". *)
Definition parse_misc (options : ComponentOptions) (result : Clay_ElementDeclaration)
  : Clay_ElementDeclaration :=
  let result :=
    match opt_id options with
    | Some id => set_id (Clay__HashString (toClayString id) 0 0) result
    | None => result
    end in
  let bg := opt_bg options in
  let result :=
    when (fne (color_r bg) fzero || fne (color_g bg) fzero
          || fne (color_b bg) fzero || fne (color_a bg) fzero)
         (set_backgroundColor bg) result in
  when (nonzero (opt_gap options))
       (set_layout (set_childGap (opt_gap options))) result.

(** The block "Padding parse". *)
Definition parse_padding (options : ComponentOptions) (result : Clay_ElementDeclaration)
  : Clay_ElementDeclaration :=
  let pad f := set_layout (set_padding f) in
  let result :=
    when (nonzero (opt_p options))
         (fun r => pad (set_pad_right (opt_p options))
                  (pad (set_pad_left (opt_p options))
                  (pad (set_pad_bottom (opt_p options))
                  (pad (set_pad_top (opt_p options)) r)))) result in
  let result :=
    when (nonzero (opt_px options))
         (fun r => pad (set_pad_right (opt_px options))
                  (pad (set_pad_left (opt_px options)) r)) result in
  let result :=
    when (nonzero (opt_py options))
         (fun r => pad (set_pad_bottom (opt_py options))
                  (pad (set_pad_top (opt_py options)) r)) result in
  let result := when (nonzero (opt_pt options)) (pad (set_pad_top (opt_pt options))) result in
  let result := when (nonzero (opt_pb options)) (pad (set_pad_bottom (opt_pb options))) result in
  let result := when (nonzero (opt_pl options)) (pad (set_pad_left (opt_pl options))) result in
  when (nonzero (opt_pr options)) (pad (set_pad_right (opt_pr options))) result.

(** The block "Align parse". *)
Definition parse_align (options : ComponentOptions) (result : Clay_ElementDeclaration)
  : Clay_ElementDeclaration :=
  let firstChar := char_at 2 (opt_align options) 0 in
  let secondChar := char_at 2 (opt_align options) 1 in
  let al f := set_layout (set_childAlignment f) in
  let result := when (Ascii.eqb firstChar (ch "t")) (al (set_align_y CLAY_ALIGN_Y_TOP)) result in
  let result := when (Ascii.eqb firstChar (ch "c")) (al (set_align_y CLAY_ALIGN_Y_CENTER)) result in
  let result := when (Ascii.eqb firstChar (ch "b")) (al (set_align_y CLAY_ALIGN_Y_BOTTOM)) result in
  let result := when (Ascii.eqb secondChar (ch "l")) (al (set_align_x CLAY_ALIGN_X_LEFT)) result in
  let result := when (Ascii.eqb secondChar (ch "c")) (al (set_align_x CLAY_ALIGN_X_CENTER)) result in
  when (Ascii.eqb secondChar (ch "r")) (al (set_align_x CLAY_ALIGN_X_RIGHT)) result.

(** The block "Scroll parse". *)
Definition parse_scroll (options : ComponentOptions) (result : Clay_ElementDeclaration)
  : Clay_ElementDeclaration :=
  let firstChar := char_at 1 (opt_scroll options) 0 in
  let result :=
    when (Ascii.eqb firstChar (ch "v"))
         (set_scroll {| scroll_horizontal := false; scroll_vertical := true |}) result in
  let result :=
    when (Ascii.eqb firstChar (ch "h"))
         (set_scroll {| scroll_horizontal := true; scroll_vertical := false |}) result in
  when (Ascii.eqb firstChar (ch "b"))
       (set_scroll {| scroll_horizontal := true; scroll_vertical := true |}) result.

(** The block "Border radius parse". *)
Definition parse_borderRadius (options : ComponentOptions)
  (result : Clay_ElementDeclaration) : outcome Clay_ElementDeclaration :=
  let borderRadius := opt_borderRadius options in
  (* strcmp(options.borderRadius, "") != 0 *)
  if negb (Ascii.eqb (char_at 6 borderRadius 0) NUL) then
    let stringLen := strnlen 6 borderRadius in
    str ← array_cstring 6 borderRadius;
    let delimiter := strrchr str (ch "-") in
    c_assert (bool_decide (delimiter ≠ None))
             "Border radius format is {direction}-{size} ex: t-sm";;
    let directionLen := default 0 delimiter in
    let sizeLen := size_t (stringLen - (directionLen + 1)) in
    directionStr ← copy_terminated 3 str 0 directionLen;
    sizeStr ← copy_terminated 4 str (directionLen + 1) sizeLen;
    let size := fzero in
    let size := when (streq sizeStr "xs") (fun _ => float_of_Z 2) size in
    let size := when (streq sizeStr "sm") (fun _ => float_of_Z 4) size in
    let size := when (streq sizeStr "md") (fun _ => float_of_Z 6) size in
    let size := when (streq sizeStr "lg") (fun _ => float_of_Z 8) size in
    let size := when (streq sizeStr "xl") (fun _ => float_of_Z 12) size in
    let size := when (streq sizeStr "2xl") (fun _ => float_of_Z 16) size in
    let size := when (streq sizeStr "3xl") (fun _ => float_of_Z 24) size in
    (* Corner Radius *)
    let z := fzero in
    let corner tl tr bl br :=
      set_cornerRadius {| topLeft := tl; topRight := tr; bottomLeft := bl; bottomRight := br |} in
    let result := when (streq directionStr "t") (corner size size z z) result in
    let result := when (streq directionStr "b") (corner z z size size) result in
    let result := when (streq directionStr "l") (corner size z size z) result in
    let result := when (streq directionStr "r") (corner z size z size) result in
    let result := when (streq directionStr "tl") (corner size z z z) result in
    let result := when (streq directionStr "tr") (corner z size z z) result in
    let result := when (streq directionStr "bl") (corner z z size z) result in
    let result := when (streq directionStr "br") (corner z z z size) result in
    let result :=
      when (streq directionStr "a") (set_cornerRadius (CLAY_CORNER_RADIUS size)) result in
    mret result
  else mret result.

(** [if (c) result.border.width = (Clay_BorderWidth){...};] where the
    initializer converts [atof(widthStr)] to [uint16_t]. *)
Definition when_width (c : bool) (left right top bottom : bool) (widthStr : string)
  (result : Clay_ElementDeclaration) : outcome Clay_ElementDeclaration :=
  if c then
    let member (present : bool) : outcome Z :=
      if present then to_uint16 (atof widthStr) else mret 0 in
    t ← member top;
    b ← member bottom;
    l ← member left;
    r ← member right;
    mret (set_border (set_border_width
            {| bw_left := l; bw_right := r; bw_top := t; bw_bottom := b;
               bw_betweenChildren := 0 |}) result)
  else mret result.

(** The block "Border width parsing". *)
Definition parse_border (options : ComponentOptions)
  (result : Clay_ElementDeclaration) : outcome Clay_ElementDeclaration :=
  let border := opt_border options in
  if fne (color_a (b_color border)) fzero then
    let stringLen := strnlen 6 (b_width border) in
    str ← array_cstring 6 (b_width border);
    let delimiter := strrchr str (ch "-") in
    c_assert (bool_decide (delimiter ≠ None))
             "Border format is {width}-{size} ex: t-50";;
    let widthLen := default 0 delimiter in
    let sizeLen := size_t (stringLen - (widthLen + 1)) in
    let directionStr := char_at 6 (b_width border) 0 in
    widthStr ← copy_terminated 4 str (widthLen + 1) sizeLen;
    result ← when_width (Ascii.eqb directionStr (ch "t")) false false true false widthStr result;
    result ← when_width (Ascii.eqb directionStr (ch "b")) false false false true widthStr result;
    result ← when_width (Ascii.eqb directionStr (ch "l")) true false false false widthStr result;
    result ← when_width (Ascii.eqb directionStr (ch "r")) false true false false widthStr result;
    result ← when_width (Ascii.eqb directionStr (ch "a")) true true true true widthStr result;
    mret (set_border (set_border_color (b_color border)) result)
  else mret result.

(** One axis of the block "Sizing": the same statements are written out for
    [options.h] and for [options.w]; [set] is the member assigned and
    [unknown] the message of the last assertion. *)
Definition parse_sizing_axis (token : option string) (unknown : string)
  (set : Clay_SizingAxis -> Clay_Sizing -> Clay_Sizing)
  (result : Clay_ElementDeclaration) : outcome Clay_ElementDeclaration :=
  match token with
  | Some tok =>
      let str := until_nul tok in
      let stringLen := strlen tok in
      let delimiter := strrchr str (ch "-") in
      c_assert (bool_decide (delimiter ≠ None))
               "Height or width format is {typing}-{size} ex: fit-0";;
      let typeLength := default 0 delimiter in
      let sizeLen := size_t (stringLen - (typeLength + 1)) in
      c_assert (sizeLen <? 10) "Size string too long for buffer";;
      sizeString ← copy_terminated 10 str (typeLength + 1) sizeLen;
      c_assert (3 <=? typeLength) unknown;;
      let value := float_of_double (atof sizeString) in
      let assign axis := set_layout (set_sizing (set axis)) in
      let result := when (typeLength =? 3) (assign (CLAY_SIZING_FIT value)) result in
      let result := when (typeLength =? 4) (assign (CLAY_SIZING_GROW value)) result in
      let result := when (typeLength =? 5) (assign (CLAY_SIZING_FIXED value)) result in
      let result := when (typeLength =? 7) (assign (CLAY_SIZING_PERCENT value)) result in
      mret result
  | None => mret result
  end.

(** The block "Sizing". *)
Definition parse_sizing (options : ComponentOptions)
  (result : Clay_ElementDeclaration) : outcome Clay_ElementDeclaration :=
  result ← parse_sizing_axis (opt_h options) "Unknown sizing type" set_sizing_height result;
  parse_sizing_axis (opt_w options) "Unknown sizinng type" set_sizing_width result.

Definition ParseComponentOptions (options : ComponentOptions)
  (defaultOptions : Clay_ElementDeclaration) : outcome Clay_ElementDeclaration :=
  let result := defaultOptions in
  let result := parse_misc options result in
  let result := parse_padding options result in
  let result := parse_align options result in
  let result := parse_scroll options result in
  result ← parse_borderRadius options result;
  result ← parse_border options result;
  result ← parse_sizing options result;
  mret result.

End StyleTokens.

(* --------------------------------------------------------------------- *)
(** ** Output: a trace of the calls that leave renderer.h *)

(** The line feed a format writes as backslash-n. *)
Definition LF : string := String (ascii_of_nat 10) EmptyString.

(** [printf(format, args...)]; floating arguments are passed as [double]. *)
Inductive stdout : Type := printf (format : string) (args : list double).

(** A computation that emits events of type [E] and ends as an [outcome]. *)
Record io (E A : Type) : Type := IO { trace : list E; result : outcome A }.
Arguments IO {E A} trace result.
Arguments trace {E A} i.
Arguments result {E A} i.

#[export] Instance io_ret {E} : MRet (io E) := fun A a => IO [] (Returned a).
#[export] Instance io_bind {E} : MBind (io E) := fun A B k m =>
  match result m with
  | Returned a => IO (trace m ++ trace (k a)) (result (k a))
  | AssertFailed msg => IO (trace m) (AssertFailed msg)
  | Exited st => IO (trace m) (Exited st)
  | Undefined w => IO (trace m) (Undefined w)
  end.

Definition emit {E} (e : E) : io E unit := IO [e] (Returned tt).
Definition lift {E A} (o : outcome A) : io E A := IO [] o.
Definition exit {E A} (status : Z) : io E A := IO [] (Exited status).

(* --------------------------------------------------------------------- *)
(** ** Scroll helpers (renderer.h, [ScrollContainerByY] and friends) *)

(** What Clay keeps for one scroll container, as far as
    [Clay_GetScrollContainerData] reports it. *)
Record ScrollContainer : Type := {
  sc_scrollPosition : Clay_Vector2;
  sc_boundingBox : Clay_Dimensions;      (* the viewport: width and height *)
  sc_contentSize : Clay_Dimensions;
  sc_config : Clay_ScrollElementConfig;
}.

(** [struct Clay_ScrollContainerData]; [scrollPosition] points into Clay's
    state: the pointer is the id of the container it belongs to, [None] the
    null pointer. *)
Record Clay_ScrollContainerData : Type := {
  scd_scrollPosition : option Z;
  scd_scrollContainerDimensions : Clay_Dimensions;
  scd_contentDimensions : Clay_Dimensions;
  scd_config : Clay_ScrollElementConfig;
  scd_found : bool;
}.

(** [Clay_GetScrollContainerData(id)] of clay.h, over Clay's scroll
    containers keyed by element id: the data of the container with that id,
    and the zero struct (null pointer, [found = false]) when there is none. *)
Definition Clay_GetScrollContainerData (ctx : gmap Z ScrollContainer)
  (id : Clay_ElementId) : Clay_ScrollContainerData :=
  match ctx !! eid_id id with
  | Some c =>
      {| scd_scrollPosition := Some (eid_id id);
         scd_scrollContainerDimensions := sc_boundingBox c;
         scd_contentDimensions := sc_contentSize c;
         scd_config := sc_config c;
         scd_found := true |}
  | None =>
      {| scd_scrollPosition := None;
         scd_scrollContainerDimensions := Clay_Dimensions_zero;
         scd_contentDimensions := Clay_Dimensions_zero;
         scd_config := {| scroll_horizontal := false; scroll_vertical := false |};
         scd_found := false |}
  end.

(** Reading and writing through a [Clay_Vector2 *] into Clay's state. *)
Definition load_position (ctx : gmap Z ScrollContainer) (ptr : option Z)
  : outcome Clay_Vector2 :=
  defined "null pointer dereference" (c ← ptr ≫= (ctx !!.); Some (sc_scrollPosition c)).

Definition store_position (ctx : gmap Z ScrollContainer) (ptr : option Z)
  (f : Clay_Vector2 -> Clay_Vector2) : outcome (gmap Z ScrollContainer) :=
  match ptr with
  | Some k =>
      match ctx !! k with
      | Some c =>
          Returned (<[k := {| sc_scrollPosition := f (sc_scrollPosition c);
                              sc_boundingBox := sc_boundingBox c;
                              sc_contentSize := sc_contentSize c;
                              sc_config := sc_config c |}]> ctx)
      | None => Undefined "null pointer dereference"
      end
  | None => Undefined "null pointer dereference"
  end.

(** The container with its vertical scroll offset replaced. *)
Definition with_scroll_y (y : float) (c : ScrollContainer) : ScrollContainer :=
  {| sc_scrollPosition := {| v2_x := v2_x (sc_scrollPosition c); v2_y := y |};
     sc_boundingBox := sc_boundingBox c;
     sc_contentSize := sc_contentSize c;
     sc_config := sc_config c |}.

Definition set_v2_x (v : float) (p : Clay_Vector2) := {| v2_x := v; v2_y := v2_y p |}.
Definition set_v2_y (v : float) (p : Clay_Vector2) := {| v2_x := v2_x p; v2_y := v |}.

Section Scroll.
Context `{ClayHash}.

Definition ScrollContainerByY (ctx : gmap Z ScrollContainer)
  (containerName : string) (deltaY : float) : io stdout (gmap Z ScrollContainer) :=
  let scrollContainerData :=
    Clay_GetScrollContainerData ctx (Clay__HashString (toClayString containerName) 0 0) in
  pos ← lift (load_position ctx (scd_scrollPosition scrollContainerData));
  let newScrollY := fadd (v2_y pos) deltaY in
  let minScrollY :=
    fneg (fmaxf fzero
            (fsub (dim_height (scd_contentDimensions scrollContainerData))
                  (dim_height (scd_scrollContainerDimensions scrollContainerData)))) in
  let newValue := fminf fzero (fmaxf newScrollY minScrollY) in
  (if feq newValue fzero then
     emit (printf ("New value is higher min value" +:+ LF) []);;
     emit (printf "deltaY: %f, minPos: %f, newPos: %f"
             [double_of_float deltaY; double_of_float minScrollY;
              double_of_float (fminf fzero (fmaxf newScrollY minScrollY))])
   else mret tt);;
  lift (store_position ctx (scd_scrollPosition scrollContainerData) (set_v2_y newValue)).

Definition ScrollContainerTop (ctx : gmap Z ScrollContainer) (containerName : string)
  : io stdout (gmap Z ScrollContainer) :=
  let scrollContainerData :=
    Clay_GetScrollContainerData ctx (Clay__HashString (toClayString containerName) 0 0) in
  lift (store_position ctx (scd_scrollPosition scrollContainerData) (set_v2_y fzero)).

Definition ScrollContainerBottom (ctx : gmap Z ScrollContainer) (containerName : string)
  : io stdout (gmap Z ScrollContainer) :=
  let scrollContainerData :=
    Clay_GetScrollContainerData ctx (Clay__HashString (toClayString containerName) 0 0) in
  let minScrollY :=
    fneg (fmaxf fzero
            (fsub (dim_height (scd_contentDimensions scrollContainerData))
                  (dim_height (scd_scrollContainerDimensions scrollContainerData)))) in
  lift (store_position ctx (scd_scrollPosition scrollContainerData) (set_v2_y minScrollY)).

Definition ScrollContainerByX (ctx : gmap Z ScrollContainer)
  (containerName : string) (deltaX : float) : io stdout (gmap Z ScrollContainer) :=
  let scrollContainerData :=
    Clay_GetScrollContainerData ctx (Clay__HashString (toClayString containerName) 0 0) in
  pos ← lift (load_position ctx (scd_scrollPosition scrollContainerData));
  let newScrollX := fadd (v2_x pos) deltaX in
  let minScrollX :=
    fneg (fmaxf fzero
            (fsub (dim_width (scd_contentDimensions scrollContainerData))
                  (dim_width (scd_scrollContainerDimensions scrollContainerData)))) in
  lift (store_position ctx (scd_scrollPosition scrollContainerData)
          (set_v2_x (fminf fzero (fmaxf newScrollX minScrollX)))).

End Scroll.

(** The clamping formula of the scroll interface, in its own words:
    min(0, max(delta + current, - max(0, contentExtent - viewportExtent))). *)
Definition scroll_clamp (current delta contentExtent viewportExtent : float) : float :=
  fminf fzero (fmaxf (fadd current delta)
                     (fneg (fmaxf fzero (fsub contentExtent viewportExtent)))).

(* --------------------------------------------------------------------- *)
(** ** Raylib's data and drawing primitives (raylib.h, raymath.h) *)

(** [struct Color]: four [unsigned char]. *)
Record Color : Type := { rl_r : Z; rl_g : Z; rl_b : Z; rl_a : Z }.
Record Vector2 : Type := { vx : float; vy : float }.
Record Vector3 : Type := { v3x : float; v3y : float; v3z : float }.
Record Rectangle : Type :=
  { rec_x : float; rec_y : float; rec_width : float; rec_height : float }.
Record Texture2D : Type :=
  { tex_id : Z; tex_width : Z; tex_height : Z; tex_mipmaps : Z; tex_format : Z }.
Record Camera : Type := {
  cam_position : Vector3;
  cam_target : Vector3;
  cam_up : Vector3;
  cam_fovy : float;
  cam_projection : Z;
}.
Record Ray : Type := { ray_position : Vector3; ray_direction : Vector3 }.

Definition WHITE : Color := {| rl_r := 255; rl_g := 255; rl_b := 255; rl_a := 255 |}.
Definition CAMERA_PERSPECTIVE : Z := 0.
Definition CAMERA_ORTHOGRAPHIC : Z := 1.
(** [PI] is [3.14159265358979323846f] and [DEG2RAD] is [(PI/180.0f)]. *)
Definition PI : float := float_ratio 314159265358979323846 100000000000000000000.
Definition DEG2RAD : float := fdiv PI (float_of_Z 180).

(** The types renderer.h treats as opaque and the raymath functions it
    calls. *)
Class Raylib : Type := {
  Font : Type;
  Model : Type;
  Matrix : Type;
  MatrixLookAt : Vector3 -> Vector3 -> Vector3 -> Matrix;
  MatrixIdentity : Matrix;
  MatrixPerspective : double -> double -> double -> double -> Matrix;
  MatrixOrtho : double -> double -> double -> double -> double -> double -> Matrix;
  Vector3Unproject : Vector3 -> Matrix -> Matrix -> Vector3;
  Vector3Normalize : Vector3 -> Vector3;
  Vector3Subtract : Vector3 -> Vector3 -> Vector3;
}.

(** The tags of [Clay_RenderCommandType], an enumeration stored in an
    integer; the interpreter's [switch] has a [default] for every other
    value. *)
Definition CLAY_RENDER_COMMAND_TYPE_NONE : Z := 0.
Definition CLAY_RENDER_COMMAND_TYPE_RECTANGLE : Z := 1.
Definition CLAY_RENDER_COMMAND_TYPE_BORDER : Z := 2.
Definition CLAY_RENDER_COMMAND_TYPE_TEXT : Z := 3.
Definition CLAY_RENDER_COMMAND_TYPE_IMAGE : Z := 4.
Definition CLAY_RENDER_COMMAND_TYPE_SCISSOR_START : Z := 5.
Definition CLAY_RENDER_COMMAND_TYPE_SCISSOR_END : Z := 6.
Definition CLAY_RENDER_COMMAND_TYPE_CUSTOM : Z := 7.

(** The tags the interpreter has a [case] for. *)
Definition handled_command_types : list Z :=
  [ CLAY_RENDER_COMMAND_TYPE_TEXT; CLAY_RENDER_COMMAND_TYPE_IMAGE;
    CLAY_RENDER_COMMAND_TYPE_RECTANGLE; CLAY_RENDER_COMMAND_TYPE_BORDER;
    CLAY_RENDER_COMMAND_TYPE_SCISSOR_START; CLAY_RENDER_COMMAND_TYPE_SCISSOR_END;
    CLAY_RENDER_COMMAND_TYPE_CUSTOM ].

(** [enum CustomLayoutElementType] *)
Definition CUSTOM_LAYOUT_ELEMENT_TYPE_3D_MODEL : Z := 0.

(** [CLAY__MIN] and [CLAY__MAX] of clay.h: [x < y ? x : y] and
    [x > y ? x : y]. *)
Definition CLAY__MIN (x y : float) : float := if flt x y then x else y.
Definition CLAY__MAX (x y : float) : float := if fgt x y then x else y.

Section Renderer.
Context `{Raylib}.

Record CustomLayoutElement_3DModel : Type := {
  m3d_model : Model;
  m3d_scale : float;
  m3d_position : Vector3;
  m3d_rotation : Matrix;
}.

(** [struct CustomLayoutElement]: the tag and the union [customData], whose
    only member is [model]. *)
Record CustomLayoutElement : Type := {
  cle_type : Z;
  cle_model : CustomLayoutElement_3DModel;
}.

Record Clay_TextRenderData : Type := {
  text_stringContents : string;       (* the slice: [length] characters *)
  text_textColor : Clay_Color;
  text_fontId : Z;
  text_fontSize : Z;
  text_letterSpacing : Z;
  text_lineHeight : Z;
}.
Record Clay_RectangleRenderData : Type := {
  rect_backgroundColor : Clay_Color;
  rect_cornerRadius : Clay_CornerRadius;
}.
(** [imageData] is a [void *] the interpreter reads a [Texture2D] from;
    [None] is the null pointer. *)
Record Clay_ImageRenderData : Type := {
  image_backgroundColor : Clay_Color;
  image_cornerRadius : Clay_CornerRadius;
  image_sourceDimensions : Clay_Dimensions;
  image_imageData : option Texture2D;
}.
(** [customData] is a [void *] the interpreter reads a
    [CustomLayoutElement] from; [None] is the null pointer. *)
Record Clay_CustomRenderData : Type := {
  custom_backgroundColor : Clay_Color;
  custom_cornerRadius : Clay_CornerRadius;
  custom_customData : option CustomLayoutElement;
}.
Record Clay_BorderRenderData : Type := {
  bord_color : Clay_Color;
  bord_cornerRadius : Clay_CornerRadius;
  bord_width : Clay_BorderWidth;
}.

(** [union Clay_RenderData]. The members share storage in C; they are kept
    side by side here, and the interpreter reads the one its tag selects. *)
Record Clay_RenderData : Type := {
  rd_rectangle : Clay_RectangleRenderData;
  rd_text : Clay_TextRenderData;
  rd_image : Clay_ImageRenderData;
  rd_custom : Clay_CustomRenderData;
  rd_border : Clay_BorderRenderData;
}.

Record Clay_RenderCommand : Type := {
  boundingBox : Clay_BoundingBox;
  renderData : Clay_RenderData;
  commandType : Z;
}.

(** The calls the interpreter makes. *)
Inductive Event : Type :=
| DrawTextEx (font : Font) (text : string) (position : Vector2)
    (fontSize spacing : float) (tint : Color)
| DrawTextureEx (texture : Texture2D) (position : Vector2)
    (rotation scale : float) (tint : Color)
| BeginScissorMode (x y width height : Z)
| EndScissorMode
| DrawRectangleRounded (rec : Rectangle) (roundness : float) (segments : Z)
    (color : Color)
| DrawRectangle (posX posY width height : Z) (color : Color)
| DrawRing (center : Vector2) (innerRadius outerRadius startAngle endAngle : float)
    (segments : Z) (color : Color)
| BeginMode3D (camera : Camera)
| DrawModel (model : Model) (position : Vector3) (scale : float) (tint : Color)
| EndMode3D
| Output (out : stdout).

(** [CLAY_COLOR_TO_RAYLIB_COLOR]: each channel is [(uint8_t)roundf(c)]. *)
Definition CLAY_COLOR_TO_RAYLIB_COLOR (color : Clay_Color) : outcome Color :=
  r ← to_uint8 (roundf (color_r color));
  g ← to_uint8 (roundf (color_g color));
  b ← to_uint8 (roundf (color_b color));
  a ← to_uint8 (roundf (color_a color));
  mret {| rl_r := r; rl_g := g; rl_b := b; rl_a := a |}.

Definition GetScreenToWorldPointWithZDistance (position : Vector2) (camera : Camera)
  (screenWidth screenHeight : Z) (zDistance : float) : Ray :=
  (* Calculate normalized device coordinates; NOTE: y value is negative *)
  let x := fsub (fdiv (fmul (float_of_Z 2) (vx position)) (float_of_Z screenWidth))
                (float_of_Z 1) in
  let y := fsub (float_of_Z 1)
                (fdiv (fmul (float_of_Z 2) (vy position)) (float_of_Z screenHeight)) in
  let z := float_of_Z 1 in
  let deviceCoords := {| v3x := x; v3y := y; v3z := z |} in
  (* Calculate view matrix from camera look at *)
  let matView := MatrixLookAt (cam_position camera) (cam_target camera) (cam_up camera) in
  let matProj := MatrixIdentity in
  let matProj :=
    if cam_projection camera =? CAMERA_PERSPECTIVE then
      MatrixPerspective (double_of_float (fmul (cam_fovy camera) DEG2RAD))
        (ddiv (double_of_Z screenWidth) (double_of_Z screenHeight))
        (double_of_float (float_ratio 1 100))
        (double_of_float zDistance)
    else if cam_projection camera =? CAMERA_ORTHOGRAPHIC then
      let aspect := ddiv (double_of_Z screenWidth) (double_of_Z screenHeight) in
      let top := ddiv (double_of_float (cam_fovy camera)) (double_of_Z 2) in
      let right := dmul top aspect in
      MatrixOrtho (dneg right) right (dneg top) top (double_ratio 1 100) (double_of_Z 1000)
    else matProj in
  (* Unproject far/near points *)
  let nearPoint :=
    Vector3Unproject {| v3x := v3x deviceCoords; v3y := v3y deviceCoords; v3z := fzero |}
      matProj matView in
  let farPoint :=
    Vector3Unproject {| v3x := v3x deviceCoords; v3y := v3y deviceCoords; v3z := float_of_Z 1 |}
      matProj matView in
  (* Calculate normalized direction vector *)
  let direction := Vector3Normalize (Vector3Subtract farPoint nearPoint) in
  {| ray_position := farPoint; ray_direction := direction |}.

End Renderer.

(* --------------------------------------------------------------------- *)
(** ** Render command interpreter (renderer.h, [Clay_Raylib_Render]) *)

Section Interpreter.
Context `{Raylib}.

(** [(int)x] and the color macro, inside the interpreter. *)
Definition int_of (x : float) : io Event Z := lift (to_int x).
Definition color_of (c : Clay_Color) : io Event Color :=
  lift (CLAY_COLOR_TO_RAYLIB_COLOR c).

(** [if (c) { body }] *)
Definition when_do (c : bool) (body : io Event unit) : io Event unit :=
  if c then body else mret tt.

(** [case CLAY_RENDER_COMMAND_TYPE_TEXT] *)
Definition render_text (fonts : list Font) (boundingBox : Clay_BoundingBox)
  (textData : Clay_TextRenderData) : io Event unit :=
  (* the slice is cloned into a fresh buffer and zero terminated *)
  let cloned := text_stringContents textData in
  fontToUse ← lift (defined "read past the end of the font table"
                      (fonts !! Z.to_nat (text_fontId textData)));
  color ← color_of (text_textColor textData);
  emit (DrawTextEx fontToUse cloned
          {| vx := bb_x boundingBox; vy := bb_y boundingBox |}
          (float_of_Z (text_fontSize textData))
          (float_of_Z (text_letterSpacing textData)) color).

(** [case CLAY_RENDER_COMMAND_TYPE_IMAGE] *)
Definition render_image (boundingBox : Clay_BoundingBox)
  (image : Clay_ImageRenderData) : io Event unit :=
  imageTexture ← lift (defined "null pointer dereference" (image_imageData image));
  let tintColor := image_backgroundColor image in
  let tintColor :=
    if feq (color_r tintColor) fzero && feq (color_g tintColor) fzero
       && feq (color_b tintColor) fzero && feq (color_a tintColor) fzero
    then {| color_r := float_of_Z 255; color_g := float_of_Z 255;
            color_b := float_of_Z 255; color_a := float_of_Z 255 |}
    else tintColor in
  color ← color_of tintColor;
  emit (DrawTextureEx imageTexture
          {| vx := bb_x boundingBox; vy := bb_y boundingBox |} fzero
          (fdiv (bb_width boundingBox) (float_of_Z (tex_width imageTexture))) color).

(** [case CLAY_RENDER_COMMAND_TYPE_SCISSOR_START] *)
Definition render_scissor_start (boundingBox : Clay_BoundingBox) : io Event unit :=
  x ← int_of (roundf (bb_x boundingBox));
  y ← int_of (roundf (bb_y boundingBox));
  w ← int_of (roundf (bb_width boundingBox));
  h ← int_of (roundf (bb_height boundingBox));
  emit (BeginScissorMode x y w h).

(** [case CLAY_RENDER_COMMAND_TYPE_RECTANGLE] *)
Definition render_rectangle (boundingBox : Clay_BoundingBox)
  (config : Clay_RectangleRenderData) : io Event unit :=
  if fgt (topLeft (rect_cornerRadius config)) fzero then
    let radius :=
      fdiv (fmul (topLeft (rect_cornerRadius config)) (float_of_Z 2))
           (if fgt (bb_width boundingBox) (bb_height boundingBox)
            then bb_height boundingBox else bb_width boundingBox) in
    color ← color_of (rect_backgroundColor config);
    emit (DrawRectangleRounded
            {| rec_x := bb_x boundingBox; rec_y := bb_y boundingBox;
               rec_width := bb_width boundingBox; rec_height := bb_height boundingBox |}
            radius 8 color)
  else
    x ← int_of (bb_x boundingBox);
    y ← int_of (bb_y boundingBox);
    w ← int_of (bb_width boundingBox);
    h ← int_of (bb_height boundingBox);
    color ← color_of (rect_backgroundColor config);
    emit (DrawRectangle x y w h color).

(** [case CLAY_RENDER_COMMAND_TYPE_BORDER]: the four edges. *)
Definition render_border_edges (boundingBox : Clay_BoundingBox)
  (config : Clay_BorderRenderData) : io Event unit :=
  let bx := bb_x boundingBox in
  let by_ := bb_y boundingBox in
  let bw := bb_width boundingBox in
  let bh := bb_height boundingBox in
  let radius := bord_cornerRadius config in
  let width := bord_width config in
  (* Left border *)
  when_do (0 <? bw_left width)
    (x ← int_of (roundf bx);
     y ← int_of (roundf (fadd by_ (topLeft radius)));
     h ← int_of (roundf (fsub (fsub bh (topLeft radius)) (bottomLeft radius)));
     color ← color_of (bord_color config);
     emit (DrawRectangle x y (bw_left width) h color));;
  (* Right border *)
  when_do (0 <? bw_right width)
    (x ← int_of (roundf (fsub (fadd bx bw) (float_of_Z (bw_right width))));
     y ← int_of (roundf (fadd by_ (topRight radius)));
     h ← int_of (roundf (fsub (fsub bh (topRight radius)) (bottomRight radius)));
     color ← color_of (bord_color config);
     emit (DrawRectangle x y (bw_right width) h color));;
  (* Top border *)
  when_do (0 <? bw_top width)
    (x ← int_of (roundf (fadd bx (topLeft radius)));
     y ← int_of (roundf by_);
     w ← int_of (roundf (fsub (fsub bw (topLeft radius)) (topRight radius)));
     color ← color_of (bord_color config);
     emit (DrawRectangle x y w (bw_top width) color));;
  (* Bottom border *)
  when_do (0 <? bw_bottom width)
    (x ← int_of (roundf (fadd bx (bottomLeft radius)));
     y ← int_of (roundf (fsub (fadd by_ bh) (float_of_Z (bw_bottom width))));
     w ← int_of (roundf (fsub (fsub bw (bottomLeft radius)) (bottomRight radius)));
     color ← color_of (bord_color config);
     emit (DrawRectangle x y w (bw_bottom width) color)).

(** One [if (radius > 0) { DrawRing(...); }] of the border case. *)
Definition render_ring (config : Clay_BorderRenderData) (radius : float)
  (center : Vector2) (innerRadius startAngle endAngle : float) : io Event unit :=
  when_do (fgt radius fzero)
    (color ← color_of (bord_color config);
     emit (DrawRing center innerRadius radius startAngle endAngle 10 color)).

(** [case CLAY_RENDER_COMMAND_TYPE_BORDER]: the four corners. *)
Definition render_border_corners (boundingBox : Clay_BoundingBox)
  (config : Clay_BorderRenderData) : io Event unit :=
  let bx := bb_x boundingBox in
  let by_ := bb_y boundingBox in
  let bw := bb_width boundingBox in
  let bh := bb_height boundingBox in
  let radius := bord_cornerRadius config in
  let width := bord_width config in
  render_ring config (topLeft radius)
    {| vx := roundf (fadd bx (topLeft radius));
       vy := roundf (fadd by_ (topLeft radius)) |}
    (roundf (fsub (topLeft radius) (float_of_Z (bw_top width))))
    (float_of_Z 180) (float_of_Z 270);;
  render_ring config (topRight radius)
    {| vx := roundf (fsub (fadd bx bw) (topRight radius));
       vy := roundf (fadd by_ (topRight radius)) |}
    (roundf (fsub (topRight radius) (float_of_Z (bw_top width))))
    (float_of_Z 270) (float_of_Z 360);;
  render_ring config (bottomLeft radius)
    {| vx := roundf (fadd bx (bottomLeft radius));
       vy := roundf (fsub (fadd by_ bh) (bottomLeft radius)) |}
    (roundf (fsub (bottomLeft radius) (float_of_Z (bw_top width))))
    (float_of_Z 90) (float_of_Z 180);;
  render_ring config (bottomRight radius)
    {| vx := roundf (fsub (fadd bx bw) (bottomRight radius));
       vy := roundf (fsub (fadd by_ bh) (bottomRight radius)) |}
    (roundf (fsub (bottomRight radius) (float_of_Z (bw_bottom width))))
    (float_of_double (double_ratio 1 10)) (float_of_Z 90).

Definition render_border (boundingBox : Clay_BoundingBox)
  (config : Clay_BorderRenderData) : io Event unit :=
  render_border_edges boundingBox config;;
  render_border_corners boundingBox config.

(** The display scale of the 3D model case, from the bounding box of the
    first command of the array. *)
Definition scaleValue (rootBox : Clay_BoundingBox) : float :=
  CLAY__MIN
    (fmul (CLAY__MIN (float_of_Z 1) (fdiv (float_of_Z 768) (bb_height rootBox)))
          (CLAY__MAX (float_of_Z 1) (fdiv (bb_width rootBox) (float_of_Z 1024))))
    (float_ratio 15 10).

(** [case CLAY_RENDER_COMMAND_TYPE_CUSTOM] *)
Definition render_custom (renderCommands : list Clay_RenderCommand)
  (Raylib_camera : Camera) (renderCommand : Clay_RenderCommand) : io Event unit :=
  let config := rd_custom (renderData renderCommand) in
  match custom_customData config with
  | None => mret tt                                  (* continue; *)
  | Some customElement =>
      if cle_type customElement =? CUSTOM_LAYOUT_ELEMENT_TYPE_3D_MODEL then
        (* renderCommands.internalArray[0] *)
        first ← lift (defined "read of an empty command array" (head renderCommands));
        let rootBox := boundingBox first in
        let bb := boundingBox renderCommand in
        screenWidth ← int_of (roundf (bb_width rootBox));
        screenHeight ← int_of (roundf (bb_height rootBox));
        let positionRay :=
          GetScreenToWorldPointWithZDistance
            {| vx := fadd (bb_x bb) (fdiv (bb_width bb) (float_of_Z 2));
               vy := fadd (fadd (bb_y bb) (fdiv (bb_height bb) (float_of_Z 2)))
                          (float_of_Z 20) |}
            Raylib_camera screenWidth screenHeight (float_of_Z 140) in
        emit (BeginMode3D Raylib_camera);;
        emit (DrawModel (m3d_model (cle_model customElement)) (ray_position positionRay)
                (fmul (m3d_scale (cle_model customElement)) (scaleValue rootBox)) WHITE);;
        emit EndMode3D
      else mret tt                                   (* default: break; *)
  end.

(** The body of the loop: the [switch] on the command's tag. *)
Definition render_command (renderCommands : list Clay_RenderCommand)
  (fonts : list Font) (Raylib_camera : Camera) (renderCommand : Clay_RenderCommand)
  : io Event unit :=
  let bb := boundingBox renderCommand in
  let tag := commandType renderCommand in
  if tag =? CLAY_RENDER_COMMAND_TYPE_TEXT then
    render_text fonts bb (rd_text (renderData renderCommand))
  else if tag =? CLAY_RENDER_COMMAND_TYPE_IMAGE then
    render_image bb (rd_image (renderData renderCommand))
  else if tag =? CLAY_RENDER_COMMAND_TYPE_SCISSOR_START then
    render_scissor_start bb
  else if tag =? CLAY_RENDER_COMMAND_TYPE_SCISSOR_END then
    emit EndScissorMode
  else if tag =? CLAY_RENDER_COMMAND_TYPE_RECTANGLE then
    render_rectangle bb (rd_rectangle (renderData renderCommand))
  else if tag =? CLAY_RENDER_COMMAND_TYPE_BORDER then
    render_border bb (rd_border (renderData renderCommand))
  else if tag =? CLAY_RENDER_COMMAND_TYPE_CUSTOM then
    render_custom renderCommands Raylib_camera renderCommand
  else
    emit (Output (printf "Error: unhandled render command." []));;
    exit 1.

(** The loop [for (j = 0; j < renderCommands.length; j++)], from the
    commands still to be processed. *)
Fixpoint render_loop (renderCommands : list Clay_RenderCommand)
  (fonts : list Font) (Raylib_camera : Camera) (rest : list Clay_RenderCommand)
  : io Event unit :=
  match rest with
  | [] => mret tt
  | renderCommand :: rest' =>
      render_command renderCommands fonts Raylib_camera renderCommand;;
      render_loop renderCommands fonts Raylib_camera rest'
  end.

(** [void Clay_Raylib_Render(Clay_RenderCommandArray renderCommands, Font *fonts)];
    [Raylib_camera] is the global camera. *)
Definition Clay_Raylib_Render (renderCommands : list Clay_RenderCommand)
  (fonts : list Font) (Raylib_camera : Camera) : io Event unit :=
  render_loop renderCommands fonts Raylib_camera renderCommands.

End Interpreter.

(* --------------------------------------------------------------------- *)
(** ** Instances and inputs for the examples *)

(** A reading of [atof] on plain decimal literals (digits with an optional
    fraction), enough for the tokens of the examples. *)
Definition digit_of (c : ascii) : option N :=
  let n := N_of_ascii c in
  if ((48 <=? n) && (n <=? 57))%N then Some (n - 48)%N else None.

Fixpoint read_decimal (s : string) (num : N) (den : positive) (frac : bool)
  : N * positive :=
  match s with
  | EmptyString => (num, den)
  | String c s' =>
      match digit_of c with
      | Some d =>
          read_decimal s' (10 * num + d)%N (if frac then (10 * den)%positive else den) frac
      | None =>
          if Ascii.eqb c (ch ".") && negb frac then read_decimal s' num den true
          else (num, den)
      end
  end.

Definition atof_decimal (s : string) : double :=
  match read_decimal s 0%N 1%positive false with
  | (N0, _) => S754_zero false
  | (Npos n, d) => double_ratio n d
  end.

Definition decimal_libc : Libc := {| atof := atof_decimal |}.

(** A stand-in for Clay's string hash: the id is one more than the sum of
    the character codes. *)
Fixpoint sum_codes (s : string) : Z :=
  match s with
  | EmptyString => 0
  | String c s' => Z.of_N (N_of_ascii c) + sum_codes s'
  end.

Definition sum_hash : ClayHash :=
  {| Clay__HashString key offset seed :=
       {| eid_id := sum_codes key + offset + seed + 1; eid_offset := offset;
          eid_baseId := sum_codes key + seed + 1; eid_stringId := key |} |}.

(** A backend whose opaque values carry no information. *)
Definition unit_raylib : Raylib :=
  {| Font := unit; Model := unit; Matrix := unit;
     MatrixLookAt _ _ _ := tt; MatrixIdentity := tt;
     MatrixPerspective _ _ _ _ := tt; MatrixOrtho _ _ _ _ _ _ := tt;
     Vector3Unproject v _ _ := v; Vector3Normalize v := v;
     Vector3Subtract v _ := v |}.

(** [NONE] and a few colors of the palette. *)
Definition rgba (r g b a : Z) : Clay_Color :=
  {| color_r := float_of_Z r; color_g := float_of_Z g;
     color_b := float_of_Z b; color_a := float_of_Z a |}.
Definition NONE : Clay_Color := rgba 0 0 0 0.
Definition RED_500 : Clay_Color := rgba 239 68 68 255.
Definition SLATE_900 : Clay_Color := rgba 15 23 42 255.

(** The request [(ComponentOptions){0}]: every member unset. *)
Definition emptyRequest : ComponentOptions :=
  {| opt_id := None; opt_bg := NONE; opt_gap := 0; opt_reverse := false;
     opt_scroll := ""; opt_p := 0; opt_pb := 0; opt_pt := 0; opt_pl := 0;
     opt_pr := 0; opt_py := 0; opt_px := 0; opt_align := "";
     opt_borderRadius := ""; opt_border := {| b_color := NONE; b_width := "" |};
     opt_w := None; opt_h := None |}.

(** A request the compiler reads as unset in every member: null pointers,
    zero numbers, tokens that start with the zero character, a background
    color with four zero channels and a border color with zero alpha. *)
Definition unset (o : ComponentOptions) : Prop :=
  opt_id o = None /\
  feq (color_r (opt_bg o)) fzero = true /\ feq (color_g (opt_bg o)) fzero = true /\
  feq (color_b (opt_bg o)) fzero = true /\ feq (color_a (opt_bg o)) fzero = true /\
  opt_gap o = 0 /\
  opt_p o = 0 /\ opt_px o = 0 /\ opt_py o = 0 /\
  opt_pt o = 0 /\ opt_pb o = 0 /\ opt_pl o = 0 /\ opt_pr o = 0 /\
  char_at 2 (opt_align o) 0 = NUL /\ char_at 2 (opt_align o) 1 = NUL /\
  char_at 1 (opt_scroll o) 0 = NUL /\
  char_at 6 (opt_borderRadius o) 0 = NUL /\
  feq (color_a (b_color (opt_border o))) fzero = true /\
  opt_w o = None /\ opt_h o = None.

(** The defaults of the component classes. *)
Definition fit_content (direction : Clay_LayoutDirection) : Clay_ElementDeclaration :=
  set_layout (fun _ =>
    {| lc_sizing := {| sizing_width := CLAY_SIZING_FIT fzero;
                       sizing_height := CLAY_SIZING_FIT fzero |};
       lc_padding := lc_padding Clay_LayoutConfig_zero;
       lc_childGap := 0;
       lc_childAlignment := lc_childAlignment Clay_LayoutConfig_zero;
       lc_layoutDirection := direction |}) Clay_ElementDeclaration_zero.
Definition boxDefaultOptions : Clay_ElementDeclaration := fit_content CLAY_TOP_TO_BOTTOM.
Definition columnDefaultOptions : Clay_ElementDeclaration := fit_content CLAY_TOP_TO_BOTTOM.
Definition rowDefaultOptions : Clay_ElementDeclaration := fit_content CLAY_LEFT_TO_RIGHT.
Definition separatorDefaultOptions : Clay_ElementDeclaration :=
  set_layout (set_sizing (fun _ =>
    {| sizing_width := CLAY_SIZING_GROW fzero; sizing_height := CLAY_SIZING_GROW fzero |}))
    Clay_ElementDeclaration_zero.
Definition marginDefaultOptions : Clay_ElementDeclaration :=
  set_layout (set_sizing (fun _ =>
    {| sizing_width := CLAY_SIZING_FIT fzero; sizing_height := CLAY_SIZING_FIT fzero |}))
    Clay_ElementDeclaration_zero.

(** A request with paddings on every level, a border and both sizes. *)
Definition paddedRequest : ComponentOptions :=
  {| opt_id := Some "card"; opt_bg := SLATE_900; opt_gap := 8; opt_reverse := false;
     opt_scroll := "v"; opt_p := 10; opt_pb := 0; opt_pt := 3; opt_pl := 0;
     opt_pr := 7; opt_py := 5; opt_px := 6; opt_align := "tl";
     opt_borderRadius := "a-sm";
     opt_border := {| b_color := RED_500; b_width := "a-50" |};
     opt_w := Some "fixed-120"; opt_h := Some "percent-50" |}.

(** The same request with a fully transparent border color. *)
Definition unborderedRequest : ComponentOptions :=
  {| opt_id := Some "card"; opt_bg := SLATE_900; opt_gap := 8; opt_reverse := false;
     opt_scroll := "v"; opt_p := 10; opt_pb := 0; opt_pt := 3; opt_pl := 0;
     opt_pr := 7; opt_py := 5; opt_px := 6; opt_align := "tl";
     opt_borderRadius := "a-sm";
     opt_border := {| b_color := NONE; b_width := "t-7" |};
     opt_w := Some "fixed-120"; opt_h := Some "percent-50" |}.

(** What the two requests resolve to on the defaults of [Box], with
    [atof_decimal] for [atof] and [sum_hash] for the hash. *)
Definition resolved_or_zero (o : outcome Clay_ElementDeclaration)
  : Clay_ElementDeclaration :=
  match o with Returned r => r | _ => Clay_ElementDeclaration_zero end.
Definition paddedResolved : Clay_ElementDeclaration :=
  Eval vm_compute in
    resolved_or_zero
      (@ParseComponentOptions decimal_libc sum_hash paddedRequest boxDefaultOptions).
Definition unborderedResolved : Clay_ElementDeclaration :=
  Eval vm_compute in
    resolved_or_zero
      (@ParseComponentOptions decimal_libc sum_hash unborderedRequest boxDefaultOptions).

(** Render commands for the examples: the member of the union that the tag
    selects is given, the others are zero. *)
Section Commands.
Context `{Raylib}.

Definition Clay_RenderData_zero : Clay_RenderData :=
  {| rd_rectangle := {| rect_backgroundColor := Clay_Color_zero;
                        rect_cornerRadius := Clay_CornerRadius_zero |};
     rd_text := {| text_stringContents := ""; text_textColor := Clay_Color_zero;
                   text_fontId := 0; text_fontSize := 0; text_letterSpacing := 0;
                   text_lineHeight := 0 |};
     rd_image := {| image_backgroundColor := Clay_Color_zero;
                    image_cornerRadius := Clay_CornerRadius_zero;
                    image_sourceDimensions := Clay_Dimensions_zero;
                    image_imageData := None |};
     rd_custom := {| custom_backgroundColor := Clay_Color_zero;
                     custom_cornerRadius := Clay_CornerRadius_zero;
                     custom_customData := None |};
     rd_border := {| bord_color := Clay_Color_zero;
                     bord_cornerRadius := Clay_CornerRadius_zero;
                     bord_width := Clay_BorderWidth_zero |} |}.

Definition command_of_type (tag : Z) (bb : Clay_BoundingBox) : Clay_RenderCommand :=
  {| boundingBox := bb; renderData := Clay_RenderData_zero; commandType := tag |}.

Definition rectangle_command (bb : Clay_BoundingBox) (d : Clay_RectangleRenderData)
  : Clay_RenderCommand :=
  {| boundingBox := bb;
     renderData := {| rd_rectangle := d;
                      rd_text := rd_text Clay_RenderData_zero;
                      rd_image := rd_image Clay_RenderData_zero;
                      rd_custom := rd_custom Clay_RenderData_zero;
                      rd_border := rd_border Clay_RenderData_zero |};
     commandType := CLAY_RENDER_COMMAND_TYPE_RECTANGLE |}.

Definition border_command (bb : Clay_BoundingBox) (d : Clay_BorderRenderData)
  : Clay_RenderCommand :=
  {| boundingBox := bb;
     renderData := {| rd_rectangle := rd_rectangle Clay_RenderData_zero;
                      rd_text := rd_text Clay_RenderData_zero;
                      rd_image := rd_image Clay_RenderData_zero;
                      rd_custom := rd_custom Clay_RenderData_zero;
                      rd_border := d |};
     commandType := CLAY_RENDER_COMMAND_TYPE_BORDER |}.

Definition custom_command (bb : Clay_BoundingBox) (payload : option CustomLayoutElement)
  : Clay_RenderCommand :=
  {| boundingBox := bb;
     renderData := {| rd_rectangle := rd_rectangle Clay_RenderData_zero;
                      rd_text := rd_text Clay_RenderData_zero;
                      rd_image := rd_image Clay_RenderData_zero;
                      rd_custom := {| custom_backgroundColor := Clay_Color_zero;
                                      custom_cornerRadius := Clay_CornerRadius_zero;
                                      custom_customData := payload |};
                      rd_border := rd_border Clay_RenderData_zero |};
     commandType := CLAY_RENDER_COMMAND_TYPE_CUSTOM |}.

End Commands.

Definition box (x y w h : Z) : Clay_BoundingBox :=
  {| bb_x := float_of_Z x; bb_y := float_of_Z y;
     bb_width := float_of_Z w; bb_height := float_of_Z h |}.

Definition origin : Vector3 := {| v3x := fzero; v3y := fzero; v3z := fzero |}.
Definition example_camera : Camera :=
  {| cam_position := {| v3x := fzero; v3y := fzero; v3z := float_of_Z 10 |};
     cam_target := origin;
     cam_up := {| v3x := fzero; v3y := float_of_Z 1; v3z := fzero |};
     cam_fovy := float_of_Z 45;
     cam_projection := CAMERA_PERSPECTIVE |}.

Definition filled (color : Clay_Color) (radius : Z) : Clay_RectangleRenderData :=
  {| rect_backgroundColor := color;
     rect_cornerRadius := CLAY_CORNER_RADIUS (float_of_Z radius) |}.

(** The message of the interpreter's [default] case. *)
Definition unhandled : stdout := printf "Error: unhandled render command." [].

(* --------------------------------------------------------------------- *)
(** ** Statements of the specification that the properties refer to *)

Section Specified.
Context `{Raylib}.

(** A sharp-rectangle draw "with exactly the command's bounding box and
    background color": the integers and the 8-bit channels passed to
    [DrawRectangle] are the floating values of the command. *)
Definition exact_sharp_rectangle (c : Clay_RenderCommand) (e : Event) : Prop :=
  match e with
  | DrawRectangle x y w h col =>
      float_of_Z x = bb_x (boundingBox c) /\
      float_of_Z y = bb_y (boundingBox c) /\
      float_of_Z w = bb_width (boundingBox c) /\
      float_of_Z h = bb_height (boundingBox c) /\
      rgba (rl_r col) (rl_g col) (rl_b col) (rl_a col)
        = rect_backgroundColor (rd_rectangle (renderData c))
  | _ => False
  end.

(** The display scale of a 3D model as the specification words it:
    min(min(1, referenceHeight/768) x max(1, referenceWidth/1024), 1.5). *)
Definition specified_scale (rootBox : Clay_BoundingBox) : float :=
  CLAY__MIN
    (fmul (CLAY__MIN (float_of_Z 1) (fdiv (bb_height rootBox) (float_of_Z 768)))
          (CLAY__MAX (float_of_Z 1) (fdiv (bb_width rootBox) (float_of_Z 1024))))
    (float_ratio 15 10).

(** The corners of a border, their radius, the edges adjacent to them and
    the sector the specification gives them, in degrees. *)
Inductive Corner : Type :=
  TopLeftCorner | TopRightCorner | BottomLeftCorner | BottomRightCorner.

Definition corner_radius (k : Corner) (r : Clay_CornerRadius) : float :=
  match k with
  | TopLeftCorner => topLeft r
  | TopRightCorner => topRight r
  | BottomLeftCorner => bottomLeft r
  | BottomRightCorner => bottomRight r
  end.

Definition adjacent_widths (k : Corner) (w : Clay_BorderWidth) : list Z :=
  match k with
  | TopLeftCorner => [bw_top w; bw_left w]
  | TopRightCorner => [bw_top w; bw_right w]
  | BottomLeftCorner => [bw_bottom w; bw_left w]
  | BottomRightCorner => [bw_bottom w; bw_right w]
  end.

Definition specified_sector (k : Corner) : Z * Z :=
  match k with
  | TopLeftCorner => (180, 270)
  | TopRightCorner => (270, 360)
  | BottomLeftCorner => (90, 180)
  | BottomRightCorner => (0, 90)
  end.

(** The quarter-ring arc the specification describes for a corner: outer
    radius the corner's radius, inner radius that radius minus the width of
    an edge adjacent to the corner, over the corner's sector, in [color]. *)
Definition specified_arc (config : Clay_BorderRenderData) (color : Color)
  (k : Corner) (e : Event) : Prop :=
  exists center segments edge,
    edge ∈ adjacent_widths k (bord_width config) /\
    e = DrawRing center
          (fsub (corner_radius k (bord_cornerRadius config)) (float_of_Z edge))
          (corner_radius k (bord_cornerRadius config))
          (float_of_Z (specified_sector k).1) (float_of_Z (specified_sector k).2)
          segments color.

(** The events of [if (radius > 0) { draw }]. *)
Definition drawn_if_positive (radius : float) (e : Event) : list Event :=
  if fgt radius fzero then [e] else [].

End Specified.

(** Inputs of the examples for the interpreter. *)
Definition red : Color := {| rl_r := 239; rl_g := 68; rl_b := 68; rl_a := 255 |}.

Definition half_pixel_box : Clay_BoundingBox :=
  {| bb_x := float_ratio 1 2; bb_y := fzero;
     bb_width := float_of_Z 100; bb_height := float_of_Z 50 |}.

Definition model_payload : @CustomLayoutElement unit_raylib :=
  @Build_CustomLayoutElement unit_raylib CUSTOM_LAYOUT_ELEMENT_TYPE_3D_MODEL
    (@Build_CustomLayoutElement_3DModel unit_raylib tt (float_of_Z 2) origin tt).

(** A border with a top edge of 1 and other edges of 3, a top-left radius
    of 10.5 and other radii of 10. *)
Definition uneven_border : Clay_BorderRenderData :=
  {| bord_color := RED_500;
     bord_cornerRadius := {| topLeft := float_ratio 21 2; topRight := float_of_Z 10;
                             bottomLeft := float_of_Z 10; bottomRight := float_of_Z 10 |};
     bord_width := {| bw_left := 3; bw_right := 3; bw_top := 1; bw_bottom := 3;
                      bw_betweenChildren := 0 |} |}.

(** A rectangle at x = 0.5 whose red channel is 0.5. *)
Definition half_red : Clay_Color :=
  {| color_r := float_ratio 1 2; color_g := fzero; color_b := fzero;
     color_a := float_of_Z 255 |}.

(** An arena of 64 bytes at address 4096, as [ArenaInit(64)] returns it. *)
Definition small_block : Block := {| base := 4096; bytes := replicate 64 0 |}.
Definition small_arena : Arena := ArenaInit 64 small_block.

(** What a failed [malloc] returns: the null pointer. *)
Definition null_block : Block := {| base := 0; bytes := [] |}.

(* --------------------------------------------------------------------- *)
(** ** Formatted strings in an arena (renderer.h, [F]) *)

(** The bytes of a text, one per character. *)
Definition bytes_of (text : string) : list Z :=
  map (fun c => Z.of_N (N_of_ascii c)) (list_ascii_of_string text).

(** Reading [n] bytes at [ptr] and writing [data] at [ptr]: defined when the
    bytes lie inside the block. *)
Definition memread (m : Block) (ptr n : Z) : outcome (list Z) :=
  let off := ptr - base m in
  if (0 <=? off) && (0 <=? n) && (off + n <=? Z.of_nat (length (bytes m))) then
    Returned (take (Z.to_nat n) (drop (Z.to_nat off) (bytes m)))
  else Undefined "read outside the arena's buffer".

Definition memwrite (m : Block) (ptr : Z) (data : list Z) : outcome Block :=
  let off := ptr - base m in
  let n := Z.of_nat (length data) in
  if (0 <=? off) && (off + n <=? Z.of_nat (length (bytes m))) then
    Returned {| base := base m;
                bytes := take (Z.to_nat off) (bytes m)
                         ++ data
                         ++ drop (Z.to_nat (off + n)) (bytes m) |}
  else Undefined "write outside the arena's buffer".

(** [vsnprintf] of <stdio.h>, for a format and the arguments that follow
    it: the value it returns (the length of the whole output, whatever the
    size of the destination; negative on an encoding error) and the
    characters of the output. *)
Class Stdio : Type := {
  va_list : Type;
  vsnprintf_return : string -> va_list -> Z;
  vsnprintf_output : string -> va_list -> string;
}.

(** Signed arithmetic in [int]. *)
Definition c_int (n : Z) : outcome Z :=
  if (INT_MIN <=? n) && (n <=? INT_MAX) then Returned n
  else Undefined "signed overflow of int".

(** [(int32_t)u] for an unsigned [u]: reinterpretation in two's complement. *)
Definition int32_t (u : Z) : Z := (u + 2 ^ 31) mod 2 ^ 32 - 2 ^ 31.

(** A [Clay_String] as [F] builds it: [length] characters at the address
    [chars]. *)
Record Clay_StringAt : Type := { str_length : Z; str_chars : Z }.

Section Format.
Context `{Stdio}.

(** [vsnprintf(buffer, size, format, args)]: nothing for a [size] of zero,
    else at most [size - 1] characters of the output and a zero after
    them. *)
Definition vsnprintf_into (m : Block) (buffer size : Z) (format : string)
  (args : va_list) : outcome Block :=
  if size =? 0 then Returned m
  else memwrite m buffer
         (bytes_of (array_prefix (Z.to_nat (size - 1)) (vsnprintf_output format args))
          ++ [0]).

(** [F(arena, format, ...)]: the string returned, the arena and its block
    after the call. *)
Definition F (arena : Arena) (m : Block) (format : string) (args : va_list)
  : outcome (Clay_StringAt * Arena * Block) :=
  (* size_t size = vsnprintf(NULL, 0, format, args) + 1; *)
  sum ← c_int (vsnprintf_return format args + 1);
  let size := size_t sum in
  (* Allocate based on size *)
  '(buffer, arena, m) ← ArenaAlloc arena m size;
  m ← vsnprintf_into m buffer size format args;
  mret ({| str_length := int32_t (size_t (size - 1)); str_chars := buffer |}, arena, m).

End Format.

(* --------------------------------------------------------------------- *)
(** ** Text measurement (renderer.h, [Raylib_MeasureText]) *)

(** [struct GlyphInfo] of raylib.h, without its image. *)
Record GlyphInfo : Type := {
  glyph_value : Z;
  glyph_offsetX : Z;
  glyph_offsetY : Z;
  glyph_advanceX : Z;
}.

(** The members of raylib's [Font] that the measurement reads, and the
    built-in font; [glyphs] is [None] for the null pointer of a font that
    failed to load. *)
Class FontTable `{Raylib} : Type := {
  font_baseSize : Font -> Z;
  font_glyphs : Font -> option (list GlyphInfo);
  font_recs : Font -> list Rectangle;
  GetFontDefault : Font;
}.

(** [struct Clay_TextElementConfig], as far as the measurement reads it. *)
Record Clay_TextElementConfig : Type := {
  tec_textColor : Clay_Color;
  tec_fontId : Z;
  tec_fontSize : Z;
  tec_letterSpacing : Z;
  tec_lineHeight : Z;
}.

(** The value of a [char], a signed type (x86-64). *)
Definition char_value (c : ascii) : Z :=
  let n := Z.of_N (N_of_ascii c) in
  if n <? 128 then n else n - 256.

(** [fmax] of <math.h>. *)
Definition fmax (x y : double) : double := if fge x y || isnan y then x else y.

(** [a = fmax(a, b)] for [float a, b]: the arguments are converted to
    [double] and the result back to [float]. *)
Definition fmax_float (a b : float) : float :=
  float_of_double (fmax (double_of_float a) (double_of_float b)).

(** [table[index]] for an array of the font. *)
Definition at_index {A : Type} (table : list A) (index : Z) : outcome A :=
  defined "read outside a table of the font"
    (if index <? 0 then None else table !! Z.to_nat index).

Section Measure.
Context `{FontTable}.

(** What the body of the loop adds to [lineTextWidth] for a character other
    than a line feed. *)
Definition advance (fontToUse : Font) (lineTextWidth : float) (c : ascii)
  : outcome float :=
  let index := char_value c - 32 in
  glyphs ← defined "null pointer dereference" (font_glyphs fontToUse);
  glyph ← at_index glyphs index;
  if negb (glyph_advanceX glyph =? 0) then
    mret (fadd lineTextWidth (float_of_Z (glyph_advanceX glyph)))
  else
    rec ← at_index (font_recs fontToUse) index;
    mret (fadd lineTextWidth
            (fadd (rec_width rec) (float_of_Z (glyph_offsetX glyph)))).

(** The loop over the characters of the slice: [maxTextWidth] and
    [lineTextWidth] when it ends. *)
Fixpoint measure_loop (fontToUse : Font) (chars : string)
  (maxTextWidth lineTextWidth : float) : outcome (float * float) :=
  match chars with
  | EmptyString => mret (maxTextWidth, lineTextWidth)
  | String c rest =>
      if Ascii.eqb c (ch LF) then
        let maxTextWidth := fmax_float maxTextWidth lineTextWidth in
        measure_loop fontToUse rest maxTextWidth fzero
      else
        lineTextWidth ← advance fontToUse lineTextWidth c;
        measure_loop fontToUse rest maxTextWidth lineTextWidth
  end.

(** [Raylib_MeasureText(text, config, userData)]; [userData] is the font
    table and [text] the characters of the slice. *)
Definition Raylib_MeasureText (text : string) (config : Clay_TextElementConfig)
  (fonts : list Font) : outcome Clay_Dimensions :=
  let textHeight := float_of_Z (tec_fontSize config) in
  fontToUse ← defined "read past the end of the font table"
                (fonts !! Z.to_nat (tec_fontId config));
  let fontToUse :=
    if font_glyphs fontToUse is None then GetFontDefault else fontToUse in
  let scaleFactor :=
    fdiv (float_of_Z (tec_fontSize config)) (float_of_Z (font_baseSize fontToUse)) in
  '(maxTextWidth, lineTextWidth) ← measure_loop fontToUse text fzero fzero;
  let maxTextWidth := fmax_float maxTextWidth lineTextWidth in
  mret {| dim_width := fmul maxTextWidth scaleFactor; dim_height := textHeight |}.

(** The width of one line as the loop accumulates it: the advances of its
    characters, added one after the other to [width]. *)
Fixpoint line_width (fontToUse : Font) (line : string) (width : float)
  : outcome float :=
  match line with
  | EmptyString => mret width
  | String c rest =>
      width ← advance fontToUse width c;
      line_width fontToUse rest width
  end.

End Measure.

(** Whether a character occurs in a text. *)
Fixpoint has_char (c : ascii) (s : string) : bool :=
  match s with
  | EmptyString => false
  | String d s' => Ascii.eqb d c || has_char c s'
  end.

(* --------------------------------------------------------------------- *)
(** ** Instances and inputs for the further examples *)

(** What [vsnprintf] promises when it succeeds on a format and arguments
    whose output is [text]: it returns the length of [text]. *)
Definition formats `{Stdio} (format : string) (args : va_list) (text : string)
  : Prop :=
  vsnprintf_output format args = text /\
  vsnprintf_return format args = Z.of_nat (String.length text) /\
  Z.of_nat (String.length text) < INT_MAX.

(** [vsnprintf] on formats without a conversion specification: the output
    is the format. *)
Definition literal_stdio : Stdio :=
  {| va_list := unit;
     vsnprintf_return format _ := Z.of_nat (String.length format);
     vsnprintf_output format _ := format |}.

(** A font of base size 10 with the 95 printable characters, each 6 wide. *)
Definition fixed_width_font : @FontTable unit_raylib :=
  @Build_FontTable unit_raylib
    (fun _ => 10)
    (fun _ => Some (replicate 95 {| glyph_value := 0; glyph_offsetX := 0;
                                    glyph_offsetY := 0; glyph_advanceX := 6 |}))
    (fun _ => replicate 95 {| rec_x := fzero; rec_y := fzero;
                              rec_width := float_of_Z 5; rec_height := float_of_Z 10 |})
    tt.

(** A text configuration with font 0 at size 20. *)
Definition size_20 : Clay_TextElementConfig :=
  {| tec_textColor := Clay_Color_zero; tec_fontId := 0; tec_fontSize := 20;
     tec_letterSpacing := 0; tec_lineHeight := 0 |}.

(* --------------------------------------------------------------------- *)
(** ** Notions the further properties refer to *)

(** The lowest scroll offset of a container along one axis:
    - max(0, contentExtent - viewportExtent). *)
Definition scroll_floor (contentExtent viewportExtent : float) : float :=
  fneg (fmaxf fzero (fsub contentExtent viewportExtent)).

(** The container with its horizontal scroll offset replaced. *)
Definition with_scroll_x (x : float) (c : ScrollContainer) : ScrollContainer :=
  {| sc_scrollPosition := {| v2_x := x; v2_y := v2_y (sc_scrollPosition c) |};
     sc_boundingBox := sc_boundingBox c;
     sc_contentSize := sc_contentSize c;
     sc_config := sc_config c |}.

(** What [ScrollContainerByY] prints when the new offset compares equal to
    zero. *)
Definition scroll_debug_output (deltaY minScrollY newValue : float) : list stdout :=
  [ printf ("New value is higher min value" +:+ LF) [];
    printf "deltaY: %f, minPos: %f, newPos: %f"
      [double_of_float deltaY; double_of_float minScrollY; double_of_float newValue] ].

(** A scroll container of content 300 x 500 in a viewport of 300 x 200,
    scrolled to (0, -100). *)
Definition feed_container : ScrollContainer :=
  {| sc_scrollPosition := {| v2_x := fzero; v2_y := float_of_Z (-100) |};
     sc_boundingBox := {| dim_width := float_of_Z 300; dim_height := float_of_Z 200 |};
     sc_contentSize := {| dim_width := float_of_Z 300; dim_height := float_of_Z 500 |};
     sc_config := {| scroll_horizontal := false; scroll_vertical := true |} |}.
Definition feed_id : Z := eid_id (@Clay__HashString sum_hash (toClayString "feed") 0 0).
Definition feed_context : gmap Z ScrollContainer := {[ feed_id := feed_container ]}.

Section Clipping.
Context `{Raylib}.

(** The clip region is a stack: a scissor start pushes a region, a scissor
    end pops one. *)
Inductive Clip : Type := ClipPush | ClipPop.

Definition event_clip (e : Event) : option Clip :=
  match e with
  | BeginScissorMode _ _ _ _ => Some ClipPush
  | EndScissorMode => Some ClipPop
  | _ => None
  end.

Definition command_clip (c : Clay_RenderCommand) : option Clip :=
  if commandType c =? CLAY_RENDER_COMMAND_TYPE_SCISSOR_START then Some ClipPush
  else if commandType c =? CLAY_RENDER_COMMAND_TYPE_SCISSOR_END then Some ClipPop
  else None.

(** A computation none of whose events is a scissor call. *)
Definition no_clip {A : Type} (m : io Event A) : Prop :=
  Forall (fun e => event_clip e = None) (trace m).

(** The events of each command of an array, in the order of the array. *)
Definition events_in_order (renderCommands : list Clay_RenderCommand)
  (fonts : list Font) (Raylib_camera : Camera) (cs : list Clay_RenderCommand)
  : list Event :=
  concat (map (fun c => trace (render_command renderCommands fonts Raylib_camera c)) cs).


(** A computation that emits one event when it returns. *)
Definition one_event {A : Type} (m : io Event A) : Prop :=
  forall a, result m = Returned a -> length (trace m) = 1%nat.

(** Whether the four channels of a color compare equal to zero. *)
Definition transparent_black (c : Clay_Color) : bool :=
  feq (color_r c) fzero && feq (color_g c) fzero
  && feq (color_b c) fzero && feq (color_a c) fzero.

Definition text_command (bb : Clay_BoundingBox) (d : Clay_TextRenderData)
  : Clay_RenderCommand :=
  {| boundingBox := bb;
     renderData := {| rd_rectangle := rd_rectangle Clay_RenderData_zero;
                      rd_text := d;
                      rd_image := rd_image Clay_RenderData_zero;
                      rd_custom := rd_custom Clay_RenderData_zero;
                      rd_border := rd_border Clay_RenderData_zero |};
     commandType := CLAY_RENDER_COMMAND_TYPE_TEXT |}.

Definition image_command (bb : Clay_BoundingBox) (d : Clay_ImageRenderData)
  : Clay_RenderCommand :=
  {| boundingBox := bb;
     renderData := {| rd_rectangle := rd_rectangle Clay_RenderData_zero;
                      rd_text := rd_text Clay_RenderData_zero;
                      rd_image := d;
                      rd_custom := rd_custom Clay_RenderData_zero;
                      rd_border := rd_border Clay_RenderData_zero |};
     commandType := CLAY_RENDER_COMMAND_TYPE_IMAGE |}.

End Clipping.

(** A token "{left}-{right}" of the style grammar. *)
Definition token (left right : string) : string := left +:+ "-" +:+ right.

(** The kind of sizing a token selects: it is read off the number of
    characters before the last '-'. *)
Definition sized (kind : string) (value : float) (default : Clay_SizingAxis)
  : Clay_SizingAxis :=
  match String.length kind with
  | 3%nat => CLAY_SIZING_FIT value
  | 4%nat => CLAY_SIZING_GROW value
  | 5%nat => CLAY_SIZING_FIXED value
  | 7%nat => CLAY_SIZING_PERCENT value
  | _ => default
  end.

(** The radius a size name stands for; a name that is none of the seven
    stands for 0. *)
Definition radius_named (size : string) : float :=
  if String.eqb size "xs" then float_of_Z 2
  else if String.eqb size "sm" then float_of_Z 4
  else if String.eqb size "md" then float_of_Z 6
  else if String.eqb size "lg" then float_of_Z 8
  else if String.eqb size "xl" then float_of_Z 12
  else if String.eqb size "2xl" then float_of_Z 16
  else if String.eqb size "3xl" then float_of_Z 24
  else fzero.

(** The corners a direction selects: top left, top right, bottom left,
    bottom right; none for a direction that is none of the nine. *)
Definition corners_selected (direction : string) : option (bool * bool * bool * bool) :=
  if String.eqb direction "t" then Some (true, true, false, false)
  else if String.eqb direction "b" then Some (false, false, true, true)
  else if String.eqb direction "l" then Some (true, false, true, false)
  else if String.eqb direction "r" then Some (false, true, false, true)
  else if String.eqb direction "tl" then Some (true, false, false, false)
  else if String.eqb direction "tr" then Some (false, true, false, false)
  else if String.eqb direction "bl" then Some (false, false, true, false)
  else if String.eqb direction "br" then Some (false, false, false, true)
  else if String.eqb direction "a" then Some (true, true, true, true)
  else None.

(** The corner radii after a token: the selected corners get the radius,
    the others zero; an unknown direction leaves the radii as they were. *)
Definition corner_radius_of (direction size : string) (default : Clay_CornerRadius)
  : Clay_CornerRadius :=
  match corners_selected direction with
  | Some (tl, tr, bl, br) =>
      let pick (selected : bool) := if selected then radius_named size else fzero in
      {| topLeft := pick tl; topRight := pick tr;
         bottomLeft := pick bl; bottomRight := pick br |}
  | None => default
  end.

(** The edges the first character of a border token selects: left, right,
    top, bottom. *)
Definition edges_selected (side : ascii) : option (bool * bool * bool * bool) :=
  if Ascii.eqb side (ch "t") then Some (false, false, true, false)
  else if Ascii.eqb side (ch "b") then Some (false, false, false, true)
  else if Ascii.eqb side (ch "l") then Some (true, false, false, false)
  else if Ascii.eqb side (ch "r") then Some (false, true, false, false)
  else if Ascii.eqb side (ch "a") then Some (true, true, true, true)
  else None.

(** The border widths after a token: the selected edges get the width, the
    others and the width between children zero; an unknown first character
    leaves the widths as they were. *)
Definition border_width_of (side : ascii) (width : Z) (default : Clay_BorderWidth)
  : Clay_BorderWidth :=
  match edges_selected side with
  | Some (l, r, t, b) =>
      let pick (selected : bool) := if selected then width else 0 in
      {| bw_left := pick l; bw_right := pick r; bw_top := pick t; bw_bottom := pick b;
         bw_betweenChildren := 0 |}
  | None => default
  end.

(** The alignments and the scroll axes the characters of the [align] and
    [scroll] members select. *)
Definition align_y_of (c : ascii) (default : Clay_LayoutAlignmentY) : Clay_LayoutAlignmentY :=
  if Ascii.eqb c (ch "b") then CLAY_ALIGN_Y_BOTTOM
  else if Ascii.eqb c (ch "c") then CLAY_ALIGN_Y_CENTER
  else if Ascii.eqb c (ch "t") then CLAY_ALIGN_Y_TOP
  else default.
Definition align_x_of (c : ascii) (default : Clay_LayoutAlignmentX) : Clay_LayoutAlignmentX :=
  if Ascii.eqb c (ch "r") then CLAY_ALIGN_X_RIGHT
  else if Ascii.eqb c (ch "c") then CLAY_ALIGN_X_CENTER
  else if Ascii.eqb c (ch "l") then CLAY_ALIGN_X_LEFT
  else default.
Definition scroll_of (c : ascii) (default : Clay_ScrollElementConfig)
  : Clay_ScrollElementConfig :=
  if Ascii.eqb c (ch "b") then {| scroll_horizontal := true; scroll_vertical := true |}
  else if Ascii.eqb c (ch "h") then {| scroll_horizontal := true; scroll_vertical := false |}
  else if Ascii.eqb c (ch "v") then {| scroll_horizontal := false; scroll_vertical := true |}
  else default.

(** Whether a color has a channel that does not compare equal to zero. *)
Definition color_given (c : Clay_Color) : bool :=
  fne (color_r c) fzero || fne (color_g c) fzero
  || fne (color_b c) fzero || fne (color_a c) fzero.

(** The members of a declaration that no style request reaches. *)
Definition untouched (d : Clay_ElementDeclaration) :=
  (ed_image d, ed_floating d, ed_custom d, ed_userData d,
   lc_layoutDirection (ed_layout d)).

(** A request with its [reverse] member replaced. *)
Definition with_reverse (reverse : bool) (o : ComponentOptions) : ComponentOptions :=
  {| opt_id := opt_id o; opt_bg := opt_bg o; opt_gap := opt_gap o;
     opt_reverse := reverse; opt_scroll := opt_scroll o; opt_p := opt_p o;
     opt_pb := opt_pb o; opt_pt := opt_pt o; opt_pl := opt_pl o; opt_pr := opt_pr o;
     opt_py := opt_py o; opt_px := opt_px o; opt_align := opt_align o;
     opt_borderRadius := opt_borderRadius o; opt_border := opt_border o;
     opt_w := opt_w o; opt_h := opt_h o |}.

(** A function on declarations that assigns at most one member, the one
    [π] reads and [set] writes, and that changes nothing in a declaration
    whose member already has the value the function leaves. *)
Definition settles {V : Type} (π : Clay_ElementDeclaration -> V)
  (set : V -> Clay_ElementDeclaration -> Clay_ElementDeclaration)
  (C : Clay_ElementDeclaration -> Clay_ElementDeclaration) : Prop :=
  (forall x y, π y = π (C x) -> C y = y) /\
  (forall y, C y = set (π (C y)) y).

(** Inputs of the further examples. *)

(** A text with a tab between two letters. *)
Definition TAB : ascii := ascii_of_nat 9.
Definition tabbed : string := String (ch "a") (String TAB "b").

(** The empty request with a height token, a width token, a corner radius
    token, a border. *)
Definition request_h (h : string) : ComponentOptions :=
  {| opt_id := None; opt_bg := NONE; opt_gap := 0; opt_reverse := false;
     opt_scroll := ""; opt_p := 0; opt_pb := 0; opt_pt := 0; opt_pl := 0;
     opt_pr := 0; opt_py := 0; opt_px := 0; opt_align := "";
     opt_borderRadius := ""; opt_border := {| b_color := NONE; b_width := "" |};
     opt_w := None; opt_h := Some h |}.
Definition request_radius (borderRadius : string) : ComponentOptions :=
  {| opt_id := None; opt_bg := NONE; opt_gap := 0; opt_reverse := false;
     opt_scroll := ""; opt_p := 0; opt_pb := 0; opt_pt := 0; opt_pl := 0;
     opt_pr := 0; opt_py := 0; opt_px := 0; opt_align := "";
     opt_borderRadius := borderRadius;
     opt_border := {| b_color := NONE; b_width := "" |};
     opt_w := None; opt_h := None |}.
Definition request_border (border : Border) : ComponentOptions :=
  {| opt_id := None; opt_bg := NONE; opt_gap := 0; opt_reverse := false;
     opt_scroll := ""; opt_p := 0; opt_pb := 0; opt_pt := 0; opt_pl := 0;
     opt_pr := 0; opt_py := 0; opt_px := 0; opt_align := "";
     opt_borderRadius := ""; opt_border := border;
     opt_w := None; opt_h := None |}.

(** Defaults with a radius of 5 on every corner and a border of 2 on every
    edge and between children. *)
Definition framedDefaultOptions : Clay_ElementDeclaration :=
  set_border (set_border_width
    {| bw_left := 2; bw_right := 2; bw_top := 2; bw_bottom := 2;
       bw_betweenChildren := 2 |})
    (set_cornerRadius (CLAY_CORNER_RADIUS (float_of_Z 5)) boxDefaultOptions).

(** A texture of 50 by 25 pixels. *)
Definition small_texture : Texture2D :=
  {| tex_id := 1; tex_width := 50; tex_height := 25; tex_mipmaps := 1; tex_format := 7 |}.

(** Commands of the examples: an untinted image, a text in font 0, a
    scissor start and end, a red rectangle, the uneven border. *)
Definition untinted_image : @Clay_RenderCommand unit_raylib :=
  @image_command unit_raylib (box 0 0 100 50)
    {| image_backgroundColor := NONE; image_cornerRadius := Clay_CornerRadius_zero;
       image_sourceDimensions := Clay_Dimensions_zero;
       image_imageData := Some small_texture |}.
Definition label : @Clay_RenderCommand unit_raylib :=
  @text_command unit_raylib (box 0 0 100 20)
    {| text_stringContents := "ok"; text_textColor := RED_500; text_fontId := 0;
       text_fontSize := 20; text_letterSpacing := 0; text_lineHeight := 0 |}.
Definition clip_start : @Clay_RenderCommand unit_raylib :=
  @command_of_type unit_raylib CLAY_RENDER_COMMAND_TYPE_SCISSOR_START (box 0 0 10 10).
Definition clip_end : @Clay_RenderCommand unit_raylib :=
  @command_of_type unit_raylib CLAY_RENDER_COMMAND_TYPE_SCISSOR_END (box 0 0 10 10).
Definition red_rectangle : @Clay_RenderCommand unit_raylib :=
  @rectangle_command unit_raylib (box 0 0 100 50) (filled RED_500 0).
(* ===================================================================== *)
(** * Part II: properties                                                 *)
(* ===================================================================== *)

(* --------------------------------------------------------------------- *)
(** ** Reasoning about outcomes *)

Lemma bind_Returned {A B : Type} (o : outcome A) (k : A -> outcome B) (b : B) :
  o ≫= k = Returned b -> exists a, o = Returned a /\ k a = Returned b.
Proof. destruct o as [a| | |]; simpl; intros E; try discriminate. eauto. Qed.

Lemma c_assert_Returned (c : bool) (msg : string) (u : unit) :
  c_assert c msg = Returned u -> c = true.
Proof. destruct c; simpl; [reflexivity | discriminate]. Qed.

Lemma when_layout c f (x : Clay_ElementDeclaration) :
  (forall y, ed_layout (f y) = ed_layout y) -> ed_layout (when c f x) = ed_layout x.
Proof. intros E. destruct c; simpl; auto. Qed.

Lemma when_padding c f (x : Clay_ElementDeclaration) :
  (forall y, lc_padding (ed_layout (f y)) = lc_padding (ed_layout y)) ->
  lc_padding (ed_layout (when c f x)) = lc_padding (ed_layout x).
Proof. intros E. destruct c; simpl; auto. Qed.

Lemma when_border c f (x : Clay_ElementDeclaration) :
  (forall y, ed_border (f y) = ed_border y) -> ed_border (when c f x) = ed_border x.
Proof. intros E. destruct c; simpl; auto. Qed.

(** Peel the binds off a hypothesis [m ≫= k = Returned r]. *)
Ltac inv_bind H :=
  repeat match type of H with
  | (_ ≫= _) = Returned _ =>
      let a := fresh "a" in
      let E := fresh "E" in
      apply bind_Returned in H; destruct H as (a & E & H)
  | mret _ = Returned _ => injection H as H
  | Returned _ = Returned _ => injection H as H
  end.

(* --------------------------------------------------------------------- *)
(** ** Arena allocator *)

Lemma size_t_small (n : Z) : 0 <= n <= SIZE_MAX -> size_t n = n.
Proof. unfold size_t, SIZE_MAX, sizeof_ptr. intros Hn. apply Z.mod_small. lia. Qed.

Lemma intptr_of_size_small (n : Z) : 0 <= n <= INTPTR_MAX -> intptr_of_size n = n.
Proof.
  intros Hn. unfold intptr_of_size. rewrite size_t_small.
  - destruct (Z.leb_spec n INTPTR_MAX); lia.
  - unfold INTPTR_MAX, SIZE_MAX, sizeof_ptr in *. lia.
Qed.

Lemma intptr_Returned (n q : Z) :
  intptr n = Returned q -> q = n /\ INTPTR_MIN <= n <= INTPTR_MAX.
Proof.
  unfold intptr. destruct (Z.leb_spec INTPTR_MIN n), (Z.leb_spec n INTPTR_MAX);
    simpl; intros E; try discriminate. injection E as <-. lia.
Qed.

Lemma intptr_in_range (n : Z) :
  INTPTR_MIN <= n <= INTPTR_MAX -> intptr n = Returned n.
Proof.
  intros Hn. unfold intptr.
  destruct (Z.leb_spec INTPTR_MIN n), (Z.leb_spec n INTPTR_MAX); simpl; try lia.
  reflexivity.
Qed.

Lemma alignment_mask (p : Z) :
  Z.land p (DEFAULT_ALIGNMENT - 1) = p mod DEFAULT_ALIGNMENT.
Proof. change (DEFAULT_ALIGNMENT - 1) with (Z.ones 4). apply Z.land_ones. lia. Qed.

(** [alignForward] returns the first multiple of the alignment at or after
    its argument. *)
Lemma alignForward_Returned (p q : Z) :
  alignForward p = Returned q ->
  p <= q < p + DEFAULT_ALIGNMENT /\ q mod DEFAULT_ALIGNMENT = 0.
Proof.
  unfold alignForward. rewrite alignment_mask.
  pose proof (Z.mod_pos_bound p DEFAULT_ALIGNMENT ltac:(reflexivity)) as Hm.
  destruct (Z.eqb_spec (p mod DEFAULT_ALIGNMENT) 0) as [Hz | Hz]; simpl; intros E.
  - injection E as <-. lia.
  - apply intptr_Returned in E as [-> _]. split; [lia |].
    replace (p + (DEFAULT_ALIGNMENT - p mod DEFAULT_ALIGNMENT))
      with (DEFAULT_ALIGNMENT * (p / DEFAULT_ALIGNMENT + 1)).
    + rewrite Z.mul_comm. apply Z.mod_mul. discriminate.
    + pose proof (Z.div_mod p DEFAULT_ALIGNMENT ltac:(discriminate)). lia.
Qed.

Lemma alignForward_total (p : Z) :
  INTPTR_MIN <= p -> p + DEFAULT_ALIGNMENT <= INTPTR_MAX ->
  exists q, alignForward p = Returned q.
Proof.
  intros Hlo Hhi. unfold alignForward. rewrite alignment_mask.
  pose proof (Z.mod_pos_bound p DEFAULT_ALIGNMENT ltac:(reflexivity)) as Hm.
  destruct (negb _); [| eauto].
  rewrite intptr_in_range by lia. eauto.
Qed.

Lemma memset_Returned m ptr c n m' :
  0 <= n -> memset m ptr c n = Returned m' ->
  base m <= ptr /\ ptr + n <= base m + Z.of_nat (length (bytes m)) /\
  base m' = base m /\ length (bytes m') = length (bytes m).
Proof.
  intros Hn. unfold memset.
  destruct (Z.leb_spec 0 (ptr - base m)),
    (Z.leb_spec (ptr - base m + n) (Z.of_nat (length (bytes m))));
    simpl; intros E; try discriminate.
  injection E as <-. simpl. repeat split; try lia.
  rewrite !length_app, length_take, length_replicate, length_drop. lia.
Qed.

(** One allocation that returns, on an arena in use: the region starts at or
    after the bump offset, on an aligned address, ends inside the buffer,
    and the bump offset moves to its end. *)
Lemma ArenaAlloc_Returned a m size ptr a' m' :
  arena_ok a m -> 0 <= size ->
  ArenaAlloc a m size = Returned (ptr, a', m') ->
  buffer a + currOffset a <= ptr /\
  ptr mod DEFAULT_ALIGNMENT = 0 /\
  ptr + size <= buffer a + bufferLength a /\
  buffer a' = buffer a /\ bufferLength a' = bufferLength a /\
  prevOffset a' = ptr - buffer a /\
  currOffset a' = ptr - buffer a + size /\
  arena_ok a' m'.
Proof.
  intros (Hbuf & (Hlen & Hpos & Hend) & Hcur) Hsize. unfold ArenaAlloc. intros E.
  apply bind_Returned in E as (currPtr & E1 & E).
  apply bind_Returned in E as (q & E2 & E).
  apply bind_Returned in E as (offset & E3 & E).
  apply bind_Returned in E as ([] & E4 & E).
  apply bind_Returned in E as (m1 & E5 & E).
  injection E as <- <- <-.
  assert (Hmax : INTPTR_MAX <= SIZE_MAX) by (vm_compute; discriminate).
  unfold DEFAULT_ALIGNMENT, sizeof_ptr in Hend.
  rewrite intptr_of_size_small in E1 by lia.
  apply intptr_Returned in E1 as [-> _].
  apply alignForward_Returned in E2 as [Hq Hal].
  apply intptr_Returned in E3 as [-> _].
  apply memset_Returned in E5 as (Hlo & Hhi & Hbase & Hlen'); [| assumption].
  replace (buffer a + (q - buffer a)) with q in * by lia.
  simpl. rewrite !size_t_small by lia.
  unfold DEFAULT_ALIGNMENT, sizeof_ptr in *.
  repeat split; simpl; unfold DEFAULT_ALIGNMENT, sizeof_ptr; try lia; try congruence.
Qed.

(** One allocation whose aligned offset plus size exceeds the capacity, the
    sum not wrapping around [size_t]: the assertion fails. *)
Lemma ArenaAlloc_out_of_space a m size :
  arena_ok a m -> 0 <= size ->
  exists offset,
    alignForward (buffer a + currOffset a) = Returned (buffer a + offset) /\
    (bufferLength a < offset + size -> offset + size <= SIZE_MAX ->
     ArenaAlloc a m size = AssertFailed "Arena ran out of space left").
Proof.
  intros (Hbuf & (Hlen & Hpos & Hend) & Hcur) Hsize.
  assert (Hmin : INTPTR_MIN < 0) by reflexivity.
  destruct (alignForward_total (buffer a + currOffset a)) as (q & Hq); [lia | lia |].
  exists (q - buffer a). replace (buffer a + (q - buffer a)) with q by lia.
  split; [exact Hq |]. intros Hover Hnowrap. unfold ArenaAlloc.
  pose proof (alignForward_Returned _ _ Hq) as [Hrange _].
  unfold DEFAULT_ALIGNMENT, sizeof_ptr in *.
  rewrite intptr_of_size_small by lia.
  rewrite intptr_in_range by lia. simpl. rewrite Hq. simpl.
  rewrite intptr_in_range by lia. simpl.
  rewrite !size_t_small by lia.
  destruct (Z.leb_spec (q - buffer a + size) (bufferLength a)); [lia | reflexivity].
Qed.

(** A run of allocations that returns, with no reset in between: the
    regions lie inside the buffer, each starts at or after the end of the
    one before it (and at or after the bump offset the run started from). *)
Lemma ArenaAllocs_Returned sizes : forall a m regions a' m',
  arena_ok a m -> Forall (fun size => 0 <= size) sizes ->
  ArenaAllocs a m sizes = Returned (regions, a', m') ->
  Forall (within_buffer a) regions /\
  Forall (fun r => buffer a + currOffset a <= r.1) regions /\
  StronglySorted (fun r1 r2 => r1.1 + r1.2 <= r2.1) regions /\
  buffer a' = buffer a /\ bufferLength a' = bufferLength a /\
  currOffset a <= currOffset a' /\
  arena_ok a' m'.
Proof.
  induction sizes as [|size sizes IH]; intros a m regions a' m' Hok Hsizes E.
  - injection E as <- <- <-.
    split_and!; [constructor | constructor | constructor | reflexivity
                | reflexivity | lia | assumption].
  - apply Forall_cons in Hsizes as [Hsize Hsizes]. cbn [ArenaAllocs] in E.
    apply bind_Returned in E as ([[ptr a1] m1] & E1 & E).
    apply bind_Returned in E as ([[rest a2] m2] & E2 & E).
    injection E as <- <- <-.
    apply ArenaAlloc_Returned in E1
      as (Hstart & _ & Hend & Hb1 & Hl1 & _ & Hc1 & Hok1); [| assumption ..].
    apply IH in E2 as (Hin & Hafter & Hsorted & Hb2 & Hl2 & Hc2 & Hok2);
      [| assumption ..].
    destruct Hok as (_ & _ & Hcur).
    split_and!; [| | | congruence | congruence | lia | assumption].
    + constructor; [split; simpl; lia |].
      eapply Forall_impl; [exact Hin |]. unfold within_buffer. intros r.
      rewrite Hb1, Hl1. auto.
    + constructor; [simpl; lia |].
      eapply Forall_impl; [exact Hafter |]. intros r. simpl. lia.
    + constructor; [exact Hsorted |].
      eapply Forall_impl; [exact Hafter |]. intros r. simpl. lia.
Qed.

(** Regions in allocation order share no byte. *)
Lemma sorted_regions_disjoint (regions : list (Z * Z)) (i j : nat) r1 r2 :
  StronglySorted (fun r1 r2 => r1.1 + r1.2 <= r2.1) regions ->
  Forall (fun r => 0 <= r.2) regions ->
  i <> j -> regions !! i = Some r1 -> regions !! j = Some r2 ->
  disjoint_regions r1 r2.
Proof.
  intros Hsorted. revert i j r1 r2.
  induction Hsorted as [|r rest Hrest IH Hall];
    intros i j r1 r2 Hsizes Hij Hi Hj; [discriminate |].
  apply Forall_cons in Hsizes as [Hr Hsizes]. rewrite Forall_forall in Hall.
  destruct i as [|i], j as [|j]; simpl in Hi, Hj; try congruence.
  - injection Hi as <-. left. apply Hall. eapply list_elem_of_lookup_2, Hj.
  - injection Hj as <-. right. apply Hall. eapply list_elem_of_lookup_2, Hi.
  - apply (IH i j); auto.
Qed.

(** After a reset the arena hands out the address of its first allocation
    again. *)
Lemma ArenaReset_reuses_address a0 m0 size0 ptr0 a1 m1 a m size ptr a' m' :
  currOffset a0 = 0 ->
  ArenaAlloc a0 m0 size0 = Returned (ptr0, a1, m1) ->
  buffer a = buffer a0 ->
  ArenaAlloc (ArenaReset a) m size = Returned (ptr, a', m') ->
  ptr = ptr0.
Proof.
  unfold ArenaAlloc, ArenaReset. cbn [buffer currOffset bufferLength].
  intros -> E0 -> E.
  apply bind_Returned in E0 as (c0 & E01 & E0).
  apply bind_Returned in E0 as (q0 & E02 & E0).
  apply bind_Returned in E0 as (o0 & E03 & E0).
  apply bind_Returned in E0 as ([] & _ & E0).
  apply bind_Returned in E0 as (? & _ & E0).
  apply bind_Returned in E as (c & E1 & E).
  apply bind_Returned in E as (q & E2 & E).
  apply bind_Returned in E as (o & E3 & E).
  apply bind_Returned in E as ([] & _ & E).
  apply bind_Returned in E as (? & _ & E).
  injection E0 as <- _ _. injection E as <- _ _.
  congruence.
Qed.

(** C7. The capacity check of [ArenaAlloc] at a size that wraps around
    [size_t]. On the arena of 64 bytes at address 4096, after an allocation
    of one byte (bump offset 1, next aligned offset 16), a request for
    2^64 - 16 bytes has aligned offset plus size 2^64, far above the
    capacity; yet the sum taken in [size_t] is 0, the assertion passes, and
    the call goes on to [memset] over bytes outside the buffer instead of
    taking the assertion's abort. *)
Theorem arena_capacity_check_wraps :
  arena_ok small_arena small_block /\
  exists a1 m1,
    ArenaAlloc small_arena small_block 1 = Returned (4096, a1, m1) /\
    currOffset a1 = 1 /\
    alignForward (buffer a1 + currOffset a1) = Returned (buffer a1 + 16) /\
    bufferLength a1 < 16 + (SIZE_MAX - 15) /\
    size_t (16 + (SIZE_MAX - 15)) = 0 /\
    ArenaAlloc a1 m1 (SIZE_MAX - 15) = Undefined "memset outside the arena's buffer" /\
    ArenaAlloc a1 m1 (SIZE_MAX - 15) <> AssertFailed "Arena ran out of space left".
Proof.
  split.
  - unfold arena_ok, malloced. vm_compute. intuition discriminate.
  - eexists _, _. split; [vm_compute; reflexivity |].
    split; [reflexivity |]. split; [reflexivity |]. split; [reflexivity |].
    split; [reflexivity |]. split; [vm_compute; reflexivity |].
    vm_compute. discriminate.
Qed.

(** The arena of the example through a run of three allocations, a reset
    and one more allocation. *)
Example small_arena_run :
  exists a m,
    ArenaAllocs small_arena small_block [1; 3; 20]
      = Returned ([(4096, 1); (4112, 3); (4128, 20)], a, m) /\
    ArenaAllocs a m [40] = AssertFailed "Arena ran out of space left" /\
    exists a' m', ArenaAlloc (ArenaReset a) m 8 = Returned (4096, a', m').
Proof.
  eexists _, _. split; [vm_compute; reflexivity |].
  split; [vm_compute; reflexivity |].
  eexists _, _. vm_compute. reflexivity.
Qed.

(* --------------------------------------------------------------------- *)
(** ** Style token compiler *)

Section StyleTokenProperties.
Context `{Libc} `{ClayHash}.

(** The blocks after "Padding parse" leave the paddings alone, and the
    blocks other than "Border width parsing" leave the border alone. *)
Lemma parse_align_padding options r :
  lc_padding (ed_layout (parse_align options r)) = lc_padding (ed_layout r).
Proof. unfold parse_align. rewrite !when_padding; reflexivity. Qed.

Lemma parse_scroll_layout options r :
  ed_layout (parse_scroll options r) = ed_layout r.
Proof. unfold parse_scroll. rewrite !when_layout; reflexivity. Qed.

Lemma parse_borderRadius_frame options r r' :
  parse_borderRadius options r = Returned r' ->
  ed_layout r' = ed_layout r /\ ed_border r' = ed_border r.
Proof.
  unfold parse_borderRadius. intros E.
  destruct (negb _); [| injection E as <-; auto].
  inv_bind E. subst r'. split; [rewrite !when_layout | rewrite !when_border]; reflexivity.
Qed.

Lemma when_width_layout c l r t b w x x' :
  when_width c l r t b w x = Returned x' -> ed_layout x' = ed_layout x.
Proof.
  unfold when_width. destruct c; intros E; [| injection E as <-; reflexivity].
  inv_bind E. subst x'. reflexivity.
Qed.

Lemma parse_border_layout options r r' :
  parse_border options r = Returned r' -> ed_layout r' = ed_layout r.
Proof.
  unfold parse_border. intros E.
  destruct (fne _ _); [| injection E as <-; reflexivity].
  inv_bind E. subst r'. simpl.
  repeat match goal with
         | E : when_width _ _ _ _ _ _ _ = Returned _ |- _ =>
             apply when_width_layout in E
         end.
  congruence.
Qed.

Lemma parse_sizing_axis_frame token unknown set r r' :
  parse_sizing_axis token unknown set r = Returned r' ->
  lc_padding (ed_layout r') = lc_padding (ed_layout r) /\ ed_border r' = ed_border r.
Proof.
  unfold parse_sizing_axis. intros E.
  destruct token as [tok|]; [| injection E as <-; auto].
  inv_bind E. subst r'. split; [rewrite !when_padding | rewrite !when_border]; reflexivity.
Qed.

Lemma parse_sizing_frame options r r' :
  parse_sizing options r = Returned r' ->
  lc_padding (ed_layout r') = lc_padding (ed_layout r) /\ ed_border r' = ed_border r.
Proof.
  unfold parse_sizing. intros E. inv_bind E.
  apply parse_sizing_axis_frame in E0, E. destruct E0, E. split; congruence.
Qed.

(** What "Padding parse" leaves in each edge. *)
Lemma parse_padding_spec options r :
  lc_padding (ed_layout (parse_padding options r)) =
  {| pad_left := most_specific (opt_pl options) (opt_px options) (opt_p options)
                   (pad_left (lc_padding (ed_layout r)));
     pad_right := most_specific (opt_pr options) (opt_px options) (opt_p options)
                    (pad_right (lc_padding (ed_layout r)));
     pad_top := most_specific (opt_pt options) (opt_py options) (opt_p options)
                  (pad_top (lc_padding (ed_layout r)));
     pad_bottom := most_specific (opt_pb options) (opt_py options) (opt_p options)
                     (pad_bottom (lc_padding (ed_layout r))) |}.
Proof.
  unfold parse_padding, most_specific, when.
  destruct (nonzero (opt_p options)), (nonzero (opt_px options)),
    (nonzero (opt_py options)), (nonzero (opt_pt options)),
    (nonzero (opt_pb options)), (nonzero (opt_pl options)),
    (nonzero (opt_pr options)); destruct r as [? [? [] ? ? ?] ? ? ? ? ? ? ? ?];
    reflexivity.
Qed.

Lemma parse_misc_padding options r :
  lc_padding (ed_layout (parse_misc options r)) = lc_padding (ed_layout r).
Proof.
  unfold parse_misc. rewrite !when_padding by reflexivity.
  destruct (opt_id options); reflexivity.
Qed.

Lemma parse_misc_border options r :
  ed_border (parse_misc options r) = ed_border r.
Proof.
  unfold parse_misc. rewrite !when_border by reflexivity.
  destruct (opt_id options); reflexivity.
Qed.

Lemma parse_padding_border options r :
  ed_border (parse_padding options r) = ed_border r.
Proof. unfold parse_padding. rewrite !when_border; reflexivity. Qed.

Lemma parse_align_border options r :
  ed_border (parse_align options r) = ed_border r.
Proof. unfold parse_align. rewrite !when_border; reflexivity. Qed.

Lemma parse_scroll_border options r :
  ed_border (parse_scroll options r) = ed_border r.
Proof. unfold parse_scroll. rewrite !when_border; reflexivity. Qed.

(** The paddings of a resolved configuration are those "Padding parse"
    computed from the defaults. *)
Lemma resolved_padding options defaults r :
  ParseComponentOptions options defaults = Returned r ->
  lc_padding (ed_layout r) = lc_padding (ed_layout (parse_padding options defaults)).
Proof.
  unfold ParseComponentOptions. intros E.
  apply bind_Returned in E as (r1 & E1 & E).
  apply bind_Returned in E as (r2 & E2 & E).
  apply bind_Returned in E as (r3 & E3 & E).
  injection E as <-.
  apply parse_sizing_frame in E3 as [-> _].
  apply parse_border_layout in E2 as ->.
  apply parse_borderRadius_frame in E1 as [-> _].
  rewrite parse_scroll_layout, parse_align_padding, !parse_padding_spec,
    parse_misc_padding.
  reflexivity.
Qed.

(** The border of a resolved configuration is the one "Border width
    parsing" was given the defaults' border and returned. *)
Lemma resolved_border options defaults r :
  ParseComponentOptions options defaults = Returned r ->
  exists x x', ed_border x = ed_border defaults /\
    parse_border options x = Returned x' /\ ed_border r = ed_border x'.
Proof.
  unfold ParseComponentOptions. intros E.
  apply bind_Returned in E as (r1 & E1 & E).
  apply bind_Returned in E as (r2 & E2 & E).
  apply bind_Returned in E as (r3 & E3 & E).
  injection E as <-.
  apply parse_sizing_frame in E3 as [_ ->].
  apply parse_borderRadius_frame in E1 as [_ E1].
  exists r1, r2. split; [| auto].
  rewrite E1, parse_scroll_border, parse_align_border, parse_padding_border,
    parse_misc_border. reflexivity.
Qed.

(** C1. Resolving an empty style request is the identity on the defaults:
    for every default configuration and every request whose members are all
    unset (null pointers, zero numbers, empty tokens, a background color of
    four zero channels, a border color of zero alpha), as they are in the
    request [(ComponentOptions){0}], [ParseComponentOptions] returns a
    configuration equal to the defaults in every member. *)
Theorem unset_request_returns_defaults options defaults :
  unset options -> ParseComponentOptions options defaults = Returned defaults.
Proof.
  intros (Hid & Hr & Hg & Hb & Ha & Hgap & Hp & Hpx & Hpy & Hpt & Hpb & Hpl & Hpr
          & Hal0 & Hal1 & Hsc & Hbr & Hba & Hw & Hh).
  unfold ParseComponentOptions, parse_misc, parse_padding, parse_align,
    parse_scroll, parse_borderRadius, parse_border, parse_sizing, fne.
  unfold feq in *.
  rewrite Hid, Hr, Hg, Hb, Ha, Hgap, Hp, Hpx, Hpy, Hpt, Hpb, Hpl, Hpr,
    Hal0, Hal1, Hsc, Hbr, Hba, Hw, Hh.
  reflexivity.
Qed.

(** C2. Padding precedence: in every resolved configuration the padding of
    an edge is the single-edge value ([pt], [pb], [pl], [pr]) when the
    request supplies one; failing that, the axis value ([py] for top and
    bottom, [px] for left and right) when the request supplies one, so an
    axis value beats the whole value [p]; failing that, the whole value. A
    value of zero is a value not supplied. The request is a record, so the
    order in which its members were written plays no part. *)
Theorem padding_precedence options defaults r :
  ParseComponentOptions options defaults = Returned r ->
  let pad := lc_padding (ed_layout r) in
  (opt_pt options <> 0 -> pad_top pad = opt_pt options) /\
  (opt_pb options <> 0 -> pad_bottom pad = opt_pb options) /\
  (opt_pl options <> 0 -> pad_left pad = opt_pl options) /\
  (opt_pr options <> 0 -> pad_right pad = opt_pr options) /\
  (opt_pt options = 0 -> opt_py options <> 0 -> pad_top pad = opt_py options) /\
  (opt_pb options = 0 -> opt_py options <> 0 -> pad_bottom pad = opt_py options) /\
  (opt_pl options = 0 -> opt_px options <> 0 -> pad_left pad = opt_px options) /\
  (opt_pr options = 0 -> opt_px options <> 0 -> pad_right pad = opt_px options) /\
  (opt_pt options = 0 -> opt_py options = 0 -> opt_p options <> 0 ->
     pad_top pad = opt_p options) /\
  (opt_pb options = 0 -> opt_py options = 0 -> opt_p options <> 0 ->
     pad_bottom pad = opt_p options) /\
  (opt_pl options = 0 -> opt_px options = 0 -> opt_p options <> 0 ->
     pad_left pad = opt_p options) /\
  (opt_pr options = 0 -> opt_px options = 0 -> opt_p options <> 0 ->
     pad_right pad = opt_p options).
Proof.
  intros E pad. subst pad.
  rewrite (resolved_padding _ _ _ E), parse_padding_spec. simpl.
  unfold most_specific, nonzero.
  repeat split; intros;
    repeat match goal with
           | Hz : ?x = 0 |- _ => rewrite Hz; clear Hz
           | Hn : ?x <> 0 |- _ => apply Z.eqb_neq in Hn; rewrite Hn; clear Hn
           end; reflexivity.
Qed.

(** The width token "a-50" on a border whose color is applied. *)
Lemma parse_border_a_50 options x x' :
  fne (color_a (b_color (opt_border options))) fzero = true ->
  b_width (opt_border options) = "a-50" ->
  atof "50" = double_of_Z 50 ->
  parse_border options x = Returned x' ->
  ed_border x' =
  {| border_color := b_color (opt_border options);
     border_width := {| bw_left := 50; bw_right := 50; bw_top := 50; bw_bottom := 50;
                        bw_betweenChildren := 0 |} |}.
Proof.
  intros Ha Hw Hatof. unfold parse_border. rewrite Ha, Hw.
  cbn -[atof to_uint16].
  set (c := copy_terminated _ _ _ _). vm_compute in c. subst c.
  cbn -[atof to_uint16]. rewrite Hatof.
  change (to_uint16 (double_of_Z 50)) with (Returned 50 : outcome Z).
  cbn. intros E. injection E as <-. reflexivity.
Qed.

(** C8. Border tokens are applied only with a color that is not fully
    transparent: when the alpha of the request's border color is zero, the
    border of the resolved configuration (the four edge widths and the
    color) is the border of the defaults, whatever the width token; when it
    is not zero and the width token is "a-50", the four edge widths are 50
    and the border color is the color of the request. *)
Theorem border_gated_on_color options defaults r :
  ParseComponentOptions options defaults = Returned r ->
  (feq (color_a (b_color (opt_border options))) fzero = true ->
     ed_border r = ed_border defaults) /\
  (fne (color_a (b_color (opt_border options))) fzero = true ->
   b_width (opt_border options) = "a-50" ->
   atof "50" = double_of_Z 50 ->
     bw_left (border_width (ed_border r)) = 50 /\
     bw_right (border_width (ed_border r)) = 50 /\
     bw_top (border_width (ed_border r)) = 50 /\
     bw_bottom (border_width (ed_border r)) = 50 /\
     border_color (ed_border r) = b_color (opt_border options)).
Proof.
  intros E. apply resolved_border in E as (x & x' & Hx & Hb & ->). split.
  - intros Ha. unfold parse_border, fne in Hb. unfold feq in Ha. rewrite Ha in Hb.
    simpl in Hb. injection Hb as <-. exact Hx.
  - intros Ha Hw Hatof.
    rewrite (parse_border_a_50 _ _ _ Ha Hw Hatof Hb). simpl. auto.
Qed.

End StyleTokenProperties.

(** C1 on the empty request: it is unset in every member, and resolves to
    the defaults whatever they are. *)
Lemma empty_request_returns_defaults :
  unset emptyRequest /\
  forall defaults,
    @ParseComponentOptions decimal_libc sum_hash emptyRequest defaults = Returned defaults.
Proof.
  assert (Hunset : unset emptyRequest) by (unfold unset; repeat split; reflexivity).
  split; [exact Hunset |]. intros defaults.
  exact (@unset_request_returns_defaults decimal_libc sum_hash emptyRequest defaults Hunset).
Defined.

(** The configurations the two example requests resolve to on the defaults
    of [Box]. *)
Lemma paddedRequest_resolves :
  @ParseComponentOptions decimal_libc sum_hash paddedRequest boxDefaultOptions
  = Returned paddedResolved.
Proof. vm_compute. reflexivity. Qed.

Lemma unborderedRequest_resolves :
  @ParseComponentOptions decimal_libc sum_hash unborderedRequest boxDefaultOptions
  = Returned unborderedResolved.
Proof. vm_compute. reflexivity. Qed.

(** C2 on [paddedRequest]: top from [pt], right from [pr], bottom from
    [py], left from [px], none from [p]. *)
Lemma padding_precedence_witness :
  @ParseComponentOptions decimal_libc sum_hash paddedRequest boxDefaultOptions
    = Returned paddedResolved /\
  pad_top (lc_padding (ed_layout paddedResolved)) = 3 /\
  pad_right (lc_padding (ed_layout paddedResolved)) = 7 /\
  pad_bottom (lc_padding (ed_layout paddedResolved)) = 5 /\
  pad_left (lc_padding (ed_layout paddedResolved)) = 6.
Proof.
  split; [vm_compute; reflexivity |].
  pose proof (@padding_precedence decimal_libc sum_hash paddedRequest
                boxDefaultOptions paddedResolved) as P.
  destruct P as (Pt & _ & _ & Pr & _ & Pb & Pl & _); [vm_compute; reflexivity |].
  split; [apply Pt; discriminate |].
  split; [apply Pr; discriminate |].
  split; [apply Pb; [reflexivity | discriminate] |].
  apply Pl; [reflexivity | discriminate].
Defined.

(** C8 on a request with the color NONE and on one with RED_500 and the
    token "a-50". *)
Lemma border_gated_on_color_witness :
  (@ParseComponentOptions decimal_libc sum_hash unborderedRequest boxDefaultOptions
     = Returned unborderedResolved /\
   feq (color_a (b_color (opt_border unborderedRequest))) fzero = true /\
   ed_border unborderedResolved = ed_border boxDefaultOptions) /\
  (@ParseComponentOptions decimal_libc sum_hash paddedRequest boxDefaultOptions
     = Returned paddedResolved /\
   fne (color_a (b_color (opt_border paddedRequest))) fzero = true /\
   b_width (opt_border paddedRequest) = "a-50" /\
   @atof decimal_libc "50" = double_of_Z 50 /\
   bw_left (border_width (ed_border paddedResolved)) = 50 /\
   bw_right (border_width (ed_border paddedResolved)) = 50 /\
   bw_top (border_width (ed_border paddedResolved)) = 50 /\
   bw_bottom (border_width (ed_border paddedResolved)) = 50 /\
   border_color (ed_border paddedResolved) = RED_500).
Proof.
  split.
  - split; [vm_compute; reflexivity |]. split; [reflexivity |].
    apply (@border_gated_on_color decimal_libc sum_hash unborderedRequest
             boxDefaultOptions unborderedResolved); [vm_compute |]; reflexivity.
  - split; [vm_compute; reflexivity |]. do 3 (split; [reflexivity |]).
    apply (@border_gated_on_color decimal_libc sum_hash paddedRequest
             boxDefaultOptions paddedResolved); [vm_compute | | |]; reflexivity.
Defined.

(* --------------------------------------------------------------------- *)
(** ** Scroll helpers *)

Lemma fminf_zero_nonpositive (y : float) : fle (fminf fzero y) fzero = true.
Proof. destruct y as [[]|[]| |[] m e]; reflexivity. Qed.

Lemma scroll_clamp_nonpositive current delta contentExtent viewportExtent :
  fle (scroll_clamp current delta contentExtent viewportExtent) fzero = true.
Proof. apply fminf_zero_nonpositive. Qed.

Section ScrollProperties.
Context `{ClayHash}.

(** [ScrollContainerByY] on a container Clay knows: the call returns, and
    the container's vertical offset is the clamped one. *)
Lemma ScrollContainerByY_result (ctx : gmap Z ScrollContainer) containerName deltaY c :
  let id := eid_id (Clay__HashString (toClayString containerName) 0 0) in
  ctx !! id = Some c ->
  result (ScrollContainerByY ctx containerName deltaY) =
  Returned (<[id := with_scroll_y
                      (scroll_clamp (v2_y (sc_scrollPosition c)) deltaY
                         (dim_height (sc_contentSize c)) (dim_height (sc_boundingBox c)))
                      c]> ctx).
Proof.
  intros id Hc. subst id. unfold ScrollContainerByY, Clay_GetScrollContainerData.
  rewrite Hc. unfold load_position, store_position. simpl.
  rewrite Hc. simpl. destruct (feq _ _); reflexivity.
Qed.

(** C3. Vertical scroll-by-delta clamps to the formula
    min(0, max(current + delta, -max(0, contentHeight - viewportHeight))):
    on a container Clay knows, [ScrollContainerByY] returns and stores that
    value as the container's vertical offset, and the value is never
    positive. With contentHeight = 500, viewportHeight = 200 and
    current = 0, a delta of -1000 yields exactly -300, and a further delta
    of -1000 from -300 leaves the offset at -300. *)
Theorem scroll_by_y_clamps (ctx : gmap Z ScrollContainer) containerName deltaY c :
  let id := eid_id (Clay__HashString (toClayString containerName) 0 0) in
  ctx !! id = Some c ->
  let newY := scroll_clamp (v2_y (sc_scrollPosition c)) deltaY
                (dim_height (sc_contentSize c)) (dim_height (sc_boundingBox c)) in
  result (ScrollContainerByY ctx containerName deltaY)
    = Returned (<[id := with_scroll_y newY c]> ctx) /\
  fle newY fzero = true /\
  (dim_height (sc_contentSize c) = float_of_Z 500 ->
   dim_height (sc_boundingBox c) = float_of_Z 200 ->
   v2_y (sc_scrollPosition c) = fzero ->
   deltaY = float_of_Z (-1000) ->
   exists ctx1 ctx2,
     result (ScrollContainerByY ctx containerName deltaY) = Returned ctx1 /\
     v2_y ∘ sc_scrollPosition <$> ctx1 !! id = Some (float_of_Z (-300)) /\
     result (ScrollContainerByY ctx1 containerName deltaY) = Returned ctx2 /\
     v2_y ∘ sc_scrollPosition <$> ctx2 !! id = Some (float_of_Z (-300))).
Proof.
  intros id Hc newY. split; [| split].
  - apply ScrollContainerByY_result, Hc.
  - apply scroll_clamp_nonpositive.
  - intros Hcontent Hviewport Hcurrent ->.
    eexists _, _. rewrite (ScrollContainerByY_result ctx _ _ c Hc).
    split; [reflexivity |].
    rewrite lookup_insert_eq. simpl. rewrite Hcontent, Hviewport, Hcurrent.
    split; [reflexivity |].
    erewrite ScrollContainerByY_result by apply lookup_insert_eq.
    split; [reflexivity |].
    rewrite lookup_insert_eq. simpl. rewrite Hcontent, Hviewport. reflexivity.
Qed.

End ScrollProperties.

(** C3 on a container of content height 500 and viewport height 200,
    scrolled by -1000 from 0. *)
Lemma scroll_by_y_clamps_witness :
  let c := {| sc_scrollPosition := {| v2_x := fzero; v2_y := fzero |};
              sc_boundingBox := {| dim_width := float_of_Z 300; dim_height := float_of_Z 200 |};
              sc_contentSize := {| dim_width := float_of_Z 300; dim_height := float_of_Z 500 |};
              sc_config := {| scroll_horizontal := false; scroll_vertical := true |} |} in
  let id := eid_id (@Clay__HashString sum_hash (toClayString "feed") 0 0) in
  let ctx : gmap Z ScrollContainer := {[ id := c ]} in
  ctx !! id = Some c /\
  result (@ScrollContainerByY sum_hash ctx "feed" (float_of_Z (-1000)))
    = Returned (<[id := with_scroll_y (float_of_Z (-300)) c]> ctx) /\
  fle (float_of_Z (-300)) fzero = true.
Proof.
  intros c id ctx.
  assert (Hc : ctx !! id = Some c) by apply lookup_singleton_eq.
  split; [exact Hc |].
  destruct (@scroll_by_y_clamps sum_hash ctx "feed" (float_of_Z (-1000)) c Hc)
    as (Hr & Hle & _).
  split; [exact Hr | exact Hle].
Defined.

(* --------------------------------------------------------------------- *)
(** ** Reasoning about traces *)

Lemma io_eta {E A : Type} (m : io E A) : IO (trace m) (result m) = m.
Proof. destruct m; reflexivity. Qed.

Lemma io_bind_Returned {E A B : Type} (m : io E A) (k : A -> io E B) (a : A) :
  result m = Returned a ->
  m ≫= k = IO (trace m ++ trace (k a)) (result (k a)).
Proof. intros E'. unfold mbind, io_bind. rewrite E'. reflexivity. Qed.

Lemma io_bind_ret_l {E A B : Type} (a : A) (k : A -> io E B) : mret a ≫= k = k a.
Proof. unfold mret, io_ret, mbind, io_bind. simpl. apply io_eta. Qed.

Lemma io_bind_assoc {E A B C : Type} (m : io E A) (f : A -> io E B) (g : B -> io E C) :
  (m ≫= f) ≫= g = m ≫= (fun x => f x ≫= g).
Proof.
  unfold mbind, io_bind. destruct m as [t [a| | |]]; simpl; try reflexivity.
  destruct (f a) as [t' [b| | |]]; simpl; rewrite ?app_assoc; reflexivity.
Qed.

Lemma io_result_bind {E A B : Type} (m : io E A) (k : A -> io E B) (b : B) :
  result (m ≫= k) = Returned b ->
  exists a, result m = Returned a /\ result (k a) = Returned b.
Proof.
  unfold mbind, io_bind. destruct m as [t [a| | |]]; simpl; try discriminate. eauto.
Qed.

(* --------------------------------------------------------------------- *)
(** ** Render command interpreter: control flow *)

Section InterpreterControl.
Context `{Raylib}.

Lemma render_loop_app cmds fonts cam (pre post : list Clay_RenderCommand) :
  render_loop cmds fonts cam (pre ++ post) =
  (render_loop cmds fonts cam pre ;; render_loop cmds fonts cam post).
Proof.
  induction pre as [|c pre IH]; cbn [app render_loop].
  - rewrite io_bind_ret_l. reflexivity.
  - rewrite IH, io_bind_assoc. reflexivity.
Qed.

(** The [default] case of the switch. *)
Lemma render_command_unhandled cmds fonts cam c :
  commandType c ∉ handled_command_types ->
  render_command cmds fonts cam c = IO [Output unhandled] (Exited 1).
Proof.
  intros Hc. unfold render_command.
  repeat match goal with
         | |- context [commandType c =? ?k] =>
             destruct (Z.eqb_spec (commandType c) k) as [Heq | _];
             [exfalso; apply Hc; rewrite Heq; unfold handled_command_types;
              set_solver |]
         end.
  reflexivity.
Qed.

(** A command with a tag the switch has a case for never exits. *)
Lemma render_command_handled cmds fonts cam c :
  result (render_command cmds fonts cam c) = Returned tt ->
  commandType c ∈ handled_command_types.
Proof.
  intros Hr. destruct (decide (commandType c ∈ handled_command_types)) as [|Hn]; [assumption |].
  rewrite (render_command_unhandled _ _ _ _ Hn) in Hr. discriminate.
Qed.

Lemma render_loop_handled cmds fonts cam rest :
  result (render_loop cmds fonts cam rest) = Returned tt ->
  Forall (fun c => commandType c ∈ handled_command_types) rest.
Proof.
  induction rest as [|c rest IH]; cbn [render_loop]; intros Hr; [constructor |].
  apply io_result_bind in Hr as ([] & Hc & Hrest).
  constructor; [eapply render_command_handled; eassumption | auto].
Qed.

(** C9. A command whose tag is none of Text, Image, Rectangle, Border,
    ScissorStart, ScissorEnd, Custom is fatal. When the commands before it
    have been interpreted (they returned), the interpreter reaches it,
    prints its error message and exits the process with status 1: the trace
    of the whole run ends with that message, so the command is not skipped
    and no later command is processed. And no command array that holds such
    a command lets the interpreter return. *)
Theorem unrecognized_command_is_fatal fonts cam (pre post : list Clay_RenderCommand) c :
  commandType c ∉ handled_command_types ->
  let cmds := pre ++ c :: post in
  (result (render_loop cmds fonts cam pre) = Returned tt ->
   Clay_Raylib_Render cmds fonts cam =
   IO (trace (render_loop cmds fonts cam pre) ++ [Output unhandled]) (Exited 1)) /\
  result (Clay_Raylib_Render cmds fonts cam) <> Returned tt.
Proof.
  intros Hc cmds. split.
  - intros Hpre. unfold Clay_Raylib_Render. unfold cmds at 2.
    rewrite render_loop_app. cbn [render_loop].
    rewrite (render_command_unhandled _ _ _ _ Hc).
    rewrite (io_bind_Returned _ _ tt Hpre). reflexivity.
  - intros Hr. apply render_loop_handled in Hr.
    apply Forall_app in Hr as [_ Hr]. inversion Hr; subst. contradiction.
Qed.

(** C10. A Custom command whose payload pointer is null, or whose payload
    carries a custom element type other than the 3D model, draws nothing and
    is not fatal: interpreting it emits no event and returns, and the loop
    goes on with the remaining commands exactly as if it started from
    them. *)
Theorem null_or_unknown_custom_is_skipped cmds fonts cam c (rest : list Clay_RenderCommand) :
  commandType c = CLAY_RENDER_COMMAND_TYPE_CUSTOM ->
  (custom_customData (rd_custom (renderData c)) = None \/
   exists e, custom_customData (rd_custom (renderData c)) = Some e /\
             cle_type e <> CUSTOM_LAYOUT_ELEMENT_TYPE_3D_MODEL) ->
  render_command cmds fonts cam c = IO [] (Returned tt) /\
  render_loop cmds fonts cam (c :: rest) = render_loop cmds fonts cam rest.
Proof.
  intros Htag Hpayload.
  assert (Hc : render_command cmds fonts cam c = mret tt).
  { unfold render_command. rewrite Htag. cbn [Z.eqb Pos.eqb
      CLAY_RENDER_COMMAND_TYPE_CUSTOM CLAY_RENDER_COMMAND_TYPE_TEXT
      CLAY_RENDER_COMMAND_TYPE_IMAGE CLAY_RENDER_COMMAND_TYPE_SCISSOR_START
      CLAY_RENDER_COMMAND_TYPE_SCISSOR_END CLAY_RENDER_COMMAND_TYPE_RECTANGLE
      CLAY_RENDER_COMMAND_TYPE_BORDER]. unfold render_custom.
    destruct Hpayload as [-> | (e & -> & Hty)]; [reflexivity |].
    apply Z.eqb_neq in Hty. rewrite Hty. reflexivity. }
  split; [exact Hc |].
  cbn [render_loop]. rewrite Hc.
  exact (io_bind_ret_l tt (fun _ => render_loop cmds fonts cam rest)).
Qed.

End InterpreterControl.

(** C9 on a rectangle, a command of type NONE and a scissor end: the
    rectangle is drawn, the message is printed, the process exits. *)
Lemma unrecognized_command_is_fatal_witness :
  let red := rectangle_command (box 0 0 100 50) (filled RED_500 0) in
  let bad := command_of_type CLAY_RENDER_COMMAND_TYPE_NONE (box 0 0 10 10) in
  let last := command_of_type CLAY_RENDER_COMMAND_TYPE_SCISSOR_END (box 0 0 10 10) in
  let cmds := [red; bad; last] in
  (commandType bad ∉ handled_command_types) /\
  (result (@render_loop unit_raylib cmds [] example_camera [red]) = Returned tt) /\
  @Clay_Raylib_Render unit_raylib cmds [] example_camera =
  IO [DrawRectangle 0 0 100 50 {| rl_r := 239; rl_g := 68; rl_b := 68; rl_a := 255 |};
      Output unhandled] (Exited 1).
Proof.
  intros red bad last cmds.
  assert (Hbad : commandType bad ∉ handled_command_types).
  { rewrite list_elem_of_In. simpl. intuition discriminate. }
  assert (Hpre : result (@render_loop unit_raylib cmds [] example_camera [red]) = Returned tt)
    by (vm_compute; reflexivity).
  split; [exact Hbad |]. split; [exact Hpre |].
  apply (proj1 (@unrecognized_command_is_fatal unit_raylib [] example_camera
                  [red] [last] bad Hbad) Hpre).
Defined.

(** C10 on a Custom command with a null payload followed by a scissor
    end. *)
Lemma null_or_unknown_custom_is_skipped_witness :
  let skipped := @custom_command unit_raylib (box 0 0 10 10) None in
  let last := command_of_type CLAY_RENDER_COMMAND_TYPE_SCISSOR_END (box 0 0 10 10) in
  commandType skipped = CLAY_RENDER_COMMAND_TYPE_CUSTOM /\
  custom_customData (rd_custom (renderData skipped)) = None /\
  @render_loop unit_raylib [skipped; last] [] example_camera [skipped; last] =
  @render_loop unit_raylib [skipped; last] [] example_camera [last].
Proof.
  intros skipped last. split; [reflexivity |]. split; [reflexivity |].
  apply (@null_or_unknown_custom_is_skipped unit_raylib [skipped; last] []
           example_camera skipped [last] eq_refl (or_introl eq_refl)).
Defined.

(* --------------------------------------------------------------------- *)
(** ** Render command interpreter: what is drawn *)

Lemma feq_zero_not_positive (x : float) : feq x fzero = true -> fgt x fzero = false.
Proof. destruct x as [[]|[]| |[] m e]; simpl; intros E; try discriminate; reflexivity. Qed.

(** [CLAY__MIN] against a finite bound is at most that bound, also when the
    other argument is a NaN. *)
Lemma CLAY__MIN_upper (x : float) (s : bool) (m : positive) (e : Z) :
  fle (CLAY__MIN x (S754_finite s m e)) (S754_finite s m e) = true.
Proof.
  unfold CLAY__MIN, flt, fle, SFltb, SFleb.
  destruct (SFcompare x (S754_finite s m e)) as [[]|] eqn:E; try rewrite E; try reflexivity;
    destruct s; simpl; rewrite ?Z.compare_refl, ?Pos.compare_cont_refl; reflexivity.
Qed.

(** Comparing two floats the other way round. *)
Lemma SFcompare_swap (x y : spec_float) :
  SFcompare y x = option_map CompOpp (SFcompare x y).
Proof.
  destruct x as [[]|[]| |[] mx ex], y as [[]|[]| |[] my ey]; try reflexivity; simpl;
    rewrite (Z.compare_antisym ey ex); destruct (ey ?= ex); simpl; try reflexivity;
    rewrite (Pos.compare_cont_antisym mx my Eq); simpl;
    try rewrite CompOpp_involutive; reflexivity.
Qed.

Lemma SFcompare_refl (x : spec_float) : isnan x = false -> SFcompare x x = Some Eq.
Proof.
  destruct x as [[]|[]| |[] m e]; try reflexivity; try discriminate; intros _; simpl;
    rewrite Z.compare_refl, Pos.compare_cont_refl; reflexivity.
Qed.

(** The divisor of the roundness, [width > height ? height : width], is the
    shorter side of a box whose sides are numbers. *)
Lemma shorter_side_is_min (w h : float) :
  isnan w = false -> isnan h = false ->
  let shorter := if fgt w h then h else w in
  (shorter = w \/ shorter = h) /\ fle shorter w = true /\ fle shorter h = true.
Proof.
  intros Hw Hh. unfold fgt, fle, SFltb, SFleb.
  pose proof (SFcompare_swap h w) as Hswap.
  destruct (SFcompare h w) as [[]|] eqn:Ehw; cbn zeta.
  - rewrite (SFcompare_refl w Hw). destruct (SFcompare w h) as [[]|]; try discriminate.
    auto.
  - rewrite (SFcompare_refl h Hh), Ehw. auto.
  - rewrite (SFcompare_refl w Hw). destruct (SFcompare w h) as [[]|]; try discriminate.
    auto.
  - destruct w, h; discriminate.
Qed.

Section InterpreterDraws.
Context `{Raylib}.

Lemma render_ring_events config radius center inner startAngle endAngle col :
  CLAY_COLOR_TO_RAYLIB_COLOR (bord_color config) = Returned col ->
  render_ring config radius center inner startAngle endAngle =
  IO (drawn_if_positive radius
        (DrawRing center inner radius startAngle endAngle 10 col)) (Returned tt).
Proof.
  intros Hcol. unfold render_ring, when_do, drawn_if_positive, color_of.
  rewrite Hcol. destruct (fgt radius fzero); reflexivity.
Qed.

(** The switch on a Rectangle and on a Border command. *)
Lemma render_command_rectangle cmds fonts cam c :
  commandType c = CLAY_RENDER_COMMAND_TYPE_RECTANGLE ->
  render_command cmds fonts cam c =
  render_rectangle (boundingBox c) (rd_rectangle (renderData c)).
Proof. intros Htag. unfold render_command. rewrite Htag. reflexivity. Qed.

Lemma render_command_border cmds fonts cam c :
  commandType c = CLAY_RENDER_COMMAND_TYPE_BORDER ->
  render_command cmds fonts cam c =
  render_border (boundingBox c) (rd_border (renderData c)).
Proof. intros Htag. unfold render_command. rewrite Htag. reflexivity. Qed.

Lemma render_command_custom cmds fonts cam c :
  commandType c = CLAY_RENDER_COMMAND_TYPE_CUSTOM ->
  render_command cmds fonts cam c = render_custom cmds cam c.
Proof. intros Htag. unfold render_command. rewrite Htag. reflexivity. Qed.

Lemma render_rectangle_rounded bb config col :
  fgt (topLeft (rect_cornerRadius config)) fzero = true ->
  CLAY_COLOR_TO_RAYLIB_COLOR (rect_backgroundColor config) = Returned col ->
  render_rectangle bb config =
  IO [DrawRectangleRounded
        {| rec_x := bb_x bb; rec_y := bb_y bb;
           rec_width := bb_width bb; rec_height := bb_height bb |}
        (fdiv (fmul (topLeft (rect_cornerRadius config)) (float_of_Z 2))
              (if fgt (bb_width bb) (bb_height bb) then bb_height bb else bb_width bb))
        8 col] (Returned tt).
Proof.
  intros Hr Hcol. unfold render_rectangle, color_of. rewrite Hr, Hcol. reflexivity.
Qed.

Lemma render_rectangle_sharp bb config col x y w h :
  fgt (topLeft (rect_cornerRadius config)) fzero = false ->
  CLAY_COLOR_TO_RAYLIB_COLOR (rect_backgroundColor config) = Returned col ->
  to_int (bb_x bb) = Returned x -> to_int (bb_y bb) = Returned y ->
  to_int (bb_width bb) = Returned w -> to_int (bb_height bb) = Returned h ->
  render_rectangle bb config = IO [DrawRectangle x y w h col] (Returned tt).
Proof.
  intros Hr Hcol Hx Hy Hw Hh. unfold render_rectangle, color_of, int_of.
  rewrite Hr, Hcol, Hx, Hy, Hw, Hh. reflexivity.
Qed.

(** C4, as amended. For every Rectangle command whose background color
    converts to the 8-bit color [col]: when cornerRadius.topLeft > 0 the
    interpreter issues one rounded-rectangle draw of the bounding box with
    roundness (topLeft x 2) / (the shorter of width and height), 8 segments
    and [col]; when cornerRadius.topLeft = 0 it issues one sharp-rectangle
    draw whose position and size are the components of the bounding box
    converted to [int] (the fraction is discarded), with [col]. For the box
    (0,0,100,50) the sharp draw has the bounds 0, 0, 100, 50, and with
    topLeft = 10 the roundness is (10 x 2)/50, the float 0.4. *)
Theorem rectangle_rounded_or_sharp cmds fonts cam c col :
  commandType c = CLAY_RENDER_COMMAND_TYPE_RECTANGLE ->
  let bb := boundingBox c in
  let config := rd_rectangle (renderData c) in
  let radius := topLeft (rect_cornerRadius config) in
  CLAY_COLOR_TO_RAYLIB_COLOR (rect_backgroundColor config) = Returned col ->
  (fgt radius fzero = true ->
   render_command cmds fonts cam c =
   IO [DrawRectangleRounded
         {| rec_x := bb_x bb; rec_y := bb_y bb;
            rec_width := bb_width bb; rec_height := bb_height bb |}
         (fdiv (fmul radius (float_of_Z 2))
               (if fgt (bb_width bb) (bb_height bb) then bb_height bb else bb_width bb))
         8 col] (Returned tt)) /\
  (feq radius fzero = true ->
   forall x y w h,
     to_int (bb_x bb) = Returned x -> to_int (bb_y bb) = Returned y ->
     to_int (bb_width bb) = Returned w -> to_int (bb_height bb) = Returned h ->
     render_command cmds fonts cam c = IO [DrawRectangle x y w h col] (Returned tt)) /\
  (bb = box 0 0 100 50 ->
   (radius = fzero ->
    render_command cmds fonts cam c = IO [DrawRectangle 0 0 100 50 col] (Returned tt)) /\
   (radius = float_of_Z 10 ->
    render_command cmds fonts cam c =
    IO [DrawRectangleRounded
          {| rec_x := float_of_Z 0; rec_y := float_of_Z 0;
             rec_width := float_of_Z 100; rec_height := float_of_Z 50 |}
          (float_ratio 4 10) 8 col] (Returned tt))).
Proof.
  intros Htag bb config radius Hcol.
  rewrite (render_command_rectangle _ _ _ _ Htag). fold bb config.
  split; [| split].
  - intros Hr. apply render_rectangle_rounded; assumption.
  - intros Hz x y w h Hx Hy Hw Hh.
    apply render_rectangle_sharp; auto using feq_zero_not_positive.
  - intros Hbb. split; intros Hr.
    + apply render_rectangle_sharp; fold radius; rewrite ?Hr, ?Hbb; auto.
    + rewrite (render_rectangle_rounded bb config col); fold radius;
        rewrite ?Hr, ?Hbb; auto.
Qed.

(** A helper for the border case: the four corner draws, given the color. *)
Lemma render_border_corners_events bb config col :
  CLAY_COLOR_TO_RAYLIB_COLOR (bord_color config) = Returned col ->
  let radius := bord_cornerRadius config in
  let width := bord_width config in
  render_border_corners bb config =
  IO (drawn_if_positive (topLeft radius)
        (DrawRing {| vx := roundf (fadd (bb_x bb) (topLeft radius));
                     vy := roundf (fadd (bb_y bb) (topLeft radius)) |}
           (roundf (fsub (topLeft radius) (float_of_Z (bw_top width))))
           (topLeft radius) (float_of_Z 180) (float_of_Z 270) 10 col)
      ++ drawn_if_positive (topRight radius)
        (DrawRing {| vx := roundf (fsub (fadd (bb_x bb) (bb_width bb)) (topRight radius));
                     vy := roundf (fadd (bb_y bb) (topRight radius)) |}
           (roundf (fsub (topRight radius) (float_of_Z (bw_top width))))
           (topRight radius) (float_of_Z 270) (float_of_Z 360) 10 col)
      ++ drawn_if_positive (bottomLeft radius)
        (DrawRing {| vx := roundf (fadd (bb_x bb) (bottomLeft radius));
                     vy := roundf (fsub (fadd (bb_y bb) (bb_height bb)) (bottomLeft radius)) |}
           (roundf (fsub (bottomLeft radius) (float_of_Z (bw_top width))))
           (bottomLeft radius) (float_of_Z 90) (float_of_Z 180) 10 col)
      ++ drawn_if_positive (bottomRight radius)
        (DrawRing {| vx := roundf (fsub (fadd (bb_x bb) (bb_width bb)) (bottomRight radius));
                     vy := roundf (fsub (fadd (bb_y bb) (bb_height bb)) (bottomRight radius)) |}
           (roundf (fsub (bottomRight radius) (float_of_Z (bw_bottom width))))
           (bottomRight radius) (float_of_double (double_ratio 1 10)) (float_of_Z 90) 10 col))
     (Returned tt).
Proof.
  intros Hcol radius width. unfold render_border_corners.
  rewrite !(render_ring_events _ _ _ _ _ _ col Hcol).
  unfold mbind, io_bind. cbn [result trace]. reflexivity.
Qed.

(** C5, as amended. For every Custom command that carries the 3D model
    payload, the model is drawn, between BeginMode3D and EndMode3D, at the
    payload's scale multiplied by the display scale factor
    min(min(1, 768/referenceHeight) x max(1, referenceWidth/1024), 1.5),
    where referenceWidth and referenceHeight are those of the bounding box
    of the first command of the command array; the factor is at most 1.5. *)
Theorem model_display_scale cmds fonts cam c e first screenWidth screenHeight :
  commandType c = CLAY_RENDER_COMMAND_TYPE_CUSTOM ->
  custom_customData (rd_custom (renderData c)) = Some e ->
  cle_type e = CUSTOM_LAYOUT_ELEMENT_TYPE_3D_MODEL ->
  head cmds = Some first ->
  let rootBox := boundingBox first in
  to_int (roundf (bb_width rootBox)) = Returned screenWidth ->
  to_int (roundf (bb_height rootBox)) = Returned screenHeight ->
  let factor :=
    CLAY__MIN
      (fmul (CLAY__MIN (float_of_Z 1) (fdiv (float_of_Z 768) (bb_height rootBox)))
            (CLAY__MAX (float_of_Z 1) (fdiv (bb_width rootBox) (float_of_Z 1024))))
      (float_ratio 15 10) in
  (exists position,
     render_command cmds fonts cam c =
     IO [BeginMode3D cam;
         DrawModel (m3d_model (cle_model e)) position
           (fmul (m3d_scale (cle_model e)) factor) WHITE;
         EndMode3D] (Returned tt)) /\
  fle factor (float_ratio 15 10) = true.
Proof.
  intros Htag Hpayload Hty Hfirst rootBox Hw Hh factor. split.
  - rewrite (render_command_custom _ _ _ _ Htag). unfold render_custom, int_of.
    rewrite Hpayload, Hty, Hfirst, Z.eqb_refl. cbn [defined].
    rewrite (io_bind_Returned (lift (Returned first)) _ first eq_refl).
    fold rootBox. rewrite Hw, Hh. eexists. reflexivity.
  - apply CLAY__MIN_upper.
Qed.

(** C6, as amended. For every Border command whose color converts to the
    8-bit color [col] and whose edges have been drawn, the interpreter draws
    for each corner with radius > 0 one ring of 10 segments in [col], whose
    outer radius is the corner's radius: top-left over 180 to 270 degrees
    and top-right over 270 to 360 degrees, both with inner radius
    roundf(radius - top width); bottom-left over 90 to 180 degrees;
    bottom-right over 0.1 to 90 degrees with inner radius
    roundf(radius - bottom width). Nothing is said here of the inner radius
    of the bottom-left ring. *)
Theorem border_corner_arcs cmds fonts cam c col :
  commandType c = CLAY_RENDER_COMMAND_TYPE_BORDER ->
  let bb := boundingBox c in
  let config := rd_border (renderData c) in
  let radius := bord_cornerRadius config in
  let width := bord_width config in
  CLAY_COLOR_TO_RAYLIB_COLOR (bord_color config) = Returned col ->
  result (render_border_edges bb config) = Returned tt ->
  exists innerBottomLeft,
  render_command cmds fonts cam c =
  IO (trace (render_border_edges bb config)
      ++ drawn_if_positive (topLeft radius)
        (DrawRing {| vx := roundf (fadd (bb_x bb) (topLeft radius));
                     vy := roundf (fadd (bb_y bb) (topLeft radius)) |}
           (roundf (fsub (topLeft radius) (float_of_Z (bw_top width))))
           (topLeft radius) (float_of_Z 180) (float_of_Z 270) 10 col)
      ++ drawn_if_positive (topRight radius)
        (DrawRing {| vx := roundf (fsub (fadd (bb_x bb) (bb_width bb)) (topRight radius));
                     vy := roundf (fadd (bb_y bb) (topRight radius)) |}
           (roundf (fsub (topRight radius) (float_of_Z (bw_top width))))
           (topRight radius) (float_of_Z 270) (float_of_Z 360) 10 col)
      ++ drawn_if_positive (bottomLeft radius)
        (DrawRing {| vx := roundf (fadd (bb_x bb) (bottomLeft radius));
                     vy := roundf (fsub (fadd (bb_y bb) (bb_height bb)) (bottomLeft radius)) |}
           innerBottomLeft
           (bottomLeft radius) (float_of_Z 90) (float_of_Z 180) 10 col)
      ++ drawn_if_positive (bottomRight radius)
        (DrawRing {| vx := roundf (fsub (fadd (bb_x bb) (bb_width bb)) (bottomRight radius));
                     vy := roundf (fsub (fadd (bb_y bb) (bb_height bb)) (bottomRight radius)) |}
           (roundf (fsub (bottomRight radius) (float_of_Z (bw_bottom width))))
           (bottomRight radius) (float_ratio 1 10) (float_of_Z 90) 10 col))
     (Returned tt).
Proof.
  intros Htag bb config radius width Hcol Hedges.
  rewrite (render_command_border _ _ _ _ Htag). unfold render_border.
  fold bb config. rewrite (io_bind_Returned _ _ tt Hedges).
  rewrite (render_border_corners_events bb config col Hcol). cbn [trace result].
  eexists. reflexivity.
Qed.

End InterpreterDraws.

(** A Rectangle command at x = 0.5 with a zero radius and a red channel of
    0.5: the one sharp draw it produces starts at x = 0 and has a red
    channel of 1, so neither its bounds nor its color are exactly the
    command's. *)
Lemma sharp_rectangle_not_exact :
  let c := @rectangle_command unit_raylib half_pixel_box (filled half_red 0) in
  let drawn := DrawRectangle 0 0 100 50 {| rl_r := 1; rl_g := 0; rl_b := 0; rl_a := 255 |} in
  topLeft (rect_cornerRadius (rd_rectangle (renderData c))) = fzero /\
  @render_command unit_raylib [c] [] example_camera c = IO [drawn] (Returned tt) /\
  ~ exact_sharp_rectangle c drawn /\
  float_of_Z 0 <> bb_x (boundingBox c) /\
  float_of_Z 1 <> color_r (rect_backgroundColor (rd_rectangle (renderData c))).
Proof.
  intros c drawn. split; [reflexivity |]. split; [vm_compute; reflexivity |].
  split; [| split]; try (vm_compute; discriminate).
  intros (Hx & _). vm_compute in Hx. discriminate.
Qed.

(** The amended C4 on the box (0,0,100,50): radius 10 and radius 0. *)
Lemma rectangle_rounded_or_sharp_witness :
  let rounded := @rectangle_command unit_raylib (box 0 0 100 50) (filled RED_500 10) in
  let sharp := @rectangle_command unit_raylib (box 0 0 100 50) (filled RED_500 0) in
  (commandType rounded = CLAY_RENDER_COMMAND_TYPE_RECTANGLE /\
   CLAY_COLOR_TO_RAYLIB_COLOR RED_500 = Returned red /\
   fgt (float_of_Z 10) fzero = true /\
   @render_command unit_raylib [rounded] [] example_camera rounded =
   IO [DrawRectangleRounded
         {| rec_x := float_of_Z 0; rec_y := float_of_Z 0;
            rec_width := float_of_Z 100; rec_height := float_of_Z 50 |}
         (float_ratio 4 10) 8 red] (Returned tt)) /\
  (commandType sharp = CLAY_RENDER_COMMAND_TYPE_RECTANGLE /\
   feq (float_of_Z 0) fzero = true /\
   to_int (float_of_Z 0) = Returned 0 /\
   to_int (float_of_Z 100) = Returned 100 /\
   to_int (float_of_Z 50) = Returned 50 /\
   @render_command unit_raylib [sharp] [] example_camera sharp =
   IO [DrawRectangle 0 0 100 50 red] (Returned tt)).
Proof.
  intros rounded sharp. split.
  - do 3 (split; [reflexivity |]).
    apply (@rectangle_rounded_or_sharp unit_raylib [rounded] [] example_camera
             rounded red eq_refl eq_refl); reflexivity.
  - do 5 (split; [reflexivity |]).
    apply (@rectangle_rounded_or_sharp unit_raylib [sharp] [] example_camera
             sharp red eq_refl eq_refl); reflexivity.
Defined.

(** A 3D model in a reference viewport of 1024 by 384: the model is drawn
    at the payload's scale times 1, where the factor of the specification,
    with referenceHeight/768 = 1/2, would give the payload's scale times
    1/2. *)
Lemma display_scale_not_as_specified :
  let c := @custom_command unit_raylib (box 0 0 1024 384) (Some model_payload) in
  exists position scale,
    @Clay_Raylib_Render unit_raylib [c] [] example_camera =
    IO [BeginMode3D example_camera; DrawModel (m3d_model (cle_model model_payload)) position scale WHITE; EndMode3D]
       (Returned tt) /\
    scale = float_of_Z 2 /\
    fmul (m3d_scale (cle_model model_payload)) (specified_scale (boundingBox c))
      = float_of_Z 1 /\
    scale <> fmul (m3d_scale (cle_model model_payload)) (specified_scale (boundingBox c)).
Proof.
  intros c. eexists _, _. split; [vm_compute; reflexivity |].
  split; [reflexivity |]. split; [reflexivity |]. vm_compute. discriminate.
Qed.

(** The amended C5 on the same command. *)
Lemma model_display_scale_witness :
  let c := @custom_command unit_raylib (box 0 0 1024 384) (Some model_payload) in
  commandType c = CLAY_RENDER_COMMAND_TYPE_CUSTOM /\
  custom_customData (rd_custom (renderData c)) = Some model_payload /\
  cle_type model_payload = CUSTOM_LAYOUT_ELEMENT_TYPE_3D_MODEL /\
  head [c] = Some c /\
  to_int (roundf (float_of_Z 1024)) = Returned 1024 /\
  to_int (roundf (float_of_Z 384)) = Returned 384 /\
  exists position,
    @render_command unit_raylib [c] [] example_camera c =
    IO [BeginMode3D example_camera;
        DrawModel (m3d_model (cle_model model_payload)) position (fmul (float_of_Z 2) (float_of_Z 1)) WHITE;
        EndMode3D] (Returned tt).
Proof.
  intros c. do 6 (split; [reflexivity |]).
  exact (proj1 (@model_display_scale unit_raylib [c] [] example_camera c model_payload
                  c 1024 384 eq_refl eq_refl eq_refl eq_refl eq_refl eq_refl)).
Defined.

(** The border [uneven_border] on the box (0,0,100,50). Every corner has a
    positive radius and the command is drawn to its end, yet for three
    corners no draw of the command is the arc of the specification:
    top-left, where the ring's inner radius is roundf(10.5 - 1) = 10 and not
    9.5 or 7.5; bottom-left, where it is 10 - 1 = 9, from the top edge, and
    not 10 - 3 = 7; bottom-right, where the ring starts at 0.1 degrees and
    not at 0. *)
Lemma corner_arcs_not_as_specified :
  let c := @border_command unit_raylib (box 0 0 100 50) uneven_border in
  CLAY_COLOR_TO_RAYLIB_COLOR (bord_color uneven_border) = Returned red /\
  result (@render_command unit_raylib [c] [] example_camera c) = Returned tt /\
  Forall (fun k =>
            fgt (corner_radius k (bord_cornerRadius uneven_border)) fzero = true /\
            ~ exists e, e ∈ trace (@render_command unit_raylib [c] [] example_camera c) /\
                        @specified_arc unit_raylib uneven_border red k e)
         [TopLeftCorner; BottomLeftCorner; BottomRightCorner].
Proof.
  intros c. do 2 (split; [reflexivity |]).
  repeat constructor;
    intros (e & Hin & center & segments & edge & Hedge & ->);
    cbn in Hedge;
    repeat (apply elem_of_cons in Hedge as [-> | Hedge]);
    try (inversion Hedge; fail);
    vm_compute in Hin;
    repeat (apply elem_of_cons in Hin as [Hin | Hin]; [discriminate Hin |]);
    inversion Hin.
Qed.

(** The amended C6 on the same border. *)
Lemma border_corner_arcs_witness :
  let c := @border_command unit_raylib (box 0 0 100 50) uneven_border in
  commandType c = CLAY_RENDER_COMMAND_TYPE_BORDER /\
  CLAY_COLOR_TO_RAYLIB_COLOR (bord_color uneven_border) = Returned red /\
  result (@render_border_edges unit_raylib (box 0 0 100 50) uneven_border) = Returned tt /\
  exists innerBottomLeft,
    @render_command unit_raylib [c] [] example_camera c =
    IO [DrawRectangle 0 11 3 30 red; DrawRectangle 97 10 3 30 red;
        DrawRectangle 11 0 80 1 red; DrawRectangle 10 47 80 3 red;
        DrawRing {| vx := float_of_Z 11; vy := float_of_Z 11 |}
          (float_of_Z 10) (float_ratio 21 2) (float_of_Z 180) (float_of_Z 270) 10 red;
        DrawRing {| vx := float_of_Z 90; vy := float_of_Z 10 |}
          (float_of_Z 9) (float_of_Z 10) (float_of_Z 270) (float_of_Z 360) 10 red;
        DrawRing {| vx := float_of_Z 10; vy := float_of_Z 40 |}
          innerBottomLeft (float_of_Z 10) (float_of_Z 90) (float_of_Z 180) 10 red;
        DrawRing {| vx := float_of_Z 90; vy := float_of_Z 40 |}
          (float_of_Z 7) (float_of_Z 10) (float_ratio 1 10) (float_of_Z 90) 10 red]
       (Returned tt).
Proof.
  intros c. do 3 (split; [reflexivity |]).
  destruct (@border_corner_arcs unit_raylib [c] [] example_camera c red
              eq_refl eq_refl eq_refl) as (inner & Hdraws).
  exists inner. exact Hdraws.
Defined.

(* --------------------------------------------------------------------- *)
(** ** Arena allocator: alignment, capacity, memory *)

(** The bytes of a block after [data] was written [off] bytes into it. *)
Lemma splice_lookup (bs data : list Z) (off i : nat) :
  (off + length data <= length bs)%nat ->
  (take off bs ++ data ++ drop (off + length data) bs) !! i
  = if decide (off <= i < off + length data)%nat then data !! (i - off)%nat
    else bs !! i.
Proof.
  intros Hfit.
  assert (Hoff : length (take off bs) = off) by (rewrite length_take; lia).
  case_decide as Hi.
  - rewrite lookup_app_r by lia. rewrite Hoff.
    rewrite lookup_app_l by lia. reflexivity.
  - destruct (decide (i < off)%nat) as [Hlt | Hge].
    + rewrite lookup_app_l by lia. apply lookup_take_lt. lia.
    + rewrite lookup_app_r by lia. rewrite Hoff.
      rewrite lookup_app_r by lia. rewrite lookup_drop. f_equal. lia.
Qed.

Lemma memwrite_Returned m ptr data m' :
  memwrite m ptr data = Returned m' ->
  base m <= ptr /\
  ptr + Z.of_nat (length data) <= base m + Z.of_nat (length (bytes m)) /\
  base m' = base m /\ length (bytes m') = length (bytes m) /\
  bytes m' = take (Z.to_nat (ptr - base m)) (bytes m) ++ data
             ++ drop (Z.to_nat (ptr - base m) + length data) (bytes m).
Proof.
  unfold memwrite.
  destruct (Z.leb_spec 0 (ptr - base m)),
    (Z.leb_spec (ptr - base m + Z.of_nat (length data)) (Z.of_nat (length (bytes m))));
    simpl; intros E; try discriminate.
  injection E as <-. simpl.
  replace (Z.to_nat (ptr - base m + Z.of_nat (length data)))
    with (Z.to_nat (ptr - base m) + length data)%nat by lia.
  split_and!; try lia; try reflexivity.
  rewrite !length_app, length_take, length_drop. lia.
Qed.

(** [memset] is the write of [n] copies of the byte. *)
Lemma memset_memwrite m ptr c n m' :
  0 <= n -> memset m ptr c n = Returned m' ->
  memwrite m ptr (replicate (Z.to_nat n) c) = Returned m'.
Proof.
  intros Hn. unfold memset, memwrite. rewrite length_replicate, Z2Nat.id by lia.
  destruct (_ && _); [| discriminate]. auto.
Qed.

(** What was written is read back, and so is every part of it. *)
Lemma memwrite_read_inside m ptr before data after m' :
  memwrite m ptr (before ++ data ++ after) = Returned m' ->
  memread m' (ptr + Z.of_nat (length before)) (Z.of_nat (length data))
  = Returned data.
Proof.
  intros E. apply memwrite_Returned in E as (Hlo & Hhi & Hbase & Hlen & Hbytes).
  rewrite !length_app in Hhi.
  unfold memread. rewrite Hbase, Hlen.
  destruct (Z.leb_spec 0 (ptr + Z.of_nat (length before) - base m)); [| lia].
  destruct (Z.leb_spec 0 (Z.of_nat (length data))); [| lia].
  destruct (Z.leb_spec (ptr + Z.of_nat (length before) - base m + Z.of_nat (length data))
              (Z.of_nat (length (bytes m)))); [| lia].
  simpl. f_equal. rewrite Hbytes. apply list_eq. intros i.
  rewrite lookup_take, lookup_drop.
  rewrite splice_lookup by (rewrite !length_app; lia).
  rewrite !length_app. rewrite Nat2Z.id.
  case_decide as Hi.
  - rewrite decide_True by lia.
    replace (Z.to_nat (ptr + Z.of_nat (length before) - base m) + i
             - Z.to_nat (ptr - base m))%nat
      with (length before + i)%nat by lia.
    rewrite lookup_app_r by lia. rewrite lookup_app_l by lia. f_equal. lia.
  - symmetry. apply lookup_ge_None. lia.
Qed.

Lemma memwrite_read_same m ptr data m' :
  memwrite m ptr data = Returned m' ->
  memread m' ptr (Z.of_nat (length data)) = Returned data.
Proof.
  intros E.
  pose proof (memwrite_read_inside m ptr [] data [] m') as R.
  rewrite app_nil_r in R. simpl in R. rewrite Z.add_0_r in R. auto.
Qed.

(** A write leaves every byte outside its range as it was. *)
Lemma memwrite_read_other m ptr data m' q n :
  memwrite m ptr data = Returned m' ->
  q + n <= ptr \/ ptr + Z.of_nat (length data) <= q ->
  memread m' q n = memread m q n.
Proof.
  intros E Hout. apply memwrite_Returned in E as (Hlo & Hhi & Hbase & Hlen & Hbytes).
  unfold memread. rewrite Hbase, Hlen.
  destruct (_ && _) eqn:Hin; [| reflexivity].
  apply andb_prop in Hin as [Hin Hend]. apply andb_prop in Hin as [Hq Hn].
  apply Z.leb_le in Hq, Hn, Hend.
  f_equal. rewrite Hbytes. apply list_eq. intros i.
  rewrite !lookup_take, !lookup_drop. case_decide as Hi; [| reflexivity].
  rewrite splice_lookup by lia. apply decide_False. lia.
Qed.

(** The allocation that fits returns. *)
Lemma ArenaAlloc_fits a m size :
  arena_ok a m -> 0 <= size ->
  exists offset,
    alignForward (buffer a + currOffset a) = Returned (buffer a + offset) /\
    currOffset a <= offset < currOffset a + DEFAULT_ALIGNMENT /\
    (offset + size <= bufferLength a ->
     exists a' m', ArenaAlloc a m size = Returned (buffer a + offset, a', m')).
Proof.
  intros (Hbuf & (Hlen & Hpos & Hend) & Hcur) Hsize.
  assert (Hmin : INTPTR_MIN < 0) by reflexivity.
  assert (Hmax : INTPTR_MAX < SIZE_MAX) by reflexivity.
  destruct (alignForward_total (buffer a + currOffset a)) as (q & Hq); [lia | lia |].
  exists (q - buffer a). replace (buffer a + (q - buffer a)) with q by lia.
  pose proof (alignForward_Returned _ _ Hq) as [Hrange _].
  split; [exact Hq |]. split; [lia |]. intros Hfit. unfold ArenaAlloc.
  unfold DEFAULT_ALIGNMENT, sizeof_ptr in *.
  rewrite intptr_of_size_small by lia.
  rewrite intptr_in_range by lia. simpl. rewrite Hq. simpl.
  rewrite intptr_in_range by lia. simpl.
  rewrite !size_t_small by lia.
  destruct (Z.leb_spec (q - buffer a + size) (bufferLength a)); [| lia]. simpl.
  unfold memset.
  destruct (Z.leb_spec 0 (buffer a + (q - buffer a) - base m)); [| lia].
  destruct (Z.leb_spec (buffer a + (q - buffer a) - base m + size)
              (Z.of_nat (length (bytes m)))); [| lia].
  simpl. replace (buffer a + (q - buffer a)) with q by lia. eauto.
Qed.

(** X1. [alignForward] on an address at least one alignment below the top
    of [intptr_t] returns the least multiple of the alignment (16) that is
    not below the address: an aligned address comes back unchanged, any
    other is moved up by less than 16. *)
Theorem alignForward_least_multiple (p : Z) :
  INTPTR_MIN <= p -> p + DEFAULT_ALIGNMENT <= INTPTR_MAX ->
  exists q,
    alignForward p = Returned q /\
    p <= q < p + DEFAULT_ALIGNMENT /\
    q mod DEFAULT_ALIGNMENT = 0 /\
    forall q', p <= q' -> q' mod DEFAULT_ALIGNMENT = 0 -> q <= q'.
Proof.
  intros Hlo Hhi. destruct (alignForward_total p Hlo Hhi) as (q & Hq).
  exists q. pose proof (alignForward_Returned _ _ Hq) as [Hrange Hal].
  split_and!; [exact Hq | lia | lia | exact Hal |].
  intros q' Hq' Hal'. unfold DEFAULT_ALIGNMENT, sizeof_ptr in *.
  pose proof (Z.div_mod q 16 ltac:(discriminate)).
  pose proof (Z.div_mod q' 16 ltac:(discriminate)).
  change (2 * 8) with 16 in *. lia.
Qed.

Lemma alignForward_least_multiple_witness :
  exists q, alignForward 4097 = Returned q /\
    4097 <= q < 4097 + DEFAULT_ALIGNMENT /\
    q mod DEFAULT_ALIGNMENT = 0 /\
    forall q', 4097 <= q' -> q' mod DEFAULT_ALIGNMENT = 0 -> q <= q'.
Proof. apply (alignForward_least_multiple 4097); vm_compute; discriminate. Defined.

(** The memory after an allocation that returns: the block with [size]
    zero bytes written at the address returned. *)
Lemma ArenaAlloc_memory a m size ptr a' m' :
  arena_ok a m -> 0 <= size ->
  ArenaAlloc a m size = Returned (ptr, a', m') ->
  memwrite m ptr (replicate (Z.to_nat size) 0) = Returned m'.
Proof.
  intros Hok Hsize E. unfold ArenaAlloc in E.
  apply bind_Returned in E as (currPtr & E1 & E).
  apply bind_Returned in E as (q & E2 & E).
  apply bind_Returned in E as (offset & E3 & E).
  apply bind_Returned in E as ([] & E4 & E).
  apply bind_Returned in E as (m1 & E5 & E).
  injection E as Hptr _ <-.
  rewrite Hptr in E5. apply memset_memwrite in E5; assumption.
Qed.

(** X2. An allocation that returns hands out zeroed memory and touches
    nothing else: the region starts on a multiple of 16 less than 16 bytes
    after the bump offset, lies inside the buffer, reads back as [size]
    zero bytes, and every range of bytes outside the region reads as it did
    before the call. *)
Theorem ArenaAlloc_zeroes_only_its_region a m size ptr a' m' :
  arena_ok a m -> 0 <= size ->
  ArenaAlloc a m size = Returned (ptr, a', m') ->
  buffer a + currOffset a <= ptr < buffer a + currOffset a + DEFAULT_ALIGNMENT /\
  ptr mod DEFAULT_ALIGNMENT = 0 /\
  ptr + size <= buffer a + bufferLength a /\
  currOffset a' = ptr - buffer a + size /\
  memread m' ptr size = Returned (replicate (Z.to_nat size) 0) /\
  forall q n, q + n <= ptr \/ ptr + size <= q -> memread m' q n = memread m q n.
Proof.
  intros Hok Hsize E.
  pose proof (ArenaAlloc_Returned _ _ _ _ _ _ Hok Hsize E)
    as (Hstart & Hal & Hend & _ & _ & _ & Hcur & _).
  pose proof (ArenaAlloc_memory _ _ _ _ _ _ Hok Hsize E) as W.
  destruct (ArenaAlloc_fits a m size Hok Hsize) as (offset & Hq & Hoff & _).
  assert (ptr = buffer a + offset) as Hptr.
  { unfold ArenaAlloc in E. destruct Hok as (Hbuf & (Hlen & Hpos & Hmax) & Hcuro).
    assert (HM : INTPTR_MAX <= SIZE_MAX) by (vm_compute; discriminate).
    unfold DEFAULT_ALIGNMENT, sizeof_ptr in Hmax.
    rewrite intptr_of_size_small in E by lia.
    rewrite intptr_in_range in E by (unfold INTPTR_MIN, sizeof_ptr; lia).
    simpl in E. rewrite Hq in E. simpl in E.
    apply bind_Returned in E as (o & E3 & E).
    apply bind_Returned in E as ([] & E4 & E).
    apply bind_Returned in E as (m1 & E5 & E).
    injection E as <- _ _. apply intptr_Returned in E3 as [-> _]. lia. }
  split_and!; try assumption; try lia.
  - pose proof (memwrite_read_same _ _ _ _ W) as R.
    rewrite length_replicate, Z2Nat.id in R by lia. exact R.
  - intros p n Hout. eapply memwrite_read_other; [exact W |].
    rewrite length_replicate, Z2Nat.id by lia. exact Hout.
Qed.

Lemma ArenaAlloc_zeroes_only_its_region_witness :
  arena_ok small_arena small_block /\
  exists a' m',
    ArenaAlloc small_arena small_block 3 = Returned (4096, a', m') /\
    memread m' 4096 3 = Returned (replicate (Z.to_nat 3) 0) /\
    memread m' 4099 61 = memread small_block 4099 61.
Proof.
  assert (Hok : arena_ok small_arena small_block)
    by (unfold arena_ok, malloced; vm_compute; intuition discriminate).
  split; [exact Hok |].
  eexists _, _. split; [vm_compute; reflexivity |].
  edestruct (ArenaAlloc_zeroes_only_its_region small_arena small_block 3 4096)
    as (_ & _ & _ & _ & Hzero & Hrest);
    [exact Hok | lia | vm_compute; reflexivity |].
  split; [exact Hzero | apply Hrest; lia].
Defined.

(** X3. Whether an allocation succeeds is decided by the capacity alone, as
    long as the sum does not wrap around [size_t]: with [offset] the bump
    offset rounded up to a multiple of 16, a request with
    [offset + size <= bufferLength] returns the address [buffer + offset],
    and a request with [offset + size] above the capacity fails the
    assertion. *)
Theorem ArenaAlloc_returns_iff_it_fits a m size :
  arena_ok a m -> 0 <= size ->
  exists offset,
    alignForward (buffer a + currOffset a) = Returned (buffer a + offset) /\
    (offset + size <= bufferLength a ->
     exists a' m', ArenaAlloc a m size = Returned (buffer a + offset, a', m')) /\
    (bufferLength a < offset + size -> offset + size <= SIZE_MAX ->
     ArenaAlloc a m size = AssertFailed "Arena ran out of space left").
Proof.
  intros Hok Hsize.
  destruct (ArenaAlloc_fits a m size Hok Hsize) as (offset & Hq & _ & Hfit).
  destruct (ArenaAlloc_out_of_space a m size Hok Hsize) as (offset' & Hq' & Hfull).
  assert (offset' = offset) as -> by (rewrite Hq in Hq'; injection Hq'; lia).
  exists offset. auto.
Qed.

Lemma ArenaAlloc_returns_iff_it_fits_witness :
  arena_ok small_arena small_block /\
  exists offset,
    alignForward (buffer small_arena + currOffset small_arena)
      = Returned (buffer small_arena + offset) /\
    (offset + 65 <= bufferLength small_arena ->
     exists a' m',
       ArenaAlloc small_arena small_block 65
         = Returned (buffer small_arena + offset, a', m')) /\
    (bufferLength small_arena < offset + 65 -> offset + 65 <= SIZE_MAX ->
     ArenaAlloc small_arena small_block 65
       = AssertFailed "Arena ran out of space left").
Proof.
  assert (Hok : arena_ok small_arena small_block)
    by (unfold arena_ok, malloced; vm_compute; intuition discriminate).
  split; [exact Hok |].
  apply (ArenaAlloc_returns_iff_it_fits small_arena small_block 65 Hok). lia.
Defined.

(** The sizes and the alignment of the regions of a run. *)
Lemma ArenaAllocs_sizes sizes : forall a m regions a' m',
  arena_ok a m -> Forall (fun size => 0 <= size) sizes ->
  ArenaAllocs a m sizes = Returned (regions, a', m') ->
  regions.*2 = sizes /\
  Forall (fun r => r.1 mod DEFAULT_ALIGNMENT = 0) regions.
Proof.
  induction sizes as [|size sizes IH]; intros a m regions a' m' Hok Hsizes E.
  - injection E as <- <- <-. split; constructor.
  - apply Forall_cons in Hsizes as [Hsize Hsizes]. cbn [ArenaAllocs] in E.
    apply bind_Returned in E as ([[ptr a1] m1] & E1 & E).
    apply bind_Returned in E as ([[rest a2] m2] & E2 & E).
    injection E as <- <- <-.
    apply ArenaAlloc_Returned in E1
      as (_ & Hal & _ & _ & _ & _ & _ & Hok1); [| assumption ..].
    apply IH in E2 as (Hs & Hals); [| assumption ..].
    split; [rewrite fmap_cons, Hs; reflexivity | constructor; assumption].
Qed.

(** X4. The regions of a run of allocations that returns, with no reset in
    between: they have the sizes asked for, start on multiples of 16, lie
    inside the buffer, and no two of them share a byte. *)
Theorem ArenaAllocs_regions_disjoint sizes a m regions a' m' :
  arena_ok a m -> Forall (fun size => 0 <= size) sizes ->
  ArenaAllocs a m sizes = Returned (regions, a', m') ->
  regions.*2 = sizes /\
  Forall (fun r => r.1 mod DEFAULT_ALIGNMENT = 0) regions /\
  Forall (within_buffer a) regions /\
  (forall i j r1 r2, i <> j -> regions !! i = Some r1 -> regions !! j = Some r2 ->
     disjoint_regions r1 r2) /\
  arena_ok a' m'.
Proof.
  intros Hok Hsizes E.
  destruct (ArenaAllocs_sizes _ _ _ _ _ _ Hok Hsizes E) as (Hs & Hal).
  destruct (ArenaAllocs_Returned _ _ _ _ _ _ Hok Hsizes E)
    as (Hin & _ & Hsorted & _ & _ & _ & Hok').
  split_and!; try assumption.
  intros i j r1 r2 Hij Hi Hj.
  apply (sorted_regions_disjoint regions i j); try assumption.
  rewrite Forall_forall. intros r Hr.
  rewrite Forall_forall in Hsizes. apply Hsizes. rewrite <- Hs.
  apply list_elem_of_fmap. exists r. auto.
Qed.

Lemma ArenaAllocs_regions_disjoint_witness :
  arena_ok small_arena small_block /\
  Forall (fun size => 0 <= size) [1; 3; 20] /\
  exists a' m',
    ArenaAllocs small_arena small_block [1; 3; 20]
      = Returned ([(4096, 1); (4112, 3); (4128, 20)], a', m') /\
    disjoint_regions (4096, 1) (4128, 20) /\
    arena_ok a' m'.
Proof.
  assert (Hok : arena_ok small_arena small_block)
    by (unfold arena_ok, malloced; vm_compute; intuition discriminate).
  assert (Hsizes : Forall (fun size => 0 <= size) [1; 3; 20])
    by (repeat constructor; lia).
  split; [exact Hok |]. split; [exact Hsizes |].
  eexists _, _. split; [vm_compute; reflexivity |].
  edestruct (ArenaAllocs_regions_disjoint [1; 3; 20] small_arena small_block)
    as (_ & _ & _ & Hdis & Hok'); [exact Hok | exact Hsizes | vm_compute; reflexivity |].
  split; [apply (Hdis 0%nat 2%nat); [discriminate | reflexivity | reflexivity] | exact Hok'].
Defined.

(** X5. [ArenaReset] gives the whole capacity back, whatever was allocated
    before: on the reset arena a request of up to the capacity less 15
    bytes returns, at the first multiple of 16 in the buffer, and leaves
    the arena in use. *)
Theorem ArenaReset_gives_capacity_back a m size :
  arena_ok a m -> 0 <= size ->
  size + (DEFAULT_ALIGNMENT - 1) <= bufferLength a ->
  exists ptr a' m',
    ArenaAlloc (ArenaReset a) m size = Returned (ptr, a', m') /\
    buffer a <= ptr < buffer a + DEFAULT_ALIGNMENT /\
    ptr mod DEFAULT_ALIGNMENT = 0 /\
    currOffset a' = ptr - buffer a + size /\
    arena_ok a' m'.
Proof.
  intros Hok Hsize Hroom.
  assert (Hok0 : arena_ok (ArenaReset a) m).
  { destruct Hok as (Hbuf & Hm & Hcur). split_and!; simpl; try assumption; lia. }
  destruct (ArenaAlloc_fits (ArenaReset a) m size Hok0 Hsize)
    as (offset & _ & Hoff & Hfit).
  simpl in Hoff, Hfit. destruct Hfit as (a' & m' & E); [lia |].
  exists (buffer a + offset), a', m'. split; [exact E |].
  apply ArenaAlloc_Returned in E
    as (_ & Hal & _ & _ & _ & _ & Hcur' & Hok'); [| assumption ..].
  simpl in Hcur'. split_and!; try assumption; lia.
Qed.

Lemma ArenaReset_gives_capacity_back_witness :
  exists a m,
    ArenaAllocs small_arena small_block [1; 3; 20]
      = Returned ([(4096, 1); (4112, 3); (4128, 20)], a, m) /\
    ArenaAlloc a m 49 = AssertFailed "Arena ran out of space left" /\
    exists ptr a' m',
      ArenaAlloc (ArenaReset a) m 49 = Returned (ptr, a', m') /\
      buffer a <= ptr < buffer a + DEFAULT_ALIGNMENT.
Proof.
  eexists _, _. split; [vm_compute; reflexivity |].
  split; [vm_compute; reflexivity |].
  edestruct (ArenaReset_gives_capacity_back) as (ptr & a' & m' & E & Hptr & _);
    [| | | exists ptr, a', m'; split; [exact E | exact Hptr]].
  - unfold arena_ok, malloced; vm_compute; intuition discriminate.
  - lia.
  - vm_compute. discriminate.
Defined.

(** X6. [ArenaInit] does not look at what [malloc] returned. When [malloc]
    fails (the null block), the arena still reports the capacity asked for,
    so an allocation of at least one byte within that capacity passes the
    assertion and writes through the null pointer. *)
Theorem ArenaInit_ignores_malloc_failure (size n : Z) :
  0 < n <= size -> size <= SIZE_MAX ->
  bufferLength (ArenaInit size null_block) = size /\
  ArenaAlloc (ArenaInit size null_block) null_block n
    = Undefined "memset outside the arena's buffer".
Proof.
  intros Hn Hsize. split; [reflexivity |].
  unfold ArenaAlloc, ArenaInit, null_block. cbn [buffer currOffset bufferLength base].
  change (intptr (0 + intptr_of_size 0)) with (Returned (A := Z) 0).
  change (alignForward 0) with (Returned (A := Z) 0). simpl.
  replace (0 - 0 + n) with n by lia. rewrite !size_t_small by lia.
  destruct (Z.leb_spec n size); [| lia]. unfold memset. simpl.
  destruct (Z.leb_spec (0 + (0 - 0) - 0 + n) (Z.of_nat 0)); [lia | reflexivity].
Qed.

Lemma ArenaInit_ignores_malloc_failure_witness :
  bufferLength (ArenaInit 64 null_block) = 64 /\
  ArenaAlloc (ArenaInit 64 null_block) null_block 8
    = Undefined "memset outside the arena's buffer".
Proof. apply (ArenaInit_ignores_malloc_failure 64 8); vm_compute; intuition discriminate. Defined.

(* --------------------------------------------------------------------- *)
(** ** Formatted strings in an arena *)

Lemma c_int_Returned (n q : Z) :
  c_int n = Returned q -> q = n /\ INT_MIN <= n <= INT_MAX.
Proof.
  unfold c_int. destruct (Z.leb_spec INT_MIN n), (Z.leb_spec n INT_MAX);
    simpl; intros E; try discriminate. injection E as <-. lia.
Qed.

Lemma array_prefix_all (s : string) : array_prefix (String.length s) s = s.
Proof. induction s as [|c s IH]; simpl; [reflexivity | rewrite IH; reflexivity]. Qed.

Lemma length_bytes_of (s : string) : length (bytes_of s) = String.length s.
Proof.
  unfold bytes_of. rewrite length_map.
  induction s as [|c s IH]; simpl; [reflexivity | rewrite IH; reflexivity].
Qed.

(** The address an allocation returns is less than one alignment after the
    bump offset. *)
Lemma ArenaAlloc_waste a m size ptr a' m' :
  arena_ok a m -> 0 <= size ->
  ArenaAlloc a m size = Returned (ptr, a', m') ->
  ptr < buffer a + currOffset a + DEFAULT_ALIGNMENT.
Proof.
  intros Hok Hsize E.
  destruct (ArenaAlloc_fits a m size Hok Hsize) as (offset & Hq & Hoff & _).
  unfold ArenaAlloc in E. destruct Hok as (Hbuf & (Hlen & Hpos & Hcap) & Hcur).
  assert (HM : INTPTR_MAX <= SIZE_MAX) by (vm_compute; discriminate).
  unfold DEFAULT_ALIGNMENT, sizeof_ptr in Hcap.
  rewrite intptr_of_size_small in E by lia.
  rewrite intptr_in_range in E by (unfold INTPTR_MIN, sizeof_ptr; lia).
  simpl in E. rewrite Hq in E. simpl in E.
  apply bind_Returned in E as (o & E3 & E).
  apply bind_Returned in E as ([] & E4 & E).
  apply bind_Returned in E as (m0 & E5 & E).
  injection E as <- _ _. apply intptr_Returned in E3 as [-> _]. lia.
Qed.

Section FormatProperties.
Context `{Stdio}.

(** A call of [F] that returns, when [vsnprintf] succeeds with output
    [text]: the allocation of one byte more than the text, zeroed, and the
    text and its terminator written over it. *)
Lemma F_Returned a m format args text s a' m' :
  arena_ok a m -> formats format args text ->
  F a m format args = Returned (s, a', m') ->
  let n := Z.of_nat (String.length text) in
  str_length s = n /\
  arena_ok a' m' /\
  exists m1,
    ArenaAlloc a m (n + 1) = Returned (str_chars s, a', m1) /\
    memwrite m1 (str_chars s) (bytes_of text ++ [0]) = Returned m'.
Proof.
  intros Hok (Hout & Hret & Hmax) E n. unfold F in E.
  apply bind_Returned in E as (sum & E1 & E).
  apply bind_Returned in E as ([[ptr a1] m1] & E2 & E).
  apply bind_Returned in E as (m2 & E3 & E).
  injection E as <- <- <-. cbn [str_length str_chars].
  apply c_int_Returned in E1 as [-> _]. rewrite Hret in *. fold n in Hmax, E2, E3 |- *.
  assert (Hn : 0 <= n) by (unfold n; lia).
  assert (Hn1 : 0 <= n + 1) by lia.
  assert (Hs : size_t (n + 1) = n + 1).
  { apply size_t_small. unfold SIZE_MAX, sizeof_ptr, INT_MAX in *. lia. }
  rewrite Hs in *.
  unfold vsnprintf_into in E3.
  destruct (Z.eqb_spec (n + 1) 0) as [|_]; [lia |].
  replace (n + 1 - 1) with n in * by lia.
  rewrite Hout in E3. unfold n in E3 at 1. rewrite Nat2Z.id, array_prefix_all in E3.
  split_and!.
  - rewrite size_t_small by (unfold SIZE_MAX, sizeof_ptr, INT_MAX in *; lia).
    unfold int32_t. rewrite Z.mod_small; unfold INT_MAX in *; lia.
  - pose proof (ArenaAlloc_Returned _ _ _ _ _ _ Hok Hn1 E2)
      as (_ & _ & _ & _ & _ & _ & _ & (Hb1 & (Hlen1 & Hpos1 & Hcap1) & Hcur1)).
    apply memwrite_Returned in E3 as (_ & _ & E3base & E3len & _).
    unfold arena_ok, malloced. rewrite E3base, E3len. split_and!; try lia; try congruence.
  - exists m1. auto.
Qed.

(** X7. A string built by [F] reads back: when [vsnprintf] succeeds with
    output [text] and [F] returns, the string's length is the length of
    [text], its address is a multiple of 16 inside the arena, the bytes at
    that address are the characters of [text] followed by a zero byte, the
    bump offset has moved past that zero, and every range of bytes outside
    the string reads as before the call. *)
Theorem F_reads_back a m format args text s a' m' :
  arena_ok a m -> formats format args text ->
  F a m format args = Returned (s, a', m') ->
  str_length s = Z.of_nat (String.length text) /\
  buffer a + currOffset a <= str_chars s /\
  str_chars s mod DEFAULT_ALIGNMENT = 0 /\
  str_chars s + str_length s + 1 <= buffer a + bufferLength a /\
  currOffset a' = str_chars s - buffer a + str_length s + 1 /\
  memread m' (str_chars s) (str_length s) = Returned (bytes_of text) /\
  memread m' (str_chars s + str_length s) 1 = Returned [0] /\
  (forall q k, q + k <= str_chars s \/ str_chars s + str_length s + 1 <= q ->
     memread m' q k = memread m q k) /\
  arena_ok a' m'.
Proof.
  intros Hok Hf E.
  destruct (F_Returned _ _ _ _ _ _ _ _ Hok Hf E) as (Hlen & Hok' & m1 & EA & EW).
  rewrite Hlen. set (n := Z.of_nat (String.length text)) in *.
  assert (Hn1 : 0 <= n + 1) by (unfold n; lia).
  pose proof (ArenaAlloc_Returned _ _ _ _ _ _ Hok Hn1 EA)
    as (Hstart & Hal & Hend & _ & _ & _ & Hcur & _).
  pose proof (ArenaAlloc_memory _ _ _ _ _ _ Hok Hn1 EA) as W.
  split_and!; try assumption; try lia.
  - pose proof (memwrite_read_inside m1 (str_chars s) [] (bytes_of text) [0] m' EW) as R.
    simpl in R. rewrite Z.add_0_r, length_bytes_of in R. exact R.
  - pose proof (memwrite_read_inside m1 (str_chars s) (bytes_of text) [0] [] m' EW) as R.
    rewrite length_bytes_of in R. exact R.
  - intros q k Hout.
    rewrite (memwrite_read_other _ _ _ _ q k EW)
      by (rewrite length_app, length_bytes_of; cbn [length]; fold n; lia).
    apply (memwrite_read_other _ _ _ _ q k W).
    rewrite length_replicate. lia.
Qed.

(** X8. Strings built one after the other in an arena do not disturb each
    other: the second starts after the terminator of the first, and after
    the second call the first still reads back as its text and its
    terminator. *)
Theorem F_keeps_earlier_strings a m format1 args1 text1 s1 a1 m1
  format2 args2 text2 s2 a2 m2 :
  arena_ok a m ->
  formats format1 args1 text1 -> formats format2 args2 text2 ->
  F a m format1 args1 = Returned (s1, a1, m1) ->
  F a1 m1 format2 args2 = Returned (s2, a2, m2) ->
  str_chars s1 + str_length s1 + 1 <= str_chars s2 /\
  memread m2 (str_chars s1) (str_length s1) = Returned (bytes_of text1) /\
  memread m2 (str_chars s1 + str_length s1) 1 = Returned [0] /\
  memread m2 (str_chars s2) (str_length s2) = Returned (bytes_of text2).
Proof.
  intros Hok Hf1 Hf2 E1 E2.
  destruct (F_Returned _ _ _ _ _ _ _ _ Hok Hf1 E1) as (Hlen1 & Hok1 & m1' & EA1 & EW1).
  destruct (F_Returned _ _ _ _ _ _ _ _ Hok1 Hf2 E2) as (Hlen2 & Hok2 & m2' & EA2 & EW2).
  rewrite Hlen1, Hlen2.
  set (n1 := Z.of_nat (String.length text1)) in *.
  set (n2 := Z.of_nat (String.length text2)) in *.
  assert (Hn1 : 0 <= n1 + 1) by (unfold n1; lia).
  assert (Hn2 : 0 <= n2 + 1) by (unfold n2; lia).
  pose proof (ArenaAlloc_Returned _ _ _ _ _ _ Hok Hn1 EA1)
    as (_ & _ & _ & Hb1 & _ & _ & Hcur1 & _).
  pose proof (ArenaAlloc_Returned _ _ _ _ _ _ Hok1 Hn2 EA2)
    as (Hstart2 & _ & _ & _ & _ & _ & _ & _).
  pose proof (ArenaAlloc_memory _ _ _ _ _ _ Hok1 Hn2 EA2) as W2.
  assert (Hafter : str_chars s1 + n1 + 1 <= str_chars s2) by lia.
  assert (Hkeep : forall q k, q + k <= str_chars s2 -> memread m2 q k = memread m1 q k).
  { intros q k Hq.
    rewrite (memwrite_read_other _ _ _ _ q k EW2) by auto.
    apply (memwrite_read_other _ _ _ _ q k W2). auto. }
  split_and!; [exact Hafter | | |].
  - rewrite Hkeep by lia.
    pose proof (memwrite_read_inside m1' (str_chars s1) [] (bytes_of text1) [0] m1 EW1) as R.
    simpl in R. rewrite Z.add_0_r, length_bytes_of in R. exact R.
  - rewrite Hkeep by lia.
    pose proof (memwrite_read_inside m1' (str_chars s1) (bytes_of text1) [0] [] m1 EW1) as R.
    rewrite length_bytes_of in R. exact R.
  - pose proof (memwrite_read_inside m2' (str_chars s2) [] (bytes_of text2) [0] m2 EW2) as R.
    simpl in R. rewrite Z.add_0_r, length_bytes_of in R. exact R.
Qed.

(** X9. A string built by [F] is a view into the arena that lasts until the
    arena is reset: on an arena whose bump offset was 0, the first string
    built after [ArenaReset] has the address of the first string built
    before it, and the bytes at that address now read as the new text. *)
Theorem F_after_reset_overwrites a m format1 args1 s1 a1 m1
  format2 args2 text2 s2 a2 m2 :
  arena_ok a m -> currOffset a = 0 ->
  formats format2 args2 text2 ->
  F a m format1 args1 = Returned (s1, a1, m1) ->
  F (ArenaReset a1) m1 format2 args2 = Returned (s2, a2, m2) ->
  str_chars s2 = str_chars s1 /\
  memread m2 (str_chars s1) (Z.of_nat (String.length text2))
    = Returned (bytes_of text2).
Proof.
  intros Hok Hzero Hf2 E1 E2.
  assert (Hptr : str_chars s2 = str_chars s1).
  { unfold F in E1, E2.
    apply bind_Returned in E1 as (sum1 & _ & E1).
    apply bind_Returned in E1 as ([[p1 b1] c1] & EA1 & E1).
    apply bind_Returned in E1 as (d1 & _ & E1).
    injection E1 as <- <- <-.
    apply bind_Returned in E2 as (sum2 & _ & E2).
    apply bind_Returned in E2 as ([[p2 b2] c2] & EA2 & E2).
    apply bind_Returned in E2 as (d2 & _ & E2).
    injection E2 as <- <- <-. cbn [str_chars].
    eapply (ArenaReset_reuses_address a m); [exact Hzero | exact EA1 | | exact EA2].
    unfold ArenaAlloc in EA1.
    apply bind_Returned in EA1 as (? & _ & EA1).
    apply bind_Returned in EA1 as (? & _ & EA1).
    apply bind_Returned in EA1 as (? & _ & EA1).
    apply bind_Returned in EA1 as (? & _ & EA1).
    apply bind_Returned in EA1 as (? & _ & EA1).
    injection EA1 as _ <- _. reflexivity. }
  split; [exact Hptr |]. rewrite <- Hptr.
  unfold F in E2. destruct Hf2 as (Hout & Hret & Hmax).
  apply bind_Returned in E2 as (sum & E21 & E2).
  apply bind_Returned in E2 as ([[ptr a1'] m1'] & E22 & E2).
  apply bind_Returned in E2 as (m2' & E23 & E2).
  injection E2 as <- <- <-. cbn [str_chars].
  apply c_int_Returned in E21 as [-> _]. rewrite Hret in *.
  set (n := Z.of_nat (String.length text2)) in *.
  assert (Hs : size_t (n + 1) = n + 1).
  { apply size_t_small. unfold SIZE_MAX, sizeof_ptr, INT_MAX, n in *. lia. }
  rewrite Hs in *. unfold vsnprintf_into in E23.
  destruct (Z.eqb_spec (n + 1) 0) as [|_]; [unfold n in *; lia |].
  replace (n + 1 - 1) with n in * by lia.
  rewrite Hout in E23. unfold n in E23 at 1. rewrite Nat2Z.id, array_prefix_all in E23.
  pose proof (memwrite_read_inside m1' ptr [] (bytes_of text2) [0] m2' E23) as R.
  simpl in R. rewrite Z.add_0_r, length_bytes_of in R. exact R.
Qed.

End FormatProperties.

(* --------------------------------------------------------------------- *)
(** ** Text measurement *)

Lemma append_empty (s : string) : s +:+ "" = s.
Proof.
  induction s as [|c s IH]; [reflexivity |].
  change (String c s +:+ "") with (String c (s +:+ "")). rewrite IH. reflexivity.
Qed.

Lemma mapM_snoc {A B : Type} (f : A -> outcome B) (front : list A) (last : A) :
  mapM f (front ++ [last]) = (ws ← mapM f front; w ← f last; mret (ws ++ [w])).
Proof.
  induction front as [|l front IH]; simpl.
  - destruct (f last); reflexivity.
  - destruct (f l); simpl; auto. rewrite IH.
    destruct (mapM f front); simpl; auto. destruct (f last); reflexivity.
Qed.

Section MeasureProperties.
Context `{FontTable}.

(** The loop over a line without a line feed is the sum of its advances. *)
Lemma measure_loop_line fontToUse line rest maxTextWidth lineTextWidth :
  has_char (ch LF) line = false ->
  measure_loop fontToUse (line +:+ rest) maxTextWidth lineTextWidth
  = (width ← line_width fontToUse line lineTextWidth;
     measure_loop fontToUse rest maxTextWidth width).
Proof.
  revert lineTextWidth. induction line as [|c line IH]; intros w Hfree.
  - reflexivity.
  - cbn [has_char] in Hfree. apply orb_false_elim in Hfree as [Hc Hfree].
    change (String c line +:+ rest) with (String c (line +:+ rest)).
    cbn [measure_loop line_width]. rewrite Hc.
    destruct (advance fontToUse w c) as [w'| | |]; simpl; auto.
Qed.

(** The loop over lines joined by line feeds: the running [fmax] of the
    widths of the lines before the last, and the width of the last. *)
Lemma measure_loop_lines fontToUse lines : forall last maxTextWidth,
  Forall (fun line => has_char (ch LF) line = false) (lines ++ [last]) ->
  measure_loop fontToUse (String.concat LF (lines ++ [last])) maxTextWidth fzero
  = (widths ← mapM (fun line => line_width fontToUse line fzero) lines;
     width ← line_width fontToUse last fzero;
     mret (foldl fmax_float maxTextWidth widths, width)).
Proof.
  induction lines as [|line lines IH]; intros last mx Hfree.
  - simpl. apply Forall_cons in Hfree as [Hlast _].
    pose proof (measure_loop_line fontToUse last "" mx fzero Hlast) as E.
    rewrite append_empty in E.
    rewrite E. destruct (line_width _ _ _); reflexivity.
  - rewrite <- app_comm_cons in Hfree |- *.
    apply Forall_cons in Hfree as [Hline Hfree].
    assert (Hcat : String.concat LF (line :: lines ++ [last])
                   = line +:+ LF +:+ String.concat LF (lines ++ [last])).
    { simpl. destruct (lines ++ [last]) eqn:Hl; [| reflexivity].
      destruct lines; discriminate. }
    rewrite Hcat, measure_loop_line by assumption.
    cbn [mapM]. destruct (line_width fontToUse line fzero) as [w| | |]; simpl; auto.
    change (LF +:+ String.concat LF (lines ++ [last]))
      with (String (ch LF) (String.concat LF (lines ++ [last]))).
    cbn [measure_loop].
    change ("" +:+ String.concat LF (lines ++ [last]))
      with (String.concat LF (lines ++ [last])).
    rewrite IH by assumption.
    destruct (mapM _ lines) as [ws| | |]; simpl; auto.
Qed.

(** X10. The measured width is that of the widest line and the height does
    not count the lines: for a text of lines joined by line feeds, measured
    in a font of the table, the width is the scale factor (font size over
    base size) times the running [fmax], from 0, of the sums of the
    advances of each line's characters, and the height is the font size,
    however many lines there are. A font whose glyph table is null is
    replaced by the built-in font. *)
Theorem measure_text_widest_line lines config fonts font :
  Forall (fun line => has_char (ch LF) line = false) lines ->
  fonts !! Z.to_nat (tec_fontId config) = Some font ->
  let fontToUse := if font_glyphs font is None then GetFontDefault else font in
  Raylib_MeasureText (String.concat LF lines) config fonts
  = (widths ← mapM (fun line => line_width fontToUse line fzero) lines;
     mret {| dim_width :=
               fmul (foldl fmax_float fzero widths)
                    (fdiv (float_of_Z (tec_fontSize config))
                          (float_of_Z (font_baseSize fontToUse)));
             dim_height := float_of_Z (tec_fontSize config) |}).
Proof.
  intros Hfree Hfont fontToUse. unfold Raylib_MeasureText. rewrite Hfont.
  cbn [defined mbind outcome_bind]. fold fontToUse.
  destruct (decide (lines = [])) as [-> | Hne]; [reflexivity |].
  destruct (exists_last Hne) as (front & last & ->).
  rewrite measure_loop_lines by assumption.
  rewrite mapM_snoc.
  destruct (mapM _ front) as [ws| | |]; simpl; auto.
  destruct (line_width fontToUse last fzero) as [w| | |]; simpl; auto.
  rewrite foldl_app. reflexivity.
Qed.

(** The loop does not return on a text with a character below 32 other
    than the line feed. *)
Lemma measure_loop_control_character fontToUse c text :
  has_char c text = true -> c <> ch LF -> char_value c < 32 ->
  forall maxTextWidth lineTextWidth r,
    measure_loop fontToUse text maxTextWidth lineTextWidth <> Returned r.
Proof.
  intros Hin Hlf Hlow. induction text as [|d text IH]; intros mx w r; [discriminate |].
  cbn [has_char] in Hin. cbn [measure_loop].
  destruct (Ascii.eqb_spec d c) as [-> | Hd].
  - destruct (Ascii.eqb_spec c (ch LF)) as [|_]; [contradiction |].
    unfold advance. destruct (font_glyphs fontToUse) as [glyphs|]; [| discriminate].
    cbn [defined mbind outcome_bind]. unfold at_index.
    destruct (Z.ltb_spec (char_value c - 32) 0); [discriminate | lia].
  - simpl in Hin. destruct (Ascii.eqb d (ch LF)); [apply IH; assumption |].
    destruct (advance fontToUse w d); simpl; try discriminate. apply IH. assumption.
Qed.

(** X11. A character whose code is below 32 and that is not a line feed (a
    tab, a carriage return; with a signed [char] also every byte from 128
    on) makes the measurement index before the font's glyph table: whatever
    the font and the configuration, the call does not return a size. *)
Theorem measure_text_control_character c text config fonts :
  has_char c text = true -> c <> ch LF -> char_value c < 32 ->
  forall size, Raylib_MeasureText text config fonts <> Returned size.
Proof.
  intros Hin Hlf Hlow size. unfold Raylib_MeasureText.
  destruct (fonts !! _) as [font|]; [| discriminate].
  cbn [defined mbind outcome_bind].
  destruct (measure_loop _ text fzero fzero) as [r| | |] eqn:E; try discriminate.
  exfalso. eapply measure_loop_control_character; eassumption.
Qed.

End MeasureProperties.

(* --------------------------------------------------------------------- *)
(** ** Scroll helpers: the range of the offsets, unknown containers *)

(** The lowest offset is a number, and it is not positive. *)
Lemma scroll_floor_nonpositive (contentExtent viewportExtent : float) :
  isnan (scroll_floor contentExtent viewportExtent) = false /\
  fle (scroll_floor contentExtent viewportExtent) fzero = true.
Proof.
  unfold scroll_floor. destruct (fsub contentExtent viewportExtent) as [[]|[]| |[] m e];
    split; reflexivity.
Qed.

Lemma fmaxf_lower (n m : float) :
  isnan m = false ->
  fle m (fmaxf n m) = true /\ isnan (fmaxf n m) = false.
Proof.
  intros Hm. unfold fmaxf, fge, fle. rewrite Hm, orb_false_r.
  destruct (SFleb m n) eqn:E.
  - split; [exact E |]. destruct n; try reflexivity.
    unfold SFleb in E. destruct m as [[]|[]| |[] ? ?]; discriminate.
  - split; [| exact Hm]. unfold SFleb. rewrite (SFcompare_refl m Hm). reflexivity.
Qed.

Lemma fminf_zero_lower (m x : float) :
  fle m fzero = true -> fle m x = true -> isnan x = false ->
  fle m (fminf fzero x) = true /\ isnan (fminf fzero x) = false.
Proof.
  intros Hm Hx Hn. unfold fminf. destruct (fle fzero x || isnan x); auto.
Qed.

(** The clamped offset lies between the lowest offset and zero, and is a
    number whatever the arguments are. *)
Lemma scroll_clamp_range current delta contentExtent viewportExtent :
  let y := scroll_clamp current delta contentExtent viewportExtent in
  isnan y = false /\
  fle (scroll_floor contentExtent viewportExtent) y = true /\
  fle y fzero = true.
Proof.
  intros y. subst y. unfold scroll_clamp. fold (scroll_floor contentExtent viewportExtent).
  destruct (scroll_floor_nonpositive contentExtent viewportExtent) as [Hnan Hle].
  destruct (fmaxf_lower (fadd current delta) _ Hnan) as [Hlow Hnan'].
  destruct (fminf_zero_lower _ _ Hle Hlow Hnan') as [Hlow' Hnan''].
  split_and!; [exact Hnan'' | exact Hlow' | apply fminf_zero_nonpositive].
Qed.

Section ScrollRange.
Context `{ClayHash}.

(** X12. The scroll helpers do not check that the container exists: for a
    name that is not the id of a scroll container, [Clay] reports a null
    [scrollPosition], and each of the four helpers reads or writes through
    it. Nothing is printed and no container is changed. *)
Theorem scroll_helpers_dereference_null (ctx : gmap Z ScrollContainer) containerName delta :
  ctx !! eid_id (Clay__HashString (toClayString containerName) 0 0) = None ->
  ScrollContainerByY ctx containerName delta = IO [] (Undefined "null pointer dereference") /\
  ScrollContainerByX ctx containerName delta = IO [] (Undefined "null pointer dereference") /\
  ScrollContainerTop ctx containerName = IO [] (Undefined "null pointer dereference") /\
  ScrollContainerBottom ctx containerName = IO [] (Undefined "null pointer dereference").
Proof.
  intros Hc.
  unfold ScrollContainerByY, ScrollContainerByX, ScrollContainerTop,
    ScrollContainerBottom, Clay_GetScrollContainerData.
  rewrite Hc. split_and!; reflexivity.
Qed.

(** X13. [ScrollContainerByY] on a container Clay knows keeps the vertical
    offset in range whatever it is given: the offset stored is a number (not
    a NaN, even from a NaN offset or delta), at least
    - max(0, contentHeight - viewportHeight) and at most 0; the horizontal
    offset, the sizes and the other containers are left as they were. The
    two debugging lines are printed exactly when the new offset compares
    equal to zero. *)
Theorem scroll_by_y_stays_in_range (ctx : gmap Z ScrollContainer) containerName deltaY c :
  let id := eid_id (Clay__HashString (toClayString containerName) 0 0) in
  ctx !! id = Some c ->
  let floor := scroll_floor (dim_height (sc_contentSize c)) (dim_height (sc_boundingBox c)) in
  exists newY,
    ScrollContainerByY ctx containerName deltaY
      = IO (if feq newY fzero then scroll_debug_output deltaY floor newY else [])
           (Returned (<[id := with_scroll_y newY c]> ctx)) /\
    isnan newY = false /\ fle floor newY = true /\ fle newY fzero = true.
Proof.
  intros id Hc floor. subst id.
  exists (scroll_clamp (v2_y (sc_scrollPosition c)) deltaY
            (dim_height (sc_contentSize c)) (dim_height (sc_boundingBox c))).
  split; [| apply scroll_clamp_range].
  unfold ScrollContainerByY, Clay_GetScrollContainerData.
  rewrite Hc. unfold load_position, store_position. simpl.
  rewrite Hc. unfold scroll_clamp, floor, scroll_floor.
  cbv [mbind io_bind mret io_ret lift emit result trace defined option_bind
       scd_scrollPosition scd_contentDimensions scd_scrollContainerDimensions].
  destruct (feq _ _); reflexivity.
Qed.

(** X14. [ScrollContainerByX] clamps the horizontal offset as
    [ScrollContainerByY] clamps the vertical one, on the widths: the offset
    stored is min(0, max(current + delta, - max(0, contentWidth -
    viewportWidth))), a number between that lowest offset and 0; the
    vertical offset is left as it was and nothing is printed. *)
Theorem scroll_by_x_clamps (ctx : gmap Z ScrollContainer) containerName deltaX c :
  let id := eid_id (Clay__HashString (toClayString containerName) 0 0) in
  ctx !! id = Some c ->
  let floor := scroll_floor (dim_width (sc_contentSize c)) (dim_width (sc_boundingBox c)) in
  let newX := scroll_clamp (v2_x (sc_scrollPosition c)) deltaX
                (dim_width (sc_contentSize c)) (dim_width (sc_boundingBox c)) in
  ScrollContainerByX ctx containerName deltaX
    = IO [] (Returned (<[id := with_scroll_x newX c]> ctx)) /\
  isnan newX = false /\ fle floor newX = true /\ fle newX fzero = true.
Proof.
  intros id Hc floor newX. subst id. split; [| apply scroll_clamp_range].
  unfold ScrollContainerByX, Clay_GetScrollContainerData.
  rewrite Hc. unfold load_position, store_position.
  cbv [mbind io_bind mret io_ret lift emit result trace defined option_bind
       scd_scrollPosition scd_contentDimensions scd_scrollContainerDimensions].
  rewrite !Hc. reflexivity.
Qed.

(** X15. [ScrollContainerTop] and [ScrollContainerBottom] move a container
    Clay knows to the two ends of the range [ScrollContainerByY] clamps to:
    the vertical offset becomes 0, respectively
    - max(0, contentHeight - viewportHeight), which is a number and not
    positive. From either end a further [ScrollContainerByY] by a delta of
    zero stores an offset that compares equal to the one it found. *)
Theorem scroll_top_and_bottom (ctx : gmap Z ScrollContainer) containerName c :
  let id := eid_id (Clay__HashString (toClayString containerName) 0 0) in
  ctx !! id = Some c ->
  let floor := scroll_floor (dim_height (sc_contentSize c)) (dim_height (sc_boundingBox c)) in
  ScrollContainerTop ctx containerName
    = IO [] (Returned (<[id := with_scroll_y fzero c]> ctx)) /\
  ScrollContainerBottom ctx containerName
    = IO [] (Returned (<[id := with_scroll_y floor c]> ctx)) /\
  isnan floor = false /\ fle floor fzero = true /\
  feq (scroll_clamp fzero fzero (dim_height (sc_contentSize c))
         (dim_height (sc_boundingBox c))) fzero = true /\
  feq (scroll_clamp floor fzero (dim_height (sc_contentSize c))
         (dim_height (sc_boundingBox c))) floor = true.
Proof.
  intros id Hc floor. subst id.
  unfold ScrollContainerTop, ScrollContainerBottom, Clay_GetScrollContainerData.
  rewrite Hc. unfold store_position. cbv [scd_scrollPosition lift]. rewrite ?Hc.
  split; [reflexivity |]. split; [reflexivity |].
  destruct (scroll_floor_nonpositive (dim_height (sc_contentSize c))
              (dim_height (sc_boundingBox c))) as [Hnan Hle].
  split; [exact Hnan |]. split; [exact Hle |].
  unfold scroll_clamp. fold (scroll_floor (dim_height (sc_contentSize c))
                               (dim_height (sc_boundingBox c))). fold floor.
  fold floor in Hnan, Hle. clearbody floor.
  split.
  - destruct floor as [[]|[]| |[] m e]; try discriminate; reflexivity.
  - destruct floor as [[]|[]| |[] m e]; try discriminate; try reflexivity.
    change (fadd (S754_finite true m e) fzero) with (S754_finite true m e).
    unfold fmaxf, fge, SFleb. rewrite (SFcompare_refl _ Hnan). cbn [orb].
    change (fminf fzero (S754_finite true m e)) with (S754_finite true m e).
    unfold feq, SFeqb. rewrite (SFcompare_refl _ Hnan). reflexivity.
Qed.

End ScrollRange.

(* --------------------------------------------------------------------- *)
(** ** Render command interpreter: order, clipping, resources *)

Section InterpreterOrder.
Context `{Raylib}.

(** The loop returns exactly when each of its commands does, and its
    events are then theirs, in order. *)
Lemma render_loop_returns cmds fonts cam rest :
  result (render_loop cmds fonts cam rest) = Returned tt <->
  Forall (fun c => result (render_command cmds fonts cam c) = Returned tt) rest.
Proof.
  induction rest as [|c rest IH]; cbn [render_loop].
  - split; [constructor | reflexivity].
  - split.
    + intros Hr. apply io_result_bind in Hr as ([] & Hc & Hrest).
      constructor; [exact Hc | apply IH, Hrest].
    + intros Hall. apply Forall_cons in Hall as [Hc Hrest].
      rewrite (io_bind_Returned _ _ tt Hc). simpl. apply IH, Hrest.
Qed.

Lemma render_loop_events cmds fonts cam rest :
  Forall (fun c => result (render_command cmds fonts cam c) = Returned tt) rest ->
  render_loop cmds fonts cam rest = IO (events_in_order cmds fonts cam rest) (Returned tt).
Proof.
  unfold events_in_order.
  induction rest as [|c rest IH]; cbn [render_loop map concat]; intros Hall.
  - reflexivity.
  - apply Forall_cons in Hall as [Hc Hrest].
    rewrite (io_bind_Returned _ _ tt Hc), (IH Hrest). reflexivity.
Qed.

Lemma render_loop_fails cmds fonts cam pre c post :
  Forall (fun c => result (render_command cmds fonts cam c) = Returned tt) pre ->
  result (render_command cmds fonts cam c) <> Returned tt ->
  render_loop cmds fonts cam (pre ++ c :: post)
  = IO (events_in_order cmds fonts cam pre ++ trace (render_command cmds fonts cam c))
       (result (render_command cmds fonts cam c)).
Proof.
  intros Hpre Hc.
  rewrite render_loop_app, (render_loop_events _ _ _ _ Hpre).
  cbn [render_loop]. unfold mbind at 1, io_bind at 1. cbn [result trace].
  unfold mbind, io_bind.
  destruct (result (render_command cmds fonts cam c)) as [[]| | |]; try reflexivity.
  contradiction.
Qed.

(** X16. Commands are interpreted strictly in the order of the array, and
    the first one that does not return ends the run. The call returns
    exactly when each command, interpreted alone, returns, and its events
    are then the events of the commands one after the other. When a
    command fails (an undefined conversion or read, the exit of an unknown
    tag) after commands that returned, the events of the run are those of
    the commands before it followed by its own, the run ends the way that
    command ends, and nothing of a later command is drawn. *)
Theorem render_in_order_until_failure cmds fonts cam :
  (result (Clay_Raylib_Render cmds fonts cam) = Returned tt <->
   Forall (fun c => result (render_command cmds fonts cam c) = Returned tt) cmds) /\
  (result (Clay_Raylib_Render cmds fonts cam) = Returned tt ->
   trace (Clay_Raylib_Render cmds fonts cam) = events_in_order cmds fonts cam cmds) /\
  (forall pre c post,
     cmds = pre ++ c :: post ->
     Forall (fun c => result (render_command cmds fonts cam c) = Returned tt) pre ->
     result (render_command cmds fonts cam c) <> Returned tt ->
     Clay_Raylib_Render cmds fonts cam
     = IO (events_in_order cmds fonts cam pre ++ trace (render_command cmds fonts cam c))
          (result (render_command cmds fonts cam c))).
Proof.
  unfold Clay_Raylib_Render. split_and!.
  - apply render_loop_returns.
  - intros Hr. apply render_loop_returns in Hr.
    rewrite (render_loop_events _ _ _ _ Hr). reflexivity.
  - intros pre c post -> Hpre Hc. apply render_loop_fails; assumption.
Qed.

Lemma no_clip_bind {A B : Type} (m : io Event A) (k : A -> io Event B) :
  no_clip m -> (forall a, no_clip (k a)) -> no_clip (m ≫= k).
Proof.
  unfold no_clip, mbind, io_bind. intros Hm Hk.
  destruct (result m); simpl; auto. apply Forall_app. auto.
Qed.

Lemma no_clip_lift {A B : Type} (o : outcome A) (k : A -> io Event B) :
  (forall a, no_clip (k a)) -> no_clip (lift o ≫= k).
Proof. intros Hk. apply no_clip_bind; [constructor | exact Hk]. Qed.

Lemma no_clip_emit (e : Event) : event_clip e = None -> no_clip (emit e).
Proof. intros He. repeat constructor. exact He. Qed.

Lemma no_clip_when_do c body : no_clip body -> no_clip (when_do c body).
Proof. intros Hb. destruct c; [exact Hb | constructor]. Qed.

Ltac no_clip :=
  repeat first
    [ apply no_clip_emit; reflexivity
    | apply no_clip_when_do
    | apply no_clip_lift; intros ?
    | apply no_clip_bind; [| intros ?] ].

Lemma render_text_no_clip fonts bb d : no_clip (render_text fonts bb d).
Proof. unfold render_text, color_of. no_clip. Qed.

Lemma render_image_no_clip bb d : no_clip (render_image bb d).
Proof. unfold render_image, color_of. no_clip. Qed.

Lemma render_rectangle_no_clip bb d : no_clip (render_rectangle bb d).
Proof. unfold render_rectangle, color_of, int_of. destruct (fgt _ _); no_clip. Qed.

Lemma render_border_no_clip bb d : no_clip (render_border bb d).
Proof.
  unfold render_border, render_border_edges, render_border_corners, render_ring,
    color_of, int_of.
  repeat (apply no_clip_bind; [| intros ?]);
    try match goal with |- no_clip _ => no_clip end;
    apply no_clip_when_do; no_clip.
Qed.

Lemma render_custom_no_clip cmds cam c : no_clip (render_custom cmds cam c).
Proof.
  unfold render_custom, int_of.
  destruct (custom_customData _) as [e|]; [| constructor].
  destruct (_ =? _); [| constructor].
  no_clip.
Qed.

Lemma omap_no_clip (t : list Event) :
  Forall (fun e => event_clip e = None) t -> omap event_clip t = [].
Proof.
  induction 1 as [|e t He _ IH]; [reflexivity |].
  cbn [omap list_omap]. rewrite He. exact IH.
Qed.

(** A command that returns makes one scissor call if it is a scissor
    command, and none otherwise. *)
Lemma render_command_clip cmds fonts cam c :
  result (render_command cmds fonts cam c) = Returned tt ->
  omap event_clip (trace (render_command cmds fonts cam c))
  = option_list (command_clip c).
Proof.
  unfold render_command, command_clip.
  destruct (Z.eqb_spec (commandType c) CLAY_RENDER_COMMAND_TYPE_TEXT) as [E|_].
  { rewrite E. intros _. apply omap_no_clip, render_text_no_clip. }
  destruct (Z.eqb_spec (commandType c) CLAY_RENDER_COMMAND_TYPE_IMAGE) as [E|_].
  { rewrite E. intros _. apply omap_no_clip, render_image_no_clip. }
  destruct (Z.eqb_spec (commandType c) CLAY_RENDER_COMMAND_TYPE_SCISSOR_START) as [E|_].
  { unfold render_scissor_start, int_of.
    destruct (to_int (roundf (bb_x _))), (to_int (roundf (bb_y _))),
      (to_int (roundf (bb_width _))), (to_int (roundf (bb_height _)));
      simpl; intros Hr; try discriminate; reflexivity. }
  destruct (Z.eqb_spec (commandType c) CLAY_RENDER_COMMAND_TYPE_SCISSOR_END) as [E|_].
  { reflexivity. }
  destruct (Z.eqb_spec (commandType c) CLAY_RENDER_COMMAND_TYPE_RECTANGLE) as [E|_].
  { intros _. apply omap_no_clip, render_rectangle_no_clip. }
  destruct (Z.eqb_spec (commandType c) CLAY_RENDER_COMMAND_TYPE_BORDER) as [E|_].
  { intros _. apply omap_no_clip, render_border_no_clip. }
  destruct (Z.eqb_spec (commandType c) CLAY_RENDER_COMMAND_TYPE_CUSTOM) as [E|_].
  { intros _. apply omap_no_clip, render_custom_no_clip. }
  discriminate.
Qed.

Lemma render_loop_clip cmds fonts cam rest :
  Forall (fun c => result (render_command cmds fonts cam c) = Returned tt) rest ->
  omap event_clip (events_in_order cmds fonts cam rest) = omap command_clip rest.
Proof.
  unfold events_in_order. induction 1 as [|c rest Hc _ IH]; [reflexivity |].
  cbn [map concat]. rewrite omap_app, IH, (render_command_clip _ _ _ _ Hc).
  cbn [omap list_omap]. destruct (command_clip c); reflexivity.
Qed.

(** X17. Clip regions do not leak: in a run that returns, the scissor
    calls made are, in order, one [BeginScissorMode] for each ScissorStart
    command and one [EndScissorMode] for each ScissorEnd command of the
    array, and no other command makes a scissor call. So the pushes and
    pops of the clip stack nest in the drawing exactly as the scissor
    commands nest in the array. *)
Theorem scissor_calls_follow_scissor_commands cmds fonts cam :
  result (Clay_Raylib_Render cmds fonts cam) = Returned tt ->
  omap event_clip (trace (Clay_Raylib_Render cmds fonts cam)) = omap command_clip cmds.
Proof.
  unfold Clay_Raylib_Render. intros Hr. apply render_loop_returns in Hr.
  rewrite (render_loop_events _ _ _ _ Hr). cbn [trace].
  apply render_loop_clip, Hr.
Qed.

End InterpreterOrder.

Section InterpreterResources.
Context `{Raylib}.

Lemma render_command_text cmds fonts cam c :
  commandType c = CLAY_RENDER_COMMAND_TYPE_TEXT ->
  render_command cmds fonts cam c =
  render_text fonts (boundingBox c) (rd_text (renderData c)).
Proof. intros Htag. unfold render_command. rewrite Htag. reflexivity. Qed.

Lemma render_command_image cmds fonts cam c :
  commandType c = CLAY_RENDER_COMMAND_TYPE_IMAGE ->
  render_command cmds fonts cam c =
  render_image (boundingBox c) (rd_image (renderData c)).
Proof. intros Htag. unfold render_command. rewrite Htag. reflexivity. Qed.

(** X18. An Image command draws its texture at the corner of the bounding
    box, without rotation, scaled by the width of the box over the width of
    the texture (the height of the box plays no part). A tint whose four
    channels are zero stands for "no tint" and is drawn as opaque white;
    any other tint is drawn as the tint itself, converted to 8 bits. *)
Theorem image_tint_and_scale cmds fonts cam c texture :
  commandType c = CLAY_RENDER_COMMAND_TYPE_IMAGE ->
  image_imageData (rd_image (renderData c)) = Some texture ->
  let bb := boundingBox c in
  let tint := image_backgroundColor (rd_image (renderData c)) in
  let draw color :=
    DrawTextureEx texture {| vx := bb_x bb; vy := bb_y bb |} fzero
      (fdiv (bb_width bb) (float_of_Z (tex_width texture))) color in
  (transparent_black tint = true ->
   render_command cmds fonts cam c = IO [draw WHITE] (Returned tt)) /\
  (transparent_black tint = false ->
   forall color, CLAY_COLOR_TO_RAYLIB_COLOR tint = Returned color ->
   render_command cmds fonts cam c = IO [draw color] (Returned tt)).
Proof.
  intros Htag Hdata bb tint draw.
  rewrite (render_command_image _ _ _ _ Htag). unfold render_image, color_of.
  rewrite Hdata. fold tint bb. unfold transparent_black. split.
  - intros Ht. rewrite Ht. reflexivity.
  - intros Ht color Hcolor. rewrite Ht, Hcolor. reflexivity.
Qed.

(** X19. The resources a command names are not checked. A Text command
    whose font id is not an index of the font table, and an Image command
    whose image data is the null pointer, make the interpreter read
    outside the table, respectively through the null pointer: nothing is
    drawn for the command and the run goes no further. (A Custom command
    with a null payload, by contrast, is skipped.) *)
Theorem missing_font_or_texture_is_not_checked cmds fonts cam c :
  (commandType c = CLAY_RENDER_COMMAND_TYPE_TEXT ->
   fonts !! Z.to_nat (text_fontId (rd_text (renderData c))) = None ->
   render_command cmds fonts cam c
   = IO [] (Undefined "read past the end of the font table")) /\
  (commandType c = CLAY_RENDER_COMMAND_TYPE_IMAGE ->
   image_imageData (rd_image (renderData c)) = None ->
   render_command cmds fonts cam c = IO [] (Undefined "null pointer dereference")) /\
  (forall pre post,
     cmds = pre ++ c :: post ->
     Forall (fun c => result (render_command cmds fonts cam c) = Returned tt) pre ->
     (commandType c = CLAY_RENDER_COMMAND_TYPE_TEXT /\
      fonts !! Z.to_nat (text_fontId (rd_text (renderData c))) = None) \/
     (commandType c = CLAY_RENDER_COMMAND_TYPE_IMAGE /\
      image_imageData (rd_image (renderData c)) = None) ->
     trace (Clay_Raylib_Render cmds fonts cam) = events_in_order cmds fonts cam pre /\
     forall u, result (Clay_Raylib_Render cmds fonts cam) <> Returned u).
Proof.
  assert (Htext : commandType c = CLAY_RENDER_COMMAND_TYPE_TEXT ->
            fonts !! Z.to_nat (text_fontId (rd_text (renderData c))) = None ->
            render_command cmds fonts cam c
            = IO [] (Undefined "read past the end of the font table")).
  { intros Htag Hfont. rewrite (render_command_text _ _ _ _ Htag).
    unfold render_text. rewrite Hfont. reflexivity. }
  assert (Himage : commandType c = CLAY_RENDER_COMMAND_TYPE_IMAGE ->
            image_imageData (rd_image (renderData c)) = None ->
            render_command cmds fonts cam c = IO [] (Undefined "null pointer dereference")).
  { intros Htag Hdata. rewrite (render_command_image _ _ _ _ Htag).
    unfold render_image. rewrite Hdata. reflexivity. }
  split_and!; [exact Htext | exact Himage |].
  intros pre post -> Hpre Hmissing. unfold Clay_Raylib_Render.
  assert (Hc : exists w, render_command (pre ++ c :: post) fonts cam c = IO [] (Undefined w)).
  { destruct Hmissing as [[Htag Hm] | [Htag Hm]]; eauto. }
  destruct Hc as (w & Hc).
  rewrite (render_loop_fails _ _ _ _ _ _ Hpre) by (rewrite Hc; discriminate).
  rewrite Hc. cbn [trace result]. rewrite app_nil_r. split; [reflexivity | discriminate].
Qed.

(** Computations that emit one event when they return. *)
Lemma one_event_emit (e : Event) : one_event (emit e).
Proof. intros a _. reflexivity. Qed.

Lemma one_event_lift {A B : Type} (o : outcome A) (k : A -> io Event B) :
  (forall a, one_event (k a)) -> one_event (lift o ≫= k).
Proof.
  intros Hk b. unfold mbind, io_bind, lift. cbn [result trace].
  destruct o as [a| | |]; try discriminate. cbn [result trace app]. apply Hk.
Qed.



Ltac one_event :=
  repeat first [ apply one_event_emit | apply one_event_lift; intros ? ].


End InterpreterResources.

(* --------------------------------------------------------------------- *)
(** ** Style token compiler: tokens *)

Lemma append_cons (c : ascii) (s t : string) : String c s +:+ t = String c (s +:+ t).
Proof. reflexivity. Qed.

Lemma length_append (s t : string) :
  String.length (s +:+ t) = (String.length s + String.length t)%nat.
Proof.
  induction s as [|c s IH]; [reflexivity |].
  rewrite append_cons. simpl. rewrite IH. reflexivity.
Qed.

Lemma has_char_append (c : ascii) (s t : string) :
  has_char c (s +:+ t) = has_char c s || has_char c t.
Proof.
  induction s as [|d s IH]; [reflexivity |].
  rewrite append_cons. cbn [has_char]. rewrite IH, orb_assoc. reflexivity.
Qed.

Lemma until_nul_free (s : string) : has_char NUL s = false -> until_nul s = s.
Proof.
  induction s as [|c s IH]; [reflexivity |]. cbn [has_char until_nul].
  intros Hs. apply orb_false_elim in Hs as [Hc Hs]. rewrite Hc, IH by assumption.
  reflexivity.
Qed.

Lemma strrchr_free (s : string) (c : ascii) : has_char c s = false -> strrchr s c = None.
Proof.
  induction s as [|d s IH]; [reflexivity |]. cbn [has_char strrchr].
  intros Hs. apply orb_false_elim in Hs as [Hc Hs]. rewrite IH, Hc by assumption.
  reflexivity.
Qed.

Lemma array_prefix_short (N : nat) (s : string) :
  (String.length s <= N)%nat -> array_prefix N s = s.
Proof.
  revert N. induction s as [|c s IH]; intros [|N] Hs; simpl in *; try reflexivity; try lia.
  rewrite IH by lia. reflexivity.
Qed.

Lemma length_token (left right : string) :
  String.length (token left right) = (String.length left + 1 + String.length right)%nat.
Proof. unfold token. rewrite !length_append. simpl. lia. Qed.

Lemma strrchr_token (left right : string) :
  has_char (ch "-") right = false ->
  strrchr (token left right) (ch "-") = Some (Z.of_nat (String.length left)).
Proof.
  intros Hr. unfold token. induction left as [|c left IH].
  - change ("" +:+ "-" +:+ right) with (String (ch "-") right).
    cbn [strrchr]. rewrite (strrchr_free _ _ Hr). reflexivity.
  - rewrite append_cons. cbn [strrchr String.length]. rewrite IH. f_equal. lia.
Qed.

Lemma substring_token_left (left right : string) :
  String.substring 0 (String.length left) (token left right) = left.
Proof.
  unfold token. induction left as [|c left IH].
  - simpl. destruct ("" +:+ "-" +:+ right); reflexivity.
  - rewrite append_cons. cbn [String.length String.substring]. rewrite IH. reflexivity.
Qed.

Lemma substring_all (s : string) : String.substring 0 (String.length s) s = s.
Proof. induction s as [|c s IH]; [reflexivity |]. simpl. rewrite IH. reflexivity. Qed.

Lemma substring_token_right (left right : string) :
  String.substring (String.length left + 1) (String.length right) (token left right)
  = right.
Proof.
  unfold token. induction left as [|c left IH].
  - change ("" +:+ "-" +:+ right) with (String (ch "-") right).
    cbn [String.length Nat.add String.substring]. apply substring_all.
  - rewrite append_cons. cbn [String.length Nat.add String.substring]. exact IH.
Qed.

(** What the C string functions make of a token that holds no zero
    character and whose right part holds no '-'. *)
Lemma token_split (left right : string) :
  has_char NUL (token left right) = false ->
  has_char (ch "-") right = false ->
  Z.of_nat (String.length right) <= SIZE_MAX ->
  until_nul (token left right) = token left right /\
  strlen (token left right) = Z.of_nat (String.length left + 1 + String.length right) /\
  strrchr (token left right) (ch "-") = Some (Z.of_nat (String.length left)) /\
  size_t (Z.of_nat (String.length left + 1 + String.length right)
          - (Z.of_nat (String.length left) + 1))
  = Z.of_nat (String.length right).
Proof.
  intros Hnul Hdash Hmax.
  pose proof (until_nul_free _ Hnul) as Hu.
  split_and!; [exact Hu | | apply strrchr_token, Hdash |].
  - unfold strlen. rewrite Hu, length_token. reflexivity.
  - replace (Z.of_nat (String.length left + 1 + String.length right)
             - (Z.of_nat (String.length left) + 1))
      with (Z.of_nat (String.length right)) by lia.
    apply size_t_small. lia.
Qed.

(* --------------------------------------------------------------------- *)
(** ** Style token compiler: what each block leaves alone *)

Section Frames.
Context `{Libc} `{ClayHash} {T : Type} (π : Clay_ElementDeclaration -> T).

Lemma when_frame c f x z :
  (forall y, π (f y) = π y) -> π x = z -> π (when c f x) = z.
Proof. intros Hf <-. destruct c; simpl; auto. Qed.

Lemma parse_misc_frame options x :
  (forall v y, π (set_id v y) = π y) ->
  (forall v y, π (set_backgroundColor v y) = π y) ->
  (forall v y, π (set_layout (set_childGap v) y) = π y) ->
  π (parse_misc options x) = π x.
Proof.
  intros Hid Hbg Hgap. unfold parse_misc.
  apply when_frame; [intros; apply Hgap |].
  apply when_frame; [intros; apply Hbg |].
  destruct (opt_id options); [apply Hid | reflexivity].
Qed.

Lemma parse_padding_frame options x :
  (forall f y, π (set_layout (set_padding f) y) = π y) ->
  π (parse_padding options x) = π x.
Proof.
  intros Hpad. unfold parse_padding.
  repeat (apply when_frame; [intros; rewrite ?Hpad; reflexivity |]). reflexivity.
Qed.

Lemma parse_align_frame options x :
  (forall f y, π (set_layout (set_childAlignment f) y) = π y) ->
  π (parse_align options x) = π x.
Proof.
  intros Hal. unfold parse_align.
  repeat (apply when_frame; [intros; apply Hal |]). reflexivity.
Qed.

Lemma parse_scroll_frame options x :
  (forall v y, π (set_scroll v y) = π y) ->
  π (parse_scroll options x) = π x.
Proof.
  intros Hsc. unfold parse_scroll.
  repeat (apply when_frame; [intros; apply Hsc |]). reflexivity.
Qed.

Lemma parse_borderRadius_keeps options x x' :
  (forall v y, π (set_cornerRadius v y) = π y) ->
  parse_borderRadius options x = Returned x' -> π x' = π x.
Proof.
  intros Hcr. unfold parse_borderRadius. intros E.
  destruct (negb _); [| injection E as <-; reflexivity].
  apply bind_Returned in E as (str & _ & E).
  apply bind_Returned in E as ([] & _ & E).
  apply bind_Returned in E as (directionStr & _ & E).
  apply bind_Returned in E as (sizeStr & _ & E).
  injection E as <-.
  repeat (apply when_frame; [intros; apply Hcr |]). reflexivity.
Qed.

Lemma when_width_keeps c l r t b w x x' :
  (forall f y, π (set_border f y) = π y) ->
  when_width c l r t b w x = Returned x' -> π x' = π x.
Proof.
  intros Hb. unfold when_width. destruct c; intros E; [| injection E as <-; reflexivity].
  inv_bind E. subst x'. apply Hb.
Qed.

Lemma parse_border_keeps options x x' :
  (forall f y, π (set_border f y) = π y) ->
  parse_border options x = Returned x' -> π x' = π x.
Proof.
  intros Hb. unfold parse_border. intros E.
  destruct (fne _ _); [| injection E as <-; reflexivity].
  apply bind_Returned in E as (str & _ & E).
  apply bind_Returned in E as ([] & _ & E).
  apply bind_Returned in E as (widthStr & _ & E).
  apply bind_Returned in E as (r1 & E1 & E).
  apply bind_Returned in E as (r2 & E2 & E).
  apply bind_Returned in E as (r3 & E3 & E).
  apply bind_Returned in E as (r4 & E4 & E).
  apply bind_Returned in E as (r5 & E5 & E).
  injection E as <-. rewrite Hb.
  rewrite (when_width_keeps _ _ _ _ _ _ _ _ Hb E5), (when_width_keeps _ _ _ _ _ _ _ _ Hb E4),
    (when_width_keeps _ _ _ _ _ _ _ _ Hb E3), (when_width_keeps _ _ _ _ _ _ _ _ Hb E2),
    (when_width_keeps _ _ _ _ _ _ _ _ Hb E1).
  reflexivity.
Qed.

Lemma parse_sizing_axis_keeps tok unknown set x x' :
  (forall axis y, π (set_layout (set_sizing (set axis)) y) = π y) ->
  parse_sizing_axis tok unknown set x = Returned x' -> π x' = π x.
Proof.
  intros Hs. unfold parse_sizing_axis. intros E.
  destruct tok as [tok|]; [| injection E as <-; reflexivity].
  apply bind_Returned in E as ([] & _ & E).
  apply bind_Returned in E as ([] & _ & E).
  apply bind_Returned in E as (sizeString & _ & E).
  apply bind_Returned in E as ([] & _ & E).
  injection E as <-.
  repeat (apply when_frame; [intros; apply Hs |]). reflexivity.
Qed.

Lemma parse_sizing_keeps options x x' :
  (forall f y, π (set_layout (set_sizing f) y) = π y) ->
  parse_sizing options x = Returned x' -> π x' = π x.
Proof.
  intros Hs. unfold parse_sizing. intros E.
  apply bind_Returned in E as (xh & Eh & Ew).
  rewrite (parse_sizing_axis_keeps _ _ _ _ _ (fun axis y => Hs _ y) Ew).
  apply (parse_sizing_axis_keeps _ _ _ _ _ (fun axis y => Hs _ y) Eh).
Qed.

End Frames.

Section TokenProperties.
Context `{Libc} `{ClayHash}.

(** The blocks of [ParseComponentOptions], one after the other. *)
Lemma ParseComponentOptions_blocks options defaults r :
  ParseComponentOptions options defaults = Returned r ->
  exists x5 x6,
    let x4 := parse_scroll options (parse_align options
                (parse_padding options (parse_misc options defaults))) in
    parse_borderRadius options x4 = Returned x5 /\
    parse_border options x5 = Returned x6 /\
    parse_sizing options x6 = Returned r.
Proof.
  unfold ParseComponentOptions. intros E.
  apply bind_Returned in E as (x5 & E5 & E).
  apply bind_Returned in E as (x6 & E6 & E).
  apply bind_Returned in E as (x7 & E7 & E).
  injection E as <-. eauto.
Qed.

(** X21. No style request reaches the image, floating and custom
    configurations, the user data or the layout direction of an element:
    they are those of the defaults in every configuration resolved. The
    [reverse] member of a request is read nowhere: two requests that differ
    in it alone resolve alike. *)
Theorem members_no_request_reaches options defaults :
  (forall r, ParseComponentOptions options defaults = Returned r ->
     untouched r = untouched defaults) /\
  (forall reverse,
     ParseComponentOptions (with_reverse reverse options) defaults
     = ParseComponentOptions options defaults).
Proof.
  split.
  - intros r E. apply ParseComponentOptions_blocks in E as (x5 & x6 & E5 & E6 & E7).
    rewrite (parse_sizing_keeps untouched _ _ _ ltac:(reflexivity) E7).
    rewrite (parse_border_keeps untouched _ _ _ ltac:(reflexivity) E6).
    rewrite (parse_borderRadius_keeps untouched _ _ _ ltac:(reflexivity) E5).
    rewrite (parse_scroll_frame untouched) by reflexivity.
    rewrite (parse_align_frame untouched) by reflexivity.
    rewrite (parse_padding_frame untouched) by reflexivity.
    apply (parse_misc_frame untouched); reflexivity.
  - intros reverse. destruct options. reflexivity.
Qed.

(** One axis of the block "Sizing" on a token. *)
Lemma parse_sizing_axis_token kind value unknown set x x' :
  has_char NUL (token kind value) = false ->
  has_char (ch "-") value = false ->
  Z.of_nat (String.length value) <= SIZE_MAX ->
  parse_sizing_axis (Some (token kind value)) unknown set x = Returned x' ->
  (3 <= String.length kind)%nat /\ (String.length value < 10)%nat /\
  let assign axis := set_layout (set_sizing (set axis)) x in
  let size := float_of_double (atof value) in
  x' = match String.length kind with
       | 3%nat => assign (CLAY_SIZING_FIT size)
       | 4%nat => assign (CLAY_SIZING_GROW size)
       | 5%nat => assign (CLAY_SIZING_FIXED size)
       | 7%nat => assign (CLAY_SIZING_PERCENT size)
       | _ => x
       end.
Proof.
  intros Hnul Hdash Hmax.
  destruct (token_split kind value Hnul Hdash Hmax) as (Hu & Hlen & Hlast & Hsize).
  unfold parse_sizing_axis. rewrite Hu, Hlen, Hlast.
  intros E. apply bind_Returned in E as ([] & _ & E).
  cbn [default from_option id] in E. rewrite Hsize in E.
  apply bind_Returned in E as ([] & E1 & E). apply c_assert_Returned, Z.ltb_lt in E1.
  unfold copy_terminated in E.
  destruct (Z.ltb_spec (Z.of_nat (String.length value)) (Z.of_nat 10)); [| lia].
  cbn [mbind outcome_bind] in E.
  replace (Z.to_nat (Z.of_nat (String.length kind) + 1))
    with (String.length kind + 1)%nat in E by lia.
  rewrite Nat2Z.id, substring_token_right in E.
  apply bind_Returned in E as ([] & E2 & E). apply c_assert_Returned, Z.leb_le in E2.
  injection E as <-.
  split; [lia |]. split; [lia |]. cbv zeta. unfold when.
  destruct (Z.eqb_spec (Z.of_nat (String.length kind)) 3) as [E3|N3];
    [replace (String.length kind) with 3%nat by lia; reflexivity |].
  destruct (Z.eqb_spec (Z.of_nat (String.length kind)) 4) as [E4|N4];
    [replace (String.length kind) with 4%nat by lia; reflexivity |].
  destruct (Z.eqb_spec (Z.of_nat (String.length kind)) 5) as [E5|N5];
    [replace (String.length kind) with 5%nat by lia; reflexivity |].
  destruct (Z.eqb_spec (Z.of_nat (String.length kind)) 7) as [E7|N7];
    [replace (String.length kind) with 7%nat by lia; reflexivity |].
  destruct (String.length kind) as [|[|[|[|[|[|[|[|n]]]]]]]]; try lia; reflexivity.
Qed.

(** X22. The kind of a sizing token is read off its length: in every
    configuration resolved from a request whose [h] (or [w]) is a token
    "{kind}-{value}", the height (or width) is fit, grow, fixed or percent of
    [atof(value)] according as [kind] has 3, 4, 5 or 7 characters, whatever
    these characters are; with a [kind] of 6 or of more than 7 characters
    the axis silently keeps its default. A request resolves only if [kind]
    has at least 3 characters and [value] fewer than 10. An axis without a
    token keeps its default, and neither axis disturbs the other. *)
Theorem sizing_kind_is_read_off_its_length options defaults r :
  ParseComponentOptions options defaults = Returned r ->
  let height d := sizing_height (lc_sizing (ed_layout d)) in
  let width d := sizing_width (lc_sizing (ed_layout d)) in
  (forall kind value,
     opt_h options = Some (token kind value) ->
     has_char NUL (token kind value) = false ->
     has_char (ch "-") value = false ->
     Z.of_nat (String.length value) <= SIZE_MAX ->
     height r = sized kind (float_of_double (atof value)) (height defaults) /\
     (3 <= String.length kind)%nat /\ (String.length value < 10)%nat) /\
  (forall kind value,
     opt_w options = Some (token kind value) ->
     has_char NUL (token kind value) = false ->
     has_char (ch "-") value = false ->
     Z.of_nat (String.length value) <= SIZE_MAX ->
     width r = sized kind (float_of_double (atof value)) (width defaults) /\
     (3 <= String.length kind)%nat /\ (String.length value < 10)%nat) /\
  (opt_h options = None -> height r = height defaults) /\
  (opt_w options = None -> width r = width defaults).
Proof.
  intros E height width.
  apply ParseComponentOptions_blocks in E as (x5 & x6 & E5 & E6 & E7).
  assert (Hpre : lc_sizing (ed_layout x6) = lc_sizing (ed_layout defaults)).
  { rewrite (parse_border_keeps (fun d => lc_sizing (ed_layout d)) _ _ _
               ltac:(reflexivity) E6).
    rewrite (parse_borderRadius_keeps (fun d => lc_sizing (ed_layout d)) _ _ _
               ltac:(reflexivity) E5).
    rewrite (parse_scroll_frame (fun d => lc_sizing (ed_layout d))) by reflexivity.
    rewrite (parse_align_frame (fun d => lc_sizing (ed_layout d))) by reflexivity.
    rewrite (parse_padding_frame (fun d => lc_sizing (ed_layout d))) by reflexivity.
    apply (parse_misc_frame (fun d => lc_sizing (ed_layout d))); reflexivity. }
  unfold parse_sizing in E7. apply bind_Returned in E7 as (xh & Eh & Ew).
  assert (Hh : height r = height xh)
    by (eapply (parse_sizing_axis_keeps height); [| exact Ew]; reflexivity).
  assert (Hw : width xh = width x6)
    by (eapply (parse_sizing_axis_keeps width); [| exact Eh]; reflexivity).
  cbv beta in Hh, Hw. unfold height, width in *.
  split_and!.
  - intros kind value Htok Hnul Hdash Hmax. rewrite Htok in Eh.
    destruct (parse_sizing_axis_token _ _ _ _ _ _ Hnul Hdash Hmax Eh) as (Hk & Hv & Hx).
    split; [| auto]. rewrite Hh, Hx, <- Hpre. unfold sized.
    destruct (String.length kind) as [|[|[|[|[|[|[|[|n]]]]]]]]; reflexivity.
  - intros kind value Htok Hnul Hdash Hmax. rewrite Htok in Ew.
    destruct (parse_sizing_axis_token _ _ _ _ _ _ Hnul Hdash Hmax Ew) as (Hk & Hv & Hx).
    split; [| auto]. rewrite Hx, <- Hpre, <- Hw. unfold sized.
    destruct (String.length kind) as [|[|[|[|[|[|[|[|n]]]]]]]]; reflexivity.
  - intros Hnone. rewrite Hnone in Eh. injection Eh as <-. rewrite Hh, Hpre. reflexivity.
  - intros Hnone. rewrite Hnone in Ew. injection Ew as <-. rewrite Hw, Hpre. reflexivity.
Qed.

End TokenProperties.

Section TokenErrors.
Context `{Libc} `{ClayHash}.

(** One axis of the block "Sizing" on a token it rejects. *)
Lemma parse_sizing_axis_rejects tok unknown set x :
  (strrchr (until_nul tok) (ch "-") = None ->
   parse_sizing_axis (Some tok) unknown set x
   = AssertFailed "Height or width format is {typing}-{size} ex: fit-0") /\
  (forall kind value,
     tok = token kind value ->
     has_char NUL (token kind value) = false ->
     has_char (ch "-") value = false ->
     Z.of_nat (String.length value) <= SIZE_MAX ->
     ((10 <= String.length value)%nat ->
      parse_sizing_axis (Some tok) unknown set x
      = AssertFailed "Size string too long for buffer") /\
     ((String.length value < 10)%nat -> (String.length kind < 3)%nat ->
      parse_sizing_axis (Some tok) unknown set x = AssertFailed unknown)).
Proof.
  split.
  - intros Hnone. unfold parse_sizing_axis. rewrite Hnone. reflexivity.
  - intros kind value -> Hnul Hdash Hmax.
    destruct (token_split kind value Hnul Hdash Hmax) as (Hu & Hlen & Hlast & Hsize).
    unfold parse_sizing_axis. rewrite Hu, Hlen, Hlast.
    rewrite bool_decide_eq_true_2 by discriminate.
    cbn [default from_option id]. rewrite Hsize.
    change (c_assert true ?m) with (Returned tt). cbn [mbind outcome_bind].
    split.
    + intros Hlong. destruct (Z.ltb_spec (Z.of_nat (String.length value)) 10); [lia |].
      reflexivity.
    + intros Hshort Hkind.
      destruct (Z.ltb_spec (Z.of_nat (String.length value)) 10); [| lia].
      cbn [c_assert mbind outcome_bind]. unfold copy_terminated.
      destruct (Z.ltb_spec (Z.of_nat (String.length value)) (Z.of_nat 10)); [| lia].
      cbn [mbind outcome_bind].
      destruct (Z.leb_spec 3 (Z.of_nat (String.length kind))); [lia |]. reflexivity.
Qed.

(** The blocks before "Sizing" on a request without a corner radius token
    and without a border. *)
Lemma ParseComponentOptions_sizing options defaults :
  char_at 6 (opt_borderRadius options) 0 = NUL ->
  feq (color_a (b_color (opt_border options))) fzero = true ->
  ParseComponentOptions options defaults
  = parse_sizing options
      (parse_scroll options (parse_align options
         (parse_padding options (parse_misc options defaults)))).
Proof.
  intros Hbr Hb. unfold ParseComponentOptions, parse_borderRadius, parse_border, fne.
  unfold feq in Hb. rewrite Hbr, Hb. cbn [negb Ascii.eqb mbind outcome_bind mret outcome_ret].
  change (Ascii.eqb NUL NUL) with true. cbn [negb mbind outcome_bind mret outcome_ret].
  destruct (parse_sizing _ _); reflexivity.
Qed.

(** X23. A malformed sizing token aborts the program: on a request
    without a corner radius token and without a border, a height token
    without any '-' fails the assertion on the format; a token
    "{kind}-{value}" whose [value] has 10 characters or more fails the
    assertion on the buffer size (before the kind is looked at); and one
    whose [kind] has fewer than 3 characters fails the assertion "Unknown
    sizing type". The same holds for the width token when there is no
    height token, with the last message spelled "Unknown sizinng type". *)
Theorem malformed_sizing_token_aborts options defaults tok unknown :
  char_at 6 (opt_borderRadius options) 0 = NUL ->
  feq (color_a (b_color (opt_border options))) fzero = true ->
  (opt_h options = Some tok /\ unknown = "Unknown sizing type") \/
  (opt_h options = None /\ opt_w options = Some tok /\ unknown = "Unknown sizinng type") ->
  (strrchr (until_nul tok) (ch "-") = None ->
   ParseComponentOptions options defaults
   = AssertFailed "Height or width format is {typing}-{size} ex: fit-0") /\
  (forall kind value,
     tok = token kind value ->
     has_char NUL (token kind value) = false ->
     has_char (ch "-") value = false ->
     Z.of_nat (String.length value) <= SIZE_MAX ->
     ((10 <= String.length value)%nat ->
      ParseComponentOptions options defaults
      = AssertFailed "Size string too long for buffer") /\
     ((String.length value < 10)%nat -> (String.length kind < 3)%nat ->
      ParseComponentOptions options defaults = AssertFailed unknown)).
Proof.
  intros Hbr Hb Htok. rewrite (ParseComponentOptions_sizing _ _ Hbr Hb).
  set (x := parse_scroll _ _). unfold parse_sizing.
  assert (Haxis : exists set,
            parse_sizing_axis (opt_h options) "Unknown sizing type" set_sizing_height x
            ≫= parse_sizing_axis (opt_w options) "Unknown sizinng type" set_sizing_width
            = parse_sizing_axis (Some tok) unknown set x
            \/ forall msg, parse_sizing_axis (Some tok) unknown set x = AssertFailed msg ->
               parse_sizing_axis (opt_h options) "Unknown sizing type" set_sizing_height x
               ≫= parse_sizing_axis (opt_w options) "Unknown sizinng type" set_sizing_width
               = AssertFailed msg).
  { destruct Htok as [(Hh & ->) | (Hh & Hw & ->)].
    - exists set_sizing_height. right. intros msg E. rewrite Hh, E. reflexivity.
    - exists set_sizing_width. left. rewrite Hh, Hw. reflexivity. }
  destruct Haxis as (set & Haxis).
  destruct (parse_sizing_axis_rejects tok unknown set x) as (Hformat & Hshape).
  assert (Hfail : forall msg, parse_sizing_axis (Some tok) unknown set x = AssertFailed msg ->
            parse_sizing_axis (opt_h options) "Unknown sizing type" set_sizing_height x
            ≫= parse_sizing_axis (opt_w options) "Unknown sizinng type" set_sizing_width
            = AssertFailed msg).
  { destruct Haxis as [-> | Hf]; auto. }
  split.
  - intros Hnone. apply Hfail, Hformat, Hnone.
  - intros kind value Hshape1 Hnul Hdash Hmax.
    destruct (Hshape kind value Hshape1 Hnul Hdash Hmax) as (Hlong & Hkind).
    split; [intros; apply Hfail, Hlong; assumption
           | intros; apply Hfail, Hkind; assumption].
Qed.

Lemma first_char_not_nul (N : nat) (s : string) :
  until_nul (array_prefix (S N) s) <> "" ->
  Ascii.eqb (char_at (S N) s 0) NUL = false.
Proof.
  unfold char_at. destruct s as [|c s]; [intros Hs; contradiction Hs; reflexivity |].
  cbn [array_prefix until_nul String.get]. destruct (Ascii.eqb c NUL); [| reflexivity].
  intros Hs. contradiction Hs. reflexivity.
Qed.

(** X24. The char arrays of the corner radius and of the border width hold
    six characters, so a token of six characters leaves no room for the
    terminating zero: the C string functions then read past the array. For
    a corner radius token that fills its array (as "tl-2xl" does) the call
    is undefined whatever the rest of the request; for a border width token
    that fills its array, on a request without a corner radius token and
    with a border color that is not transparent, likewise. *)
Theorem six_character_token_overruns_its_array options defaults :
  (String.length (until_nul (array_prefix 6 (opt_borderRadius options))) = 6%nat ->
   ParseComponentOptions options defaults
   = Undefined "string function reads past the end of a char array") /\
  (char_at 6 (opt_borderRadius options) 0 = NUL ->
   fne (color_a (b_color (opt_border options))) fzero = true ->
   String.length (until_nul (array_prefix 6 (b_width (opt_border options)))) = 6%nat ->
   ParseComponentOptions options defaults
   = Undefined "string function reads past the end of a char array").
Proof.
  split.
  - intros Hfull. unfold ParseComponentOptions, parse_borderRadius.
    rewrite first_char_not_nul by (intros E; rewrite E in Hfull; discriminate).
    cbn [negb]. unfold array_cstring. rewrite Hfull. reflexivity.
  - intros Hbr Ha Hfull. unfold ParseComponentOptions, parse_borderRadius, parse_border.
    rewrite Hbr, Ha. change (Ascii.eqb NUL NUL) with true.
    cbn [negb mbind outcome_bind mret outcome_ret].
    unfold array_cstring. rewrite Hfull. reflexivity.
Qed.

End TokenErrors.

Section TokenValues.
Context `{Libc} `{ClayHash}.

Lemma token_first_char_not_nul (N : nat) (left right : string) :
  has_char NUL (token left right) = false ->
  Ascii.eqb (char_at (S N) (token left right) 0) NUL = false.
Proof.
  intros Hnul. apply first_char_not_nul. unfold token in *.
  destruct left as [|c left].
  - change ("" +:+ "-" +:+ right) with (String (ch "-") right). discriminate.
  - rewrite append_cons in *. cbn [has_char] in Hnul.
    apply orb_false_elim in Hnul as [Hc _].
    cbn [array_prefix until_nul]. rewrite Hc. discriminate.
Qed.

(** What a char array of six makes of a token that fits it with its
    terminator. *)
Lemma token_in_array (left right : string) :
  has_char NUL (token left right) = false ->
  has_char (ch "-") right = false ->
  (String.length (token left right) < 6)%nat ->
  strnlen 6 (token left right)
    = Z.of_nat (String.length left + 1 + String.length right) /\
  array_cstring 6 (token left right) = Returned (token left right).
Proof.
  intros Hnul Hdash Hfit. unfold strnlen, array_cstring.
  rewrite array_prefix_short by lia. rewrite (until_nul_free _ Hnul).
  split; [rewrite length_token; reflexivity |].
  destruct (Nat.ltb_spec (String.length (token left right)) 6); [reflexivity | lia].
Qed.

Lemma radius_chain (sizeStr : string) :
  when (streq sizeStr "3xl") (fun _ => float_of_Z 24)
    (when (streq sizeStr "2xl") (fun _ => float_of_Z 16)
       (when (streq sizeStr "xl") (fun _ => float_of_Z 12)
          (when (streq sizeStr "lg") (fun _ => float_of_Z 8)
             (when (streq sizeStr "md") (fun _ => float_of_Z 6)
                (when (streq sizeStr "sm") (fun _ => float_of_Z 4)
                   (when (streq sizeStr "xs") (fun _ => float_of_Z 2) fzero))))))
  = radius_named sizeStr.
Proof.
  unfold radius_named, when, streq.
  destruct (String.eqb_spec sizeStr "xs") as [-> |]; [reflexivity |].
  destruct (String.eqb_spec sizeStr "sm") as [-> |]; [reflexivity |].
  destruct (String.eqb_spec sizeStr "md") as [-> |]; [reflexivity |].
  destruct (String.eqb_spec sizeStr "lg") as [-> |]; [reflexivity |].
  destruct (String.eqb_spec sizeStr "xl") as [-> |]; [reflexivity |].
  destruct (String.eqb_spec sizeStr "2xl") as [-> |]; [reflexivity |].
  destruct (String.eqb_spec sizeStr "3xl") as [-> |]; reflexivity.
Qed.

(** The block "Border radius parse" on a token. *)
Lemma parse_borderRadius_token options direction size x x' :
  opt_borderRadius options = token direction size ->
  has_char NUL (token direction size) = false ->
  has_char (ch "-") size = false ->
  (String.length (token direction size) <= 6)%nat ->
  parse_borderRadius options x = Returned x' ->
  ed_cornerRadius x' = corner_radius_of direction size (ed_cornerRadius x) /\
  (String.length direction < 3)%nat /\ (String.length size < 4)%nat.
Proof.
  intros Htok Hnul Hdash Hfit. unfold parse_borderRadius. rewrite Htok.
  rewrite (token_first_char_not_nul 5 _ _ Hnul). cbn [negb].
  unfold array_cstring at 1. rewrite array_prefix_short by lia.
  rewrite (until_nul_free _ Hnul).
  destruct (Nat.ltb_spec (String.length (token direction size)) 6) as [Hlt|];
    [| discriminate].
  destruct (token_in_array _ _ Hnul Hdash Hlt) as (Hlen & _). rewrite Hlen.
  rewrite length_token in Hlt.
  destruct (token_split direction size Hnul Hdash) as (_ & _ & Hlast & Hsize);
    [unfold SIZE_MAX, sizeof_ptr; lia |].
  cbn [mbind outcome_bind]. rewrite Hlast.
  rewrite bool_decide_eq_true_2 by discriminate.
  cbn [default from_option id]. rewrite Hsize.
  change (c_assert true ?m) with (Returned tt). cbn [mbind outcome_bind].
  unfold copy_terminated.
  destruct (Z.ltb_spec (Z.of_nat (String.length direction)) (Z.of_nat 3));
    [| discriminate].
  cbn [mbind outcome_bind].
  destruct (Z.ltb_spec (Z.of_nat (String.length size)) (Z.of_nat 4));
    [| discriminate].
  cbn [mbind outcome_bind].
  replace (Z.to_nat (Z.of_nat (String.length direction) + 1))
    with (String.length direction + 1)%nat by lia.
  change (Z.to_nat 0) with 0%nat.
  rewrite !Nat2Z.id, substring_token_left, substring_token_right.
  rewrite radius_chain. intros E. injection E as <-.
  split; [| lia]. unfold corner_radius_of, corners_selected, when, streq.
  destruct (String.eqb_spec direction "t") as [-> |]; [reflexivity |].
  destruct (String.eqb_spec direction "b") as [-> |]; [reflexivity |].
  destruct (String.eqb_spec direction "l") as [-> |]; [reflexivity |].
  destruct (String.eqb_spec direction "r") as [-> |]; [reflexivity |].
  destruct (String.eqb_spec direction "tl") as [-> |]; [reflexivity |].
  destruct (String.eqb_spec direction "tr") as [-> |]; [reflexivity |].
  destruct (String.eqb_spec direction "bl") as [-> |]; [reflexivity |].
  destruct (String.eqb_spec direction "br") as [-> |]; [reflexivity |].
  destruct (String.eqb_spec direction "a") as [-> |]; reflexivity.
Qed.

(** X25. A corner radius token "{direction}-{size}" replaces all four
    radii: in every configuration resolved from it, the corners the
    direction selects (t, b, l, r, tl, tr, bl, br, a) have the radius its
    size names (xs 2, sm 4, md 6, lg 8, xl 12, 2xl 16, 3xl 24) and the
    other corners have radius 0, whatever the defaults were. A size that is
    none of the seven names gives radius 0 without any error, and a
    direction that is none of the nine leaves the radii of the defaults. A
    request resolves only if the direction has at most 2 characters and
    the size at most 3. *)
Theorem corner_radius_token_replaces_all_corners options defaults r direction size :
  ParseComponentOptions options defaults = Returned r ->
  opt_borderRadius options = token direction size ->
  has_char NUL (token direction size) = false ->
  has_char (ch "-") size = false ->
  (String.length (token direction size) <= 6)%nat ->
  ed_cornerRadius r = corner_radius_of direction size (ed_cornerRadius defaults) /\
  (String.length direction < 3)%nat /\ (String.length size < 4)%nat.
Proof.
  intros E Htok Hnul Hdash Hfit.
  apply ParseComponentOptions_blocks in E as (x5 & x6 & E5 & E6 & E7).
  rewrite (parse_sizing_keeps ed_cornerRadius _ _ _ ltac:(reflexivity) E7).
  rewrite (parse_border_keeps ed_cornerRadius _ _ _ ltac:(reflexivity) E6).
  destruct (parse_borderRadius_token _ _ _ _ _ Htok Hnul Hdash Hfit E5) as (-> & Hd & Hs).
  split; [| auto]. f_equal.
  rewrite (parse_scroll_frame ed_cornerRadius) by reflexivity.
  rewrite (parse_align_frame ed_cornerRadius) by reflexivity.
  rewrite (parse_padding_frame ed_cornerRadius) by reflexivity.
  apply (parse_misc_frame ed_cornerRadius); reflexivity.
Qed.

End TokenValues.

Section BorderTokens.
Context `{Libc} `{ClayHash}.

Lemma char_at_first (N : nat) (s : string) : char_at (S N) s 0 = ch s.
Proof. destruct s; reflexivity. Qed.

(** The five [if (directionStr == ...)] of the border block, for a side
    character and a width string. *)
Lemma border_sides side widthStr color x x' :
  (r1 ← when_width (Ascii.eqb side (ch "t")) false false true false widthStr x;
   r2 ← when_width (Ascii.eqb side (ch "b")) false false false true widthStr r1;
   r3 ← when_width (Ascii.eqb side (ch "l")) true false false false widthStr r2;
   r4 ← when_width (Ascii.eqb side (ch "r")) false true false false widthStr r3;
   r5 ← when_width (Ascii.eqb side (ch "a")) true true true true widthStr r4;
   mret (set_border (set_border_color color) r5)) = Returned x' ->
  border_color (ed_border x') = color /\
  (edges_selected side = None ->
   border_width (ed_border x') = border_width (ed_border x)) /\
  (edges_selected side <> None ->
   exists n, to_uint16 (atof widthStr) = Returned n /\
     border_width (ed_border x')
     = border_width_of side n (border_width (ed_border x))).
Proof.
  unfold border_width_of, edges_selected, when_width.
  destruct (Ascii.eqb side (ch "t")) eqn:Et.
  { apply Ascii.eqb_eq in Et. subst side. cbn [Ascii.eqb Bool.eqb ch andb].
    destruct (to_uint16 (atof widthStr)) as [n| | |]; try discriminate.
    intros E. injection E as <-. split_and!; [reflexivity | discriminate | eauto]. }
  destruct (Ascii.eqb side (ch "b")) eqn:Eb.
  { apply Ascii.eqb_eq in Eb. subst side. cbn [Ascii.eqb Bool.eqb ch andb].
    destruct (to_uint16 (atof widthStr)) as [n| | |]; try discriminate.
    intros E. injection E as <-. split_and!; [reflexivity | discriminate | eauto]. }
  destruct (Ascii.eqb side (ch "l")) eqn:El.
  { apply Ascii.eqb_eq in El. subst side. cbn [Ascii.eqb Bool.eqb ch andb].
    destruct (to_uint16 (atof widthStr)) as [n| | |]; try discriminate.
    intros E. injection E as <-. split_and!; [reflexivity | discriminate | eauto]. }
  destruct (Ascii.eqb side (ch "r")) eqn:Er.
  { apply Ascii.eqb_eq in Er. subst side. cbn [Ascii.eqb Bool.eqb ch andb].
    destruct (to_uint16 (atof widthStr)) as [n| | |]; try discriminate.
    intros E. injection E as <-. split_and!; [reflexivity | discriminate | eauto]. }
  destruct (Ascii.eqb side (ch "a")) eqn:Ea.
  { destruct (to_uint16 (atof widthStr)) as [n| | |]; try discriminate.
    intros E. injection E as <-. split_and!; [reflexivity | discriminate | eauto]. }
  intros E. injection E as <-. split_and!; [reflexivity | reflexivity | congruence].
Qed.

(** The block "Border width parsing" on a token, with a color that is
    applied. *)
Lemma parse_border_token options side_text width x x' :
  fne (color_a (b_color (opt_border options))) fzero = true ->
  b_width (opt_border options) = token side_text width ->
  has_char NUL (token side_text width) = false ->
  has_char (ch "-") width = false ->
  (String.length (token side_text width) <= 6)%nat ->
  parse_border options x = Returned x' ->
  let side := ch (token side_text width) in
  (String.length width < 4)%nat /\
  border_color (ed_border x') = b_color (opt_border options) /\
  (edges_selected side = None ->
   border_width (ed_border x') = border_width (ed_border x)) /\
  (edges_selected side <> None ->
   exists n, to_uint16 (atof width) = Returned n /\
     border_width (ed_border x')
     = border_width_of side n (border_width (ed_border x))).
Proof.
  intros Ha Htok Hnul Hdash Hfit. unfold parse_border. rewrite Ha, Htok.
  unfold array_cstring at 1. rewrite array_prefix_short by lia.
  rewrite (until_nul_free _ Hnul).
  destruct (Nat.ltb_spec (String.length (token side_text width)) 6) as [Hlt|];
    [| discriminate].
  destruct (token_in_array _ _ Hnul Hdash Hlt) as (Hlen & _). rewrite Hlen.
  rewrite length_token in Hlt.
  destruct (token_split side_text width Hnul Hdash) as (_ & _ & Hlast & Hsize);
    [unfold SIZE_MAX, sizeof_ptr; lia |].
  cbn [mbind outcome_bind]. rewrite Hlast.
  rewrite bool_decide_eq_true_2 by discriminate.
  cbn [default from_option id]. rewrite Hsize.
  change (c_assert true ?m) with (Returned tt). cbn [mbind outcome_bind].
  unfold copy_terminated.
  destruct (Z.ltb_spec (Z.of_nat (String.length width)) (Z.of_nat 4));
    [| discriminate].
  cbn [mbind outcome_bind].
  replace (Z.to_nat (Z.of_nat (String.length side_text) + 1))
    with (String.length side_text + 1)%nat by lia.
  rewrite !Nat2Z.id, substring_token_right, char_at_first.
  intros E. cbv zeta. split; [lia |]. apply (border_sides _ _ _ _ _ E).
Qed.

(** X26. A border width token "{side}-{width}" with a border color that
    is not transparent replaces all five widths: the first character of
    the token selects the edges (t, b, l, r, or a for all four), these get
    [atof(width)] converted to 16 bits, and the other edges and the width
    between children become 0, whatever the defaults were; the color of the
    request is stored. A first character that is none of the five leaves
    the widths of the defaults, and still stores the color. A request
    resolves only if the width has at most 3 characters. *)
Theorem border_token_replaces_all_widths options defaults r side_text width :
  ParseComponentOptions options defaults = Returned r ->
  fne (color_a (b_color (opt_border options))) fzero = true ->
  b_width (opt_border options) = token side_text width ->
  has_char NUL (token side_text width) = false ->
  has_char (ch "-") width = false ->
  (String.length (token side_text width) <= 6)%nat ->
  let side := ch (token side_text width) in
  (String.length width < 4)%nat /\
  border_color (ed_border r) = b_color (opt_border options) /\
  (edges_selected side = None ->
   border_width (ed_border r) = border_width (ed_border defaults)) /\
  (edges_selected side <> None ->
   exists n, to_uint16 (atof width) = Returned n /\
     border_width (ed_border r)
     = border_width_of side n (border_width (ed_border defaults))).
Proof.
  intros E Ha Htok Hnul Hdash Hfit side.
  apply ParseComponentOptions_blocks in E as (x5 & x6 & E5 & E6 & E7).
  rewrite (parse_sizing_keeps ed_border _ _ _ ltac:(reflexivity) E7).
  assert (Hpre : ed_border x5 = ed_border defaults).
  { rewrite (parse_borderRadius_keeps ed_border _ _ _ ltac:(reflexivity) E5).
    rewrite (parse_scroll_frame ed_border) by reflexivity.
    rewrite (parse_align_frame ed_border) by reflexivity.
    rewrite (parse_padding_frame ed_border) by reflexivity.
    apply (parse_misc_frame ed_border); reflexivity. }
  rewrite <- Hpre.
  apply (parse_border_token _ _ _ _ _ Ha Htok Hnul Hdash Hfit E6).
Qed.

(** What the blocks "Misc", "Align parse" and "Scroll parse" leave in the
    members they assign. *)
Lemma parse_misc_spec options x :
  let r := parse_misc options x in
  ed_id r = match opt_id options with
            | Some name => Clay__HashString (until_nul name) 0 0
            | None => ed_id x
            end /\
  ed_backgroundColor r
  = (if color_given (opt_bg options) then opt_bg options else ed_backgroundColor x) /\
  lc_childGap (ed_layout r)
  = (if nonzero (opt_gap options) then opt_gap options else lc_childGap (ed_layout x)).
Proof.
  unfold parse_misc, color_given, when, toClayString.
  destruct (opt_id options), (_ || _), (nonzero _); split_and!; reflexivity.
Qed.

Lemma parse_align_spec options x :
  lc_childAlignment (ed_layout (parse_align options x))
  = {| align_x := align_x_of (char_at 2 (opt_align options) 1)
                    (align_x (lc_childAlignment (ed_layout x)));
       align_y := align_y_of (char_at 2 (opt_align options) 0)
                    (align_y (lc_childAlignment (ed_layout x))) |}.
Proof.
  unfold parse_align, align_x_of, align_y_of, when.
  generalize (char_at 2 (opt_align options) 0) (char_at 2 (opt_align options) 1).
  intros c0 c1.
  destruct (Ascii.eqb_spec c0 (ch "t")) as [-> |];
    [| destruct (Ascii.eqb_spec c0 (ch "c")) as [-> |];
       [| destruct (Ascii.eqb_spec c0 (ch "b")) as [-> |]]];
  (destruct (Ascii.eqb_spec c1 (ch "l")) as [-> |];
    [| destruct (Ascii.eqb_spec c1 (ch "c")) as [-> |];
       [| destruct (Ascii.eqb_spec c1 (ch "r")) as [-> |]]]);
  destruct x as [? [? ? ? [] ?] ? ? ? ? ? ? ? ?]; reflexivity.
Qed.

Lemma parse_scroll_spec options x :
  ed_scroll (parse_scroll options x)
  = scroll_of (char_at 1 (opt_scroll options) 0) (ed_scroll x).
Proof.
  unfold parse_scroll, scroll_of, when.
  generalize (char_at 1 (opt_scroll options) 0). intros c.
  destruct (Ascii.eqb_spec c (ch "v")) as [-> |];
    [| destruct (Ascii.eqb_spec c (ch "h")) as [-> |];
       [| destruct (Ascii.eqb_spec c (ch "b")) as [-> |]]];
  reflexivity.
Qed.

(** X27. The [align] and [scroll] members are read by position: the first
    character of [align] selects the vertical alignment (t top, c center,
    b bottom) and the second the horizontal one (l left, c center, r
    right), each on its own; the character of [scroll] selects the axes
    that scroll (v vertical, h horizontal, b both). Any other character
    (the zero of an unset member among them) leaves the default, without
    any error. *)
Theorem align_and_scroll_are_read_by_position options defaults r :
  ParseComponentOptions options defaults = Returned r ->
  lc_childAlignment (ed_layout r)
  = {| align_x := align_x_of (char_at 2 (opt_align options) 1)
                    (align_x (lc_childAlignment (ed_layout defaults)));
       align_y := align_y_of (char_at 2 (opt_align options) 0)
                    (align_y (lc_childAlignment (ed_layout defaults))) |} /\
  ed_scroll r = scroll_of (char_at 1 (opt_scroll options) 0) (ed_scroll defaults).
Proof.
  intros E. apply ParseComponentOptions_blocks in E as (x5 & x6 & E5 & E6 & E7).
  split.
  - rewrite (parse_sizing_keeps (fun d => lc_childAlignment (ed_layout d)) _ _ _
               ltac:(reflexivity) E7).
    rewrite (parse_border_keeps (fun d => lc_childAlignment (ed_layout d)) _ _ _
               ltac:(reflexivity) E6).
    rewrite (parse_borderRadius_keeps (fun d => lc_childAlignment (ed_layout d)) _ _ _
               ltac:(reflexivity) E5).
    rewrite (parse_scroll_frame (fun d => lc_childAlignment (ed_layout d))) by reflexivity.
    rewrite parse_align_spec.
    rewrite (parse_padding_frame (fun d => lc_childAlignment (ed_layout d))) by reflexivity.
    rewrite (parse_misc_frame (fun d => lc_childAlignment (ed_layout d))) by reflexivity.
    reflexivity.
  - rewrite (parse_sizing_keeps ed_scroll _ _ _ ltac:(reflexivity) E7).
    rewrite (parse_border_keeps ed_scroll _ _ _ ltac:(reflexivity) E6).
    rewrite (parse_borderRadius_keeps ed_scroll _ _ _ ltac:(reflexivity) E5).
    rewrite parse_scroll_spec.
    rewrite (parse_align_frame ed_scroll) by reflexivity.
    rewrite (parse_padding_frame ed_scroll) by reflexivity.
    rewrite (parse_misc_frame ed_scroll) by reflexivity.
    reflexivity.
Qed.

(** X28. Zero means unset in the block "Misc": the id of a resolved
    configuration is the hash of the request's name (up to its first zero
    character, with offset 0 and seed 0) when there is a name, the
    background color is the request's when one of its channels is not
    zero, the gap between children is the request's when it is not zero;
    otherwise each is the default's. So a request cannot replace a default
    gap by 0, nor a default background by transparent black. *)
Theorem misc_members_zero_means_unset options defaults r :
  ParseComponentOptions options defaults = Returned r ->
  ed_id r = match opt_id options with
            | Some name => Clay__HashString (until_nul name) 0 0
            | None => ed_id defaults
            end /\
  ed_backgroundColor r
  = (if color_given (opt_bg options) then opt_bg options
     else ed_backgroundColor defaults) /\
  lc_childGap (ed_layout r)
  = (if nonzero (opt_gap options) then opt_gap options
     else lc_childGap (ed_layout defaults)).
Proof.
  intros E. apply ParseComponentOptions_blocks in E as (x5 & x6 & E5 & E6 & E7).
  destruct (parse_misc_spec options defaults) as (Hid & Hbg & Hgap).
  split_and!.
  - rewrite (parse_sizing_keeps ed_id _ _ _ ltac:(reflexivity) E7).
    rewrite (parse_border_keeps ed_id _ _ _ ltac:(reflexivity) E6).
    rewrite (parse_borderRadius_keeps ed_id _ _ _ ltac:(reflexivity) E5).
    rewrite (parse_scroll_frame ed_id) by reflexivity.
    rewrite (parse_align_frame ed_id) by reflexivity.
    rewrite (parse_padding_frame ed_id) by reflexivity.
    exact Hid.
  - rewrite (parse_sizing_keeps ed_backgroundColor _ _ _ ltac:(reflexivity) E7).
    rewrite (parse_border_keeps ed_backgroundColor _ _ _ ltac:(reflexivity) E6).
    rewrite (parse_borderRadius_keeps ed_backgroundColor _ _ _ ltac:(reflexivity) E5).
    rewrite (parse_scroll_frame ed_backgroundColor) by reflexivity.
    rewrite (parse_align_frame ed_backgroundColor) by reflexivity.
    rewrite (parse_padding_frame ed_backgroundColor) by reflexivity.
    exact Hbg.
  - rewrite (parse_sizing_keeps (fun d => lc_childGap (ed_layout d)) _ _ _
               ltac:(reflexivity) E7).
    rewrite (parse_border_keeps (fun d => lc_childGap (ed_layout d)) _ _ _
               ltac:(reflexivity) E6).
    rewrite (parse_borderRadius_keeps (fun d => lc_childGap (ed_layout d)) _ _ _
               ltac:(reflexivity) E5).
    rewrite (parse_scroll_frame (fun d => lc_childGap (ed_layout d))) by reflexivity.
    rewrite (parse_align_frame (fun d => lc_childGap (ed_layout d))) by reflexivity.
    rewrite (parse_padding_frame (fun d => lc_childGap (ed_layout d))) by reflexivity.
    exact Hgap.
Qed.

End BorderTokens.

(* --------------------------------------------------------------------- *)
(** ** Style token compiler: resolving over a resolved configuration *)

(** A chain of [if (c) member = constant;] on one member: it changes that
    member only, and it changes nothing in a declaration whose member
    already has the value the chain leaves. *)
Section ConstantChains.
Context {V : Type} (π : Clay_ElementDeclaration -> V)
  (set : V -> Clay_ElementDeclaration -> Clay_ElementDeclaration).
Hypothesis get_set : forall v y, π (set v y) = v.
Hypothesis set_get : forall y, set (π y) y = y.
Hypothesis set_set : forall v w y, set v (set w y) = set v y.

Lemma settles_id : settles π set (fun x => x).
Proof. split; [auto | intros y; symmetry; apply set_get]. Qed.

Lemma settles_when c v C :
  settles π set C -> settles π set (fun x => when c (set v) (C x)).
Proof.
  intros [Hfix Hlocal]. split.
  - intros x y Hy. destruct c; cbn [when] in *.
    + rewrite get_set in Hy. rewrite (Hlocal y), set_set, <- Hy. apply set_get.
    + apply (Hfix x y Hy).
  - intros y. destruct c; cbn [when].
    + rewrite get_set, (Hlocal y), set_set. reflexivity.
    + apply Hlocal.
Qed.

Lemma settled C x y : settles π set C -> π y = π (C x) -> C y = y.
Proof. intros [Hfix _]. apply Hfix. Qed.

End ConstantChains.

(** Follow on the goal the step a returning run took. *)
Ltac rerun E :=
  let a := fresh "a" in
  let Ea := fresh "E" in
  apply bind_Returned in E as (a & Ea & E); rewrite Ea; cbn [mbind outcome_bind].

(** The goal [C y = y], for a chain [C] of assignments to the member [π]. *)
Ltac settled_by π set x y Hy :=
  match goal with
  | |- ?L = y =>
      let L' := eval pattern y in L in
      match L' with
      | ?C _ => apply (settled π set C x y); [| exact Hy]
      end
  end.

(** A member of the result is the one an earlier block left, when no later
    block assigns it. *)
Ltac carried E5 E6 E7 :=
  lazymatch goal with
  | |- ?L = _ =>
      lazymatch type of E7 with
      | _ = Returned ?r =>
          let L' := eval pattern r in L in
          lazymatch L' with
          | ?π _ =>
              try rewrite (parse_sizing_keeps π _ _ _ ltac:(reflexivity) E7);
              try rewrite (parse_border_keeps π _ _ _ ltac:(reflexivity) E6);
              try rewrite (parse_borderRadius_keeps π _ _ _ ltac:(reflexivity) E5);
              try (rewrite (parse_scroll_frame π) by reflexivity);
              try (rewrite (parse_align_frame π) by reflexivity);
              try (rewrite (parse_padding_frame π) by reflexivity);
              reflexivity
          end
      end
  end.

Section Idempotence.
Context `{Libc} `{ClayHash}.

Lemma parse_misc_settled options x y :
  ed_id y = ed_id (parse_misc options x) ->
  ed_backgroundColor y = ed_backgroundColor (parse_misc options x) ->
  lc_childGap (ed_layout y) = lc_childGap (ed_layout (parse_misc options x)) ->
  parse_misc options y = y.
Proof.
  unfold parse_misc, when.
  destruct (opt_id options), (_ || _), (nonzero _);
    destruct y as [? [? ? ? ? ?] ? ? ? ? ? ? ? ?]; simpl; intros; subst; reflexivity.
Qed.

Lemma parse_padding_settled options x y :
  lc_padding (ed_layout y) = lc_padding (ed_layout (parse_padding options x)) ->
  parse_padding options y = y.
Proof.
  rewrite parse_padding_spec. unfold parse_padding, most_specific, when.
  destruct (nonzero (opt_p options)), (nonzero (opt_px options)),
    (nonzero (opt_py options)), (nonzero (opt_pt options)),
    (nonzero (opt_pb options)), (nonzero (opt_pl options)),
    (nonzero (opt_pr options));
    destruct y as [? [? [] ? ? ?] ? ? ? ? ? ? ? ?]; simpl;
    intros E; injection E as -> -> -> ->; reflexivity.
Qed.

Lemma parse_align_settled options x y :
  lc_childAlignment (ed_layout y)
  = lc_childAlignment (ed_layout (parse_align options x)) ->
  parse_align options y = y.
Proof.
  unfold parse_align, when.
  destruct (Ascii.eqb _ (ch "t")), (Ascii.eqb _ (ch "c")), (Ascii.eqb _ (ch "b")),
    (Ascii.eqb _ (ch "l")), (Ascii.eqb _ (ch "c")), (Ascii.eqb _ (ch "r"));
    destruct y as [? [? ? ? [] ?] ? ? ? ? ? ? ? ?], x as [? [? ? ? [] ?] ? ? ? ? ? ? ? ?];
    simpl; intros E; injection E as -> ->; reflexivity.
Qed.

Lemma set_scroll_laws :
  (forall v y, ed_scroll (set_scroll v y) = v) /\
  (forall y, set_scroll (ed_scroll y) y = y) /\
  (forall v w y, set_scroll v (set_scroll w y) = set_scroll v y).
Proof. split_and!; [reflexivity | intros []; reflexivity | reflexivity]. Qed.

Lemma set_cornerRadius_laws :
  (forall v y, ed_cornerRadius (set_cornerRadius v y) = v) /\
  (forall y, set_cornerRadius (ed_cornerRadius y) y = y) /\
  (forall v w y, set_cornerRadius v (set_cornerRadius w y) = set_cornerRadius v y).
Proof. split_and!; [reflexivity | intros []; reflexivity | reflexivity]. Qed.

Lemma parse_scroll_settled options x y :
  ed_scroll y = ed_scroll (parse_scroll options x) -> parse_scroll options y = y.
Proof.
  destruct set_scroll_laws as (Hgs & Hsg & Hss).
  apply (settled ed_scroll set_scroll).
  unfold parse_scroll.
  repeat apply (settles_when _ _ Hgs Hsg Hss). apply (settles_id _ _ Hsg).
Qed.

Lemma parse_borderRadius_settled options x x' y :
  parse_borderRadius options x = Returned x' ->
  ed_cornerRadius y = ed_cornerRadius x' ->
  parse_borderRadius options y = Returned y.
Proof.
  destruct set_cornerRadius_laws as (Hgs & Hsg & Hss).
  unfold parse_borderRadius. intros E Hy.
  destruct (negb _); [| reflexivity]. cbv zeta in *.
  rerun E. rerun E. rerun E. rerun E.
  injection E as <-. f_equal.
  set (size := when (streq _ "3xl") _ _) in *. clearbody size.
  settled_by ed_cornerRadius set_cornerRadius x y Hy.
  repeat apply (settles_when _ _ Hgs Hsg Hss). apply (settles_id _ _ Hsg).
Qed.

Lemma parse_border_settled options x x' y :
  parse_border options x = Returned x' ->
  ed_border y = ed_border x' ->
  parse_border options y = Returned y.
Proof.
  unfold parse_border. intros E Hy.
  destruct (fne _ _); [| reflexivity]. cbv zeta in *.
  rerun E. rerun E. rerun E.
  unfold when_width in *.
  destruct (to_uint16 _) as [n| | |];
    destruct (Ascii.eqb _ (ch "t")), (Ascii.eqb _ (ch "b")), (Ascii.eqb _ (ch "l")),
      (Ascii.eqb _ (ch "r")), (Ascii.eqb _ (ch "a"));
    simpl in E |- *; try discriminate; injection E as <-;
    destruct y as [? ? ? ? ? ? ? ? [] ?]; simpl in Hy |- *;
    injection Hy as -> ->; reflexivity.
Qed.

Section Axis.
Context {π : Clay_ElementDeclaration -> Clay_SizingAxis}
  {set : Clay_SizingAxis -> Clay_Sizing -> Clay_Sizing}.
Let assign axis := set_layout (set_sizing (set axis)).
Hypothesis get_set : forall v y, π (assign v y) = v.
Hypothesis set_get : forall y, assign (π y) y = y.
Hypothesis set_set : forall v w y, assign v (assign w y) = assign v y.

Lemma parse_sizing_axis_settled tok unknown x x' y :
  parse_sizing_axis tok unknown set x = Returned x' ->
  π y = π x' ->
  parse_sizing_axis tok unknown set y = Returned y.
Proof.
  unfold parse_sizing_axis. intros E Hy.
  destruct tok as [tok|]; [| reflexivity]. cbv zeta in *.
  rerun E. rerun E. rerun E. rerun E.
  injection E as <-. f_equal.
  settled_by π assign x y Hy.
  repeat apply (settles_when π assign get_set set_get set_set).
  apply (settles_id π assign set_get).
Qed.

End Axis.

Lemma set_sizing_height_laws :
  let π d := sizing_height (lc_sizing (ed_layout d)) in
  let assign v := set_layout (set_sizing (set_sizing_height v)) in
  (forall v y, π (assign v y) = v) /\
  (forall y, assign (π y) y = y) /\
  (forall v w y, assign v (assign w y) = assign v y).
Proof.
  split_and!; [reflexivity | intros [? [[] ? ? ? ?] ? ? ? ? ? ? ? ?]; reflexivity | reflexivity].
Qed.

Lemma set_sizing_width_laws :
  let π d := sizing_width (lc_sizing (ed_layout d)) in
  let assign v := set_layout (set_sizing (set_sizing_width v)) in
  (forall v y, π (assign v y) = v) /\
  (forall y, assign (π y) y = y) /\
  (forall v w y, assign v (assign w y) = assign v y).
Proof.
  split_and!; [reflexivity | intros [? [[] ? ? ? ?] ? ? ? ? ? ? ? ?]; reflexivity | reflexivity].
Qed.

Lemma parse_sizing_settled options x x' y :
  parse_sizing options x = Returned x' ->
  lc_sizing (ed_layout y) = lc_sizing (ed_layout x') ->
  parse_sizing options y = Returned y.
Proof.
  destruct set_sizing_height_laws as (Hgs & Hsg & Hss).
  destruct set_sizing_width_laws as (Wgs & Wsg & Wss).
  unfold parse_sizing. intros E Hy.
  apply bind_Returned in E as (xh & Eh & Ew).
  rewrite (parse_sizing_axis_settled Hgs Hsg Hss _ _ _ _ y Eh).
  - cbn [mbind outcome_bind].
    apply (parse_sizing_axis_settled Wgs Wsg Wss _ _ _ _ y Ew).
    rewrite Hy. reflexivity.
  - rewrite Hy.
    apply (parse_sizing_axis_keeps (fun d => sizing_height (lc_sizing (ed_layout d)))
             _ _ set_sizing_width _ _ (fun _ _ => eq_refl) Ew).
Qed.

(** X29. Resolving a request over the configuration it resolved to changes
    nothing: whenever [ParseComponentOptions(options, defaults)] returns
    [r], [ParseComponentOptions(options, r)] returns [r] again. *)
Theorem resolving_again_changes_nothing options defaultOptions r :
  ParseComponentOptions options defaultOptions = Returned r ->
  ParseComponentOptions options r = Returned r.
Proof.
  intros E. apply ParseComponentOptions_blocks in E as (x5 & x6 & E5 & E6 & E7).
  cbv zeta in E5. unfold ParseComponentOptions. cbv zeta.
  rewrite (parse_misc_settled options defaultOptions r)
    by (carried E5 E6 E7).
  rewrite (parse_padding_settled options (parse_misc options defaultOptions) r)
    by (carried E5 E6 E7).
  rewrite (parse_align_settled options
             (parse_padding options (parse_misc options defaultOptions)) r)
    by (carried E5 E6 E7).
  rewrite (parse_scroll_settled options
             (parse_align options
                (parse_padding options (parse_misc options defaultOptions))) r)
    by (carried E5 E6 E7).
  rewrite (parse_borderRadius_settled options _ _ r E5) by (carried E5 E6 E7).
  cbn [mbind outcome_bind].
  rewrite (parse_border_settled options _ _ r E6) by (carried E5 E6 E7).
  cbn [mbind outcome_bind].
  rewrite (parse_sizing_settled options _ _ r E7) by reflexivity.
  reflexivity.
Qed.

End Idempotence.

(* --------------------------------------------------------------------- *)
(** ** The further properties on the examples *)

(** X7 on the format "ok" in the arena of 64 bytes. *)
Lemma F_reads_back_witness :
  arena_ok small_arena small_block /\
  @formats literal_stdio "ok" tt "ok" /\
  exists s a' m',
    @F literal_stdio small_arena small_block "ok" tt = Returned (s, a', m') /\
    str_length s = 2 /\
    memread m' (str_chars s) (str_length s) = Returned (bytes_of "ok") /\
    memread m' (str_chars s + str_length s) 1 = Returned [0].
Proof.
  assert (Hok : arena_ok small_arena small_block)
    by (unfold arena_ok, malloced; vm_compute; intuition discriminate).
  assert (Hf : @formats literal_stdio "ok" tt "ok")
    by (split_and!; [reflexivity | reflexivity | vm_compute; reflexivity]).
  split; [exact Hok |]. split; [exact Hf |].
  eexists _, _, _. split; [vm_compute; reflexivity |].
  edestruct (@F_reads_back literal_stdio small_arena small_block "ok" tt "ok")
    as (Hl & _ & _ & _ & _ & Hr & Hz & _);
    [exact Hok | exact Hf | vm_compute; reflexivity |].
  split; [exact Hl |]. split; [exact Hr | exact Hz].
Defined.

(** X8 on the formats "ab" and "cd", one after the other. *)
Lemma F_keeps_earlier_strings_witness :
  exists s1 a1 m1 s2 a2 m2,
    @F literal_stdio small_arena small_block "ab" tt = Returned (s1, a1, m1) /\
    @F literal_stdio a1 m1 "cd" tt = Returned (s2, a2, m2) /\
    str_chars s1 = 4096 /\ str_chars s2 = 4112 /\
    (str_chars s1 + str_length s1 + 1 <= str_chars s2 /\
     memread m2 (str_chars s1) (str_length s1) = Returned (bytes_of "ab") /\
     memread m2 (str_chars s1 + str_length s1) 1 = Returned [0] /\
     memread m2 (str_chars s2) (str_length s2) = Returned (bytes_of "cd")).
Proof.
  eexists _, _, _, _, _, _. split; [vm_compute; reflexivity |].
  split; [vm_compute; reflexivity |]. split; [reflexivity |]. split; [reflexivity |].
  eapply (@F_keeps_earlier_strings literal_stdio small_arena small_block
            "ab" tt "ab" _ _ _ "cd" tt "cd");
    [ unfold arena_ok, malloced; vm_compute; intuition discriminate
    | split_and!; [reflexivity | reflexivity | vm_compute; reflexivity]
    | split_and!; [reflexivity | reflexivity | vm_compute; reflexivity]
    | vm_compute; reflexivity
    | vm_compute; reflexivity ].
Defined.

(** X9 on the formats "ab", then, after a reset, "cd". *)
Lemma F_after_reset_overwrites_witness :
  exists s1 a1 m1 s2 a2 m2,
    @F literal_stdio small_arena small_block "ab" tt = Returned (s1, a1, m1) /\
    @F literal_stdio (ArenaReset a1) m1 "cd" tt = Returned (s2, a2, m2) /\
    memread m1 (str_chars s1) 2 = Returned (bytes_of "ab") /\
    (str_chars s2 = str_chars s1 /\
     memread m2 (str_chars s1) (Z.of_nat (String.length "cd")) = Returned (bytes_of "cd")).
Proof.
  eexists _, _, _, _, _, _. split; [vm_compute; reflexivity |].
  split; [vm_compute; reflexivity |]. split; [vm_compute; reflexivity |].
  eapply (@F_after_reset_overwrites literal_stdio small_arena small_block
            "ab" tt _ _ _ "cd" tt "cd");
    [ unfold arena_ok, malloced; vm_compute; intuition discriminate
    | reflexivity
    | split_and!; [reflexivity | reflexivity | vm_compute; reflexivity]
    | vm_compute; reflexivity
    | vm_compute; reflexivity ].
Defined.

(** X10 on two lines, "ab" and "c", in the font of fixed width at size
    20: the width is that of "ab", 2 x 6 x 20/10, and the height is 20. *)
Lemma measure_text_widest_line_witness :
  Forall (fun line => has_char (ch LF) line = false) ["ab"; "c"] /\
  @Raylib_MeasureText unit_raylib fixed_width_font ("ab" +:+ LF +:+ "c") size_20 [tt]
  = Returned {| dim_width := float_of_Z 24; dim_height := float_of_Z 20 |}.
Proof.
  assert (Hfree : Forall (fun line => has_char (ch LF) line = false) ["ab"; "c"])
    by (repeat constructor).
  split; [exact Hfree |].
  change ("ab" +:+ LF +:+ "c") with (String.concat LF ["ab"; "c"]).
  rewrite (@measure_text_widest_line unit_raylib fixed_width_font
             ["ab"; "c"] size_20 [tt] tt Hfree eq_refl).
  vm_compute. reflexivity.
Defined.

(** X11 on a text with a tab. *)
Lemma measure_text_control_character_witness :
  has_char TAB tabbed = true /\ TAB <> ch LF /\ char_value TAB < 32 /\
  forall size,
    @Raylib_MeasureText unit_raylib fixed_width_font tabbed size_20 [tt] <> Returned size.
Proof.
  assert (Hlf : TAB <> ch LF) by discriminate.
  assert (Hlow : char_value TAB < 32) by (vm_compute; reflexivity).
  split; [reflexivity |]. split; [exact Hlf |]. split; [exact Hlow |].
  apply (@measure_text_control_character unit_raylib fixed_width_font TAB tabbed
           size_20 [tt] eq_refl Hlf Hlow).
Defined.

(** X12 on a name Clay has no scroll container for. *)
Lemma scroll_helpers_dereference_null_witness :
  @ScrollContainerByY sum_hash ∅ "feed" (float_of_Z (-10))
    = IO [] (Undefined "null pointer dereference") /\
  @ScrollContainerTop sum_hash ∅ "feed" = IO [] (Undefined "null pointer dereference").
Proof.
  destruct (@scroll_helpers_dereference_null sum_hash ∅ "feed" (float_of_Z (-10))
              (lookup_empty _)) as (Hy & _ & Ht & _).
  split; [exact Hy | exact Ht].
Defined.

(** X13 to X15 on the container of content height 500 in a viewport of
    height 200, at offset -100. *)
Lemma scroll_by_y_stays_in_range_witness :
  feed_context !! feed_id = Some feed_container /\
  exists newY,
    @ScrollContainerByY sum_hash feed_context "feed" (float_of_Z 1000)
      = IO (if feq newY fzero
            then scroll_debug_output (float_of_Z 1000)
                   (scroll_floor (float_of_Z 500) (float_of_Z 200)) newY
            else [])
           (Returned (<[feed_id := with_scroll_y newY feed_container]> feed_context)) /\
    isnan newY = false /\
    fle (scroll_floor (float_of_Z 500) (float_of_Z 200)) newY = true /\
    fle newY fzero = true.
Proof.
  assert (Hc : feed_context !! feed_id = Some feed_container)
    by apply lookup_singleton_eq.
  split; [exact Hc |].
  exact (@scroll_by_y_stays_in_range sum_hash feed_context "feed" (float_of_Z 1000)
           feed_container Hc).
Defined.

Lemma scroll_by_x_clamps_witness :
  feed_context !! feed_id = Some feed_container /\
  @ScrollContainerByX sum_hash feed_context "feed" (float_of_Z (-40))
  = IO [] (Returned (<[feed_id := with_scroll_x
                                   (scroll_clamp fzero (float_of_Z (-40))
                                      (float_of_Z 300) (float_of_Z 300))
                                   feed_container]> feed_context)).
Proof.
  assert (Hc : feed_context !! feed_id = Some feed_container)
    by apply lookup_singleton_eq.
  split; [exact Hc |].
  exact (proj1 (@scroll_by_x_clamps sum_hash feed_context "feed" (float_of_Z (-40))
                  feed_container Hc)).
Defined.

Lemma scroll_top_and_bottom_witness :
  feed_context !! feed_id = Some feed_container /\
  @ScrollContainerTop sum_hash feed_context "feed"
    = IO [] (Returned (<[feed_id := with_scroll_y fzero feed_container]> feed_context)) /\
  @ScrollContainerBottom sum_hash feed_context "feed"
    = IO [] (Returned (<[feed_id := with_scroll_y
                                      (scroll_floor (float_of_Z 500) (float_of_Z 200))
                                      feed_container]> feed_context)).
Proof.
  assert (Hc : feed_context !! feed_id = Some feed_container)
    by apply lookup_singleton_eq.
  split; [exact Hc |].
  destruct (@scroll_top_and_bottom sum_hash feed_context "feed" feed_container Hc)
    as (Ht & Hb & _).
  split; [exact Ht | exact Hb].
Defined.

(** X16 on a rectangle, a text in a font the table does not have, and a
    scissor end: the rectangle is drawn and the run ends undefined. *)
Lemma render_in_order_until_failure_witness :
  result (@render_command unit_raylib [red_rectangle; label; clip_end] []
            example_camera red_rectangle) = Returned tt /\
  result (@render_command unit_raylib [red_rectangle; label; clip_end] []
            example_camera label) <> Returned tt /\
  @Clay_Raylib_Render unit_raylib [red_rectangle; label; clip_end] [] example_camera
  = IO [DrawRectangle 0 0 100 50 red]
       (Undefined "read past the end of the font table").
Proof.
  assert (Hpre : result (@render_command unit_raylib [red_rectangle; label; clip_end] []
                           example_camera red_rectangle) = Returned tt)
    by (vm_compute; reflexivity).
  assert (Hc : result (@render_command unit_raylib [red_rectangle; label; clip_end] []
                         example_camera label) <> Returned tt)
    by (vm_compute; discriminate).
  split; [exact Hpre |]. split; [exact Hc |].
  destruct (@render_in_order_until_failure unit_raylib [red_rectangle; label; clip_end]
              [] example_camera) as (_ & _ & Hfail).
  rewrite (Hfail [red_rectangle] label [clip_end] eq_refl
             (Forall_cons_2 _ _ _ Hpre (Forall_nil_2 _)) Hc).
  vm_compute. reflexivity.
Defined.

(** X17 on a scissor start, a rectangle and a scissor end. *)
Lemma scissor_calls_follow_scissor_commands_witness :
  result (@Clay_Raylib_Render unit_raylib [clip_start; red_rectangle; clip_end] []
            example_camera) = Returned tt /\
  omap event_clip
    (trace (@Clay_Raylib_Render unit_raylib [clip_start; red_rectangle; clip_end] []
              example_camera))
  = [ClipPush; ClipPop].
Proof.
  assert (Hr : result (@Clay_Raylib_Render unit_raylib
                         [clip_start; red_rectangle; clip_end] [] example_camera)
               = Returned tt) by (vm_compute; reflexivity).
  split; [exact Hr |].
  rewrite (@scissor_calls_follow_scissor_commands unit_raylib
             [clip_start; red_rectangle; clip_end] [] example_camera Hr).
  reflexivity.
Defined.

(** X18 on an image without a tint, 100 wide, of a texture 50 wide. *)
Lemma image_tint_and_scale_witness :
  transparent_black (image_backgroundColor (rd_image (renderData untinted_image))) = true /\
  @render_command unit_raylib [untinted_image] [] example_camera untinted_image
  = IO [DrawTextureEx small_texture {| vx := fzero; vy := fzero |} fzero
          (float_of_Z 2) WHITE] (Returned tt).
Proof.
  split; [reflexivity |].
  destruct (@image_tint_and_scale unit_raylib [untinted_image] [] example_camera
              untinted_image small_texture eq_refl eq_refl) as (Hwhite & _).
  rewrite (Hwhite eq_refl). vm_compute. reflexivity.
Defined.

(** X19 on a text in font 0 with an empty font table. *)
Lemma missing_font_or_texture_is_not_checked_witness :
  @render_command unit_raylib [label] [] example_camera label
  = IO [] (Undefined "read past the end of the font table").
Proof.
  destruct (@missing_font_or_texture_is_not_checked unit_raylib [label] []
              example_camera label) as (Htext & _).
  exact (Htext eq_refl eq_refl).
Defined.


(** X21, X22, X27 and X28 on [paddedRequest], resolved on the defaults of
    [Box]. *)
Lemma members_no_request_reaches_witness :
  @ParseComponentOptions decimal_libc sum_hash paddedRequest boxDefaultOptions
    = Returned paddedResolved /\
  untouched paddedResolved = untouched boxDefaultOptions.
Proof.
  assert (E : @ParseComponentOptions decimal_libc sum_hash paddedRequest boxDefaultOptions
              = Returned paddedResolved) by (vm_compute; reflexivity).
  split; [exact E |].
  exact (proj1 (@members_no_request_reaches decimal_libc sum_hash paddedRequest
                  boxDefaultOptions) paddedResolved E).
Defined.

Lemma sizing_kind_is_read_off_its_length_witness :
  @ParseComponentOptions decimal_libc sum_hash paddedRequest boxDefaultOptions
    = Returned paddedResolved /\
  opt_h paddedRequest = Some (token "percent" "50") /\
  opt_w paddedRequest = Some (token "fixed" "120") /\
  sizing_height (lc_sizing (ed_layout paddedResolved))
    = CLAY_SIZING_PERCENT (float_of_Z 50) /\
  sizing_width (lc_sizing (ed_layout paddedResolved))
    = CLAY_SIZING_FIXED (float_of_Z 120).
Proof.
  assert (E : @ParseComponentOptions decimal_libc sum_hash paddedRequest boxDefaultOptions
              = Returned paddedResolved) by (vm_compute; reflexivity).
  split; [exact E |]. split; [reflexivity |]. split; [reflexivity |].
  destruct (@sizing_kind_is_read_off_its_length decimal_libc sum_hash paddedRequest
              boxDefaultOptions paddedResolved E) as (Hh & Hw & _).
  split.
  - destruct (Hh "percent" "50" eq_refl eq_refl eq_refl) as (-> & _);
      [vm_compute; discriminate | vm_compute; reflexivity].
  - destruct (Hw "fixed" "120" eq_refl eq_refl eq_refl) as (-> & _);
      [vm_compute; discriminate | vm_compute; reflexivity].
Defined.

(** X23 on the height tokens "fit0" and "xy-1". *)
Lemma malformed_sizing_token_aborts_witness :
  @ParseComponentOptions decimal_libc sum_hash (request_h "fit0") boxDefaultOptions
    = AssertFailed "Height or width format is {typing}-{size} ex: fit-0" /\
  @ParseComponentOptions decimal_libc sum_hash (request_h "xy-1") boxDefaultOptions
    = AssertFailed "Unknown sizing type".
Proof.
  split.
  - apply (@malformed_sizing_token_aborts decimal_libc sum_hash (request_h "fit0")
             boxDefaultOptions "fit0" "Unknown sizing type" eq_refl eq_refl
             (or_introl (conj eq_refl eq_refl))).
    reflexivity.
  - destruct (@malformed_sizing_token_aborts decimal_libc sum_hash (request_h "xy-1")
                boxDefaultOptions "xy-1" "Unknown sizing type" eq_refl eq_refl
                (or_introl (conj eq_refl eq_refl))) as (_ & Hshape).
    destruct (Hshape "xy" "1" eq_refl eq_refl eq_refl) as (_ & Hkind);
      [vm_compute; discriminate |].
    apply Hkind; simpl; lia.
Defined.

(** X24 on the corner radius token "tl-2xl". *)
Lemma six_character_token_overruns_its_array_witness :
  String.length (until_nul (array_prefix 6 (opt_borderRadius (request_radius "tl-2xl"))))
    = 6%nat /\
  @ParseComponentOptions decimal_libc sum_hash (request_radius "tl-2xl") boxDefaultOptions
    = Undefined "string function reads past the end of a char array".
Proof.
  split; [reflexivity |].
  exact (proj1 (@six_character_token_overruns_its_array decimal_libc sum_hash
                  (request_radius "tl-2xl") boxDefaultOptions) eq_refl).
Defined.

(** X25 on the token "tl-lg" over defaults with a radius of 5 on every
    corner: the top left radius becomes 8 and the others 0. *)
Lemma corner_radius_token_replaces_all_corners_witness :
  exists r,
    @ParseComponentOptions decimal_libc sum_hash (request_radius "tl-lg")
      framedDefaultOptions = Returned r /\
    ed_cornerRadius framedDefaultOptions = CLAY_CORNER_RADIUS (float_of_Z 5) /\
    corner_radius_of "tl" "lg" (ed_cornerRadius framedDefaultOptions)
    = {| topLeft := float_of_Z 8; topRight := fzero;
         bottomLeft := fzero; bottomRight := fzero |} /\
    (ed_cornerRadius r
     = corner_radius_of "tl" "lg" (ed_cornerRadius framedDefaultOptions) /\
     (String.length "tl" < 3)%nat /\ (String.length "lg" < 4)%nat).
Proof.
  eexists. split; [vm_compute; reflexivity |]. split; [reflexivity |].
  split; [reflexivity |].
  eapply (@corner_radius_token_replaces_all_corners decimal_libc sum_hash
            (request_radius "tl-lg") framedDefaultOptions _ "tl" "lg");
    [vm_compute; reflexivity | reflexivity | reflexivity | reflexivity
    | vm_compute; lia].
Defined.

(** X26 on the token "t-7" over defaults with a border of 2 on every
    edge: the top width becomes 7 and the others 0. *)
Lemma border_token_replaces_all_widths_witness :
  exists r,
    @ParseComponentOptions decimal_libc sum_hash
      (request_border {| b_color := RED_500; b_width := "t-7" |})
      framedDefaultOptions = Returned r /\
    border_width_of (ch "t") 7 (border_width (ed_border framedDefaultOptions))
    = {| bw_left := 0; bw_right := 0; bw_top := 7; bw_bottom := 0;
         bw_betweenChildren := 0 |} /\
    ((String.length "7" < 4)%nat /\
     border_color (ed_border r) = RED_500 /\
     (edges_selected (ch (token "t" "7")) = None ->
      border_width (ed_border r) = border_width (ed_border framedDefaultOptions)) /\
     (edges_selected (ch (token "t" "7")) <> None ->
      exists n, to_uint16 (@atof decimal_libc "7") = Returned n /\
        border_width (ed_border r)
        = border_width_of (ch (token "t" "7")) n
            (border_width (ed_border framedDefaultOptions)))).
Proof.
  eexists. split; [vm_compute; reflexivity |]. split; [reflexivity |].
  eapply (@border_token_replaces_all_widths decimal_libc sum_hash
            (request_border {| b_color := RED_500; b_width := "t-7" |})
            framedDefaultOptions _ "t" "7");
    [vm_compute; reflexivity | reflexivity | reflexivity | reflexivity | reflexivity
    | vm_compute; lia].
Defined.

Lemma align_and_scroll_are_read_by_position_witness :
  @ParseComponentOptions decimal_libc sum_hash paddedRequest boxDefaultOptions
    = Returned paddedResolved /\
  lc_childAlignment (ed_layout paddedResolved)
    = {| align_x := CLAY_ALIGN_X_LEFT; align_y := CLAY_ALIGN_Y_TOP |} /\
  ed_scroll paddedResolved = {| scroll_horizontal := false; scroll_vertical := true |}.
Proof.
  assert (E : @ParseComponentOptions decimal_libc sum_hash paddedRequest boxDefaultOptions
              = Returned paddedResolved) by (vm_compute; reflexivity).
  split; [exact E |].
  destruct (@align_and_scroll_are_read_by_position decimal_libc sum_hash paddedRequest
              boxDefaultOptions paddedResolved E) as (-> & ->).
  split; reflexivity.
Defined.

Lemma misc_members_zero_means_unset_witness :
  @ParseComponentOptions decimal_libc sum_hash paddedRequest boxDefaultOptions
    = Returned paddedResolved /\
  ed_id paddedResolved = @Clay__HashString sum_hash "card" 0 0 /\
  ed_backgroundColor paddedResolved = SLATE_900 /\
  lc_childGap (ed_layout paddedResolved) = 8.
Proof.
  assert (E : @ParseComponentOptions decimal_libc sum_hash paddedRequest boxDefaultOptions
              = Returned paddedResolved) by (vm_compute; reflexivity).
  split; [exact E |].
  destruct (@misc_members_zero_means_unset decimal_libc sum_hash paddedRequest
              boxDefaultOptions paddedResolved E) as (-> & -> & ->).
  split_and!; reflexivity.
Defined.

(** X29 on the request that sets every group, over the defaults of [Box]. *)
Lemma resolving_again_changes_nothing_witness :
  exists r,
    @ParseComponentOptions decimal_libc sum_hash paddedRequest boxDefaultOptions
      = Returned r /\
    r <> boxDefaultOptions /\
    @ParseComponentOptions decimal_libc sum_hash paddedRequest r = Returned r.
Proof.
  eexists. split; [vm_compute; reflexivity |]. split; [discriminate |].
  apply (@resolving_again_changes_nothing decimal_libc sum_hash paddedRequest
           boxDefaultOptions).
  vm_compute. reflexivity.
Defined.
